(** * Project Flume producer: incremental fetch, watermarks, deduplication

    A shallow embedding of [producer/producer.py].  Python values that
    come out of [json.loads] are the inductive [value]; the persisted
    state is a finite map from source names to records; instants are
    integers counting microseconds since the epoch (the resolution of
    Python's [datetime]); exceptions are an explicit outcome; the wall
    clock, the HTTP server and the object store are the [World] the
    program runs in. *)

From Stdlib Require Import ZArith String Ascii.
From stdpp Require Import base option list gmap strings pretty.

Set Warnings "-register-all".
Local Open Scope string_scope.
Local Open Scope list_scope.
Local Open Scope Z_scope.

(** ** Python values *)

(** What [json.loads] produces.  Numbers are integers: quality codes,
    identifiers and counters are; floating point is outside the model. *)
Inductive value : Type :=
  | VNone
  | VBool (b : bool)
  | VInt (n : Z)
  | VStr (s : string)
  | VList (l : list value)
  | VDict (d : list (string * value)).

Abbreviation dict := (list (string * value)).

(** Python truthiness ([if x], [not x], [x or y]). *)
Definition truthy (v : value) : bool :=
  match v with
  | VNone => false
  | VBool b => b
  | VInt n => negb (n =? 0)
  | VStr s => negb (String.eqb s "")
  | VList l => match l with [] => false | _ => true end
  | VDict d => match d with [] => false | _ => true end
  end.

(** [x or y]. *)
Definition py_or (x y : value) : value := if truthy x then x else y.

(** [d.get(k)]: the value bound to [k], [None] when there is none. *)
Fixpoint dict_get (k : string) (d : dict) : value :=
  match d with
  | [] => VNone
  | (k', v) :: d' => if String.eqb k k' then v else dict_get k d'
  end.

(** The exceptions the producer can meet. *)
Inductive exn : Type :=
  | TypeError
  | AttributeError
  | ValueError
  | HTTPError (status : Z)
  | ConnectionError
  | ClientError.

(** The result of running a piece of Python: a value, or a raised exception. *)
Inductive outcome (A : Type) : Type :=
  | Ok (a : A)
  | Raise (e : exn).
Arguments Ok {A} a.
Arguments Raise {A} e.

(** The integer a value compares as under [<]; [bool] is a subclass of
    [int].  Strings, lists, dicts and [None] do not compare with an int. *)
Definition as_int (v : value) : option Z :=
  match v with
  | VInt n => Some n
  | VBool b => Some (if b then 1 else 0)
  | _ => None
  end.

(** [v < n] for an int [n]: [TypeError] when [v] is not a number. *)
Definition py_lt_int (v : value) (n : Z) : outcome bool :=
  match as_int v with
  | Some q => Ok (q <? n)
  | None => Raise TypeError
  end.

(** ** Configuration (module-level constants read from the environment) *)

Record Config : Type := {
  S3_BUCKET_NAME : string;
  KMS_KEY_ID : string;
  STATE_S3_KEY : string;
  API_URL_SWOB : string;
  API_URL_HYDROMETRIC : string;
  API_URL_CLIMATE_HOURLY : string;
  DEFAULT_INITIAL_LOOKBACK_MIN : Z;
  CLIMATE_HOURLY_LOOKBACK_DAYS : Z;
  FETCH_LIMIT : Z;
  MIN_QA_THRESHOLD : Z;
  MAX_FUTURE_DAYS : Z;
  INCREMENTAL_OVERLAP_MIN : Z
}.

(** The values the module takes when only the bucket is configured. *)
Definition default_config : Config := {|
  S3_BUCKET_NAME := "flume-bucket";
  KMS_KEY_ID := "";
  STATE_S3_KEY := "data_state/state.json";
  API_URL_SWOB := "https://api.weather.gc.ca/collections/swob-realtime/items?lang=en";
  API_URL_HYDROMETRIC := "https://api.weather.gc.ca/collections/hydrometric-realtime/items?lang=en";
  API_URL_CLIMATE_HOURLY := "https://api.weather.gc.ca/collections/climate-hourly/items?lang=en";
  DEFAULT_INITIAL_LOOKBACK_MIN := 60;
  CLIMATE_HOURLY_LOOKBACK_DAYS := 7;
  FETCH_LIMIT := 500;
  MIN_QA_THRESHOLD := 0;
  MAX_FUTURE_DAYS := 1;
  INCREMENTAL_OVERLAP_MIN := 15
|}.

(** [obj.get(k)]: only a dict has the method. *)
Definition py_get (obj : value) (k : string) : outcome value :=
  match obj with
  | VDict d => Ok (dict_get k d)
  | _ => Raise AttributeError
  end.

(** Sequencing of computations that may raise. *)
Definition obind {A B : Type} (c : outcome A) (k : A -> outcome B) : outcome B :=
  match c with
  | Ok a => k a
  | Raise e => Raise e
  end.

(** ** Quality filter *)

Definition critical_fields : list string := ["air_temp"; "rel_hum"; "stn_pres"].

(** The [for field in critical_fields] loop of [is_high_quality_data]: an
    absent code is skipped, the first code below the threshold ends the
    loop with [False]. *)
Fixpoint quality_loop (cfg : Config) (props : value) (fields : list string) : outcome bool :=
  match fields with
  | [] => Ok true
  | field :: rest =>
      let qa_field := field +:+ "-qa" in
      obind (py_get props qa_field) (fun qa_value =>
        match qa_value with
        | VNone => quality_loop cfg props rest
        | _ =>
            obind (py_lt_int qa_value (MIN_QA_THRESHOLD cfg)) (fun low =>
              if low then Ok false else quality_loop cfg props rest)
        end)
  end.

Definition is_high_quality_data (cfg : Config) (name : string) (props : value) : outcome bool :=
  if negb (String.eqb name "swob") then Ok true
  else quality_loop cfg props critical_fields.

(** ** Instants and the datetime library *)

(** An aware UTC [datetime]: microseconds since the epoch.  Instants are
    unbounded integers; the range of Python's [datetime] (years 1 to 9999)
    and the overflow of arithmetic at its ends are not modelled. *)
Abbreviation datetime := Z.

Definition timedelta_minutes (m : Z) : Z := m * 60000000.
Definition timedelta_days (d : Z) : Z := d * 86400000000.

(** The functions of Python's [datetime] module the producer calls.  They
    belong to the standard library, not to this program, so the
    development is parametric in them:
    - [fromisoformat_utc s] is [datetime.fromisoformat(s).astimezone(timezone.utc)],
      [None] when the call raises;
    - [strptime_utc s fmt] is [datetime.strptime(s, fmt).replace(tzinfo=timezone.utc)],
      [None] when the call raises;
    - [isoformat] and [strftime fmt] print an aware UTC instant. *)
Class DatetimeLib : Type := {
  fromisoformat_utc : string -> option datetime;
  strptime_utc : string -> string -> option datetime;
  isoformat : datetime -> string;
  strftime : string -> datetime -> string
}.

Definition hashable (v : value) : bool :=
  match v with
  | VList _ | VDict _ => false
  | _ => true
  end.

(** [str()] of a list or dict, which is never the empty string, and the
    built-in [hash] of a string, which the interpreter fixes per process. *)
Class PyRuntime : Type := {
  py_repr : value -> string;
  py_hash : string -> Z;
  py_repr_nonempty : forall v, hashable v = false -> py_repr v <> ""
}.

(** [str(v)]. *)
Definition py_str `{PyRuntime} (v : value) : string :=
  match v with
  | VStr s => s
  | VInt n => pretty n
  | VBool true => "True"
  | VBool false => "False"
  | VNone => "None"
  | _ => py_repr v
  end.

(** ** The persisted ingestion state *)

(** The [run_metadata] dict.  The two rejection counts and the two
    observation bounds are absent ([None]) in the metadata of a run that
    fetched nothing; the duration is kept in microseconds. *)
Record RunMetadata : Type := {
  features_fetched : nat;
  features_new : nat;
  features_rejected_quality : option nat;
  features_rejected_timestamp : option nat;
  run_duration_seconds : Z;
  oldest_observation : option string;
  newest_observation : option string
}.

(** One source's sub-state, [state[name]].  A key that is absent from the
    JSON object is [None]; [per_station] is only ever read through
    [setdefault("per_station", {})], so an absent map is the empty map. *)
Record SourceState : Type := {
  global_last_processed_dt : option string;
  per_station : gmap string string;
  last_run_timestamp : option string;
  stations_tracked : option nat;
  run_metadata : option RunMetadata
}.

(** [{}] as a sub-state. *)
Definition empty_source : SourceState := {|
  global_last_processed_dt := None;
  per_station := ∅;
  last_run_timestamp := None;
  stations_tracked := None;
  run_metadata := None
|}.

Abbreviation State := (gmap string SourceState).

(** [state.get(name, {})]: the sub-state of a source as the program reads it. *)
Definition substate (st : State) (name : string) : SourceState :=
  default empty_source (st !! name).

(** ** The world the producer runs in *)

(** An HTTP request as [requests.get] receives it: the URL and, on the
    first request only, the query parameters. *)
Record request : Type := {
  req_url : string;
  req_params : option (gmap string string)
}.

(** What one [requests.get(...)] followed by [raise_for_status()] and
    [json()] can come to. *)
Inductive http_outcome : Type :=
  | HttpOk (body : value)
  | HttpStatusError (status : Z)
  | HttpTransportError
  | HttpNotJson.

(** A call of [s3.put_object]. *)
Inductive s3_put : Type :=
  | PutDelta (key : string) (features : list value)
  | PutState (key : string) (st : State).

(** The environment outside the process: what the wall clock shows at each
    reading, and whether the n-th [put_object] call succeeds. *)
Record Env : Type := {
  clock : nat -> datetime;
  put_ok : nat -> bool
}.

(** The mutable part: the [state] dict (one object, aliased by every
    reference the program holds), the number of clock readings so far, the
    responses the server has still to give, the requests made and the
    [put_object] calls made. *)
Record World : Type := {
  w_state : State;
  w_ticks : nat;
  w_responses : list http_outcome;
  w_requests : list request;
  w_puts : list s3_put
}.

Definition set_state (f : State -> State) (w : World) : World :=
  {| w_state := f (w_state w); w_ticks := w_ticks w; w_responses := w_responses w;
     w_requests := w_requests w; w_puts := w_puts w |}.

(** Stateful computations that may raise; the world survives a raise. *)
Definition M (A : Type) : Type := World -> outcome A * World.

Definition ret {A : Type} (a : A) : M A := fun w => (Ok a, w).
Definition raise {A : Type} (e : exn) : M A := fun w => (Raise e, w).
Definition bind {A B : Type} (c : M A) (k : A -> M B) : M B :=
  fun w => match c w with
           | (Ok a, w') => k a w'
           | (Raise e, w') => (Raise e, w')
           end.
Definition lift {A : Type} (c : outcome A) : M A := fun w => (c, w).

(** [try: c  except Exception: h]. *)
Definition try_except {A : Type} (c : M A) (h : exn -> M A) : M A :=
  fun w => match c w with
           | (Ok a, w') => (Ok a, w')
           | (Raise e, w') => h e w'
           end.

Declare Scope py_scope.
Delimit Scope py_scope with py.
Notation "x <- c ;; k" := (bind c (fun x => k))
  (at level 100, c at next level, right associativity) : py_scope.
Notation "c ;;; k" := (bind c (fun _ => k))
  (at level 100, right associativity) : py_scope.

(** [datetime.now(timezone.utc)]: one more reading of the clock. *)
Definition now_utc (env : Env) : M datetime :=
  fun w => (Ok (clock env (w_ticks w)),
            {| w_state := w_state w; w_ticks := S (w_ticks w); w_responses := w_responses w;
               w_requests := w_requests w; w_puts := w_puts w |}).

Definition get_state : M State := fun w => (Ok (w_state w), w).
Definition modify_state (f : State -> State) : M unit := fun w => (Ok tt, set_state f w).

(** [s3.put_object(...)]: the call is recorded; it raises when the store refuses it. *)
Definition put_object (env : Env) (p : s3_put) : M unit :=
  fun w =>
    let w' := {| w_state := w_state w; w_ticks := w_ticks w; w_responses := w_responses w;
                 w_requests := w_requests w; w_puts := w_puts w ++ [p] |} in
    if put_ok env (length (w_puts w)) then (Ok tt, w') else (Raise ClientError, w').

(** ** Time parser and validator *)

(** Whether an instant lies inside the accepted window around [now]. *)
Definition in_window (cfg : Config) (now dt : datetime) : bool :=
  negb (now + timedelta_days (MAX_FUTURE_DAYS cfg) <? dt) && negb (dt <? now - timedelta_days 365).

(** [validate_timestamp(dt, source_str)] for a [dt] that is a datetime. *)
Definition validate_timestamp (cfg : Config) (env : Env) (dt : datetime) : M bool :=
  (now <- now_utc env ;;
   if now + timedelta_days (MAX_FUTURE_DAYS cfg) <? dt then ret false
   else if dt <? now - timedelta_days 365 then ret false
   else ret true)%py.

Definition ends_with_Z (s : string) : bool :=
  match rev (list_ascii_of_string s) with
  | c :: _ => Ascii.eqb c "Z"
  | [] => false
  end.

(** [s[:-1]]. *)
Definition drop_last (s : string) : string :=
  string_of_list_ascii (removelast (list_ascii_of_string s)).

Definition fallback_formats : list string :=
  ["%Y-%m-%dT%H:%M:%S.%fZ"; "%Y-%m-%dT%H:%M:%SZ"; "%Y-%m-%dT%H:%M:%S"; "%Y-%m-%d %H:%M:%S"].

(** The [for fmt in (...)] loop: the first pattern that parses wins. *)
Fixpoint strptime_first `{DatetimeLib} (s : string) (fmts : list string) : option datetime :=
  match fmts with
  | [] => None
  | fmt :: rest =>
      match strptime_utc s fmt with
      | Some dt => Some dt
      | None => strptime_first s rest
      end
  end.

(** The parsing half of [parse_iso_to_utc], for a truthy argument.  A value
    that is not a string has no [endswith] and is no input to [strptime]:
    every attempt raises and is caught, which leaves [dt = None]. *)
Definition parse_raw `{DatetimeLib} (s : value) : option datetime :=
  match s with
  | VStr str =>
      let primary :=
        if ends_with_Z str then fromisoformat_utc (drop_last str +:+ "+00:00")
        else fromisoformat_utc str in
      match primary with
      | Some dt => Some dt
      | None => strptime_first str fallback_formats
      end
  | _ => None
  end.

Definition parse_iso_to_utc `{DatetimeLib} (cfg : Config) (env : Env) (s : value)
  : M (option datetime) :=
  if negb (truthy s) then ret None
  else
    match parse_raw s with
    | Some dt =>
        (ok <- validate_timestamp cfg env dt ;;
         if ok then ret (Some dt) else ret None)%py
    | None => ret None
    end.

(** ** Source-specific field dispatch *)

(** [obj.get(a) or obj.get(b)]. *)
Definition py_get_or (obj : value) (a b : string) : outcome value :=
  obind (py_get obj a) (fun x => if truthy x then Ok x else py_get obj b).

(** The string [get_observation_timestamp] hands to the parser. *)
Definition observation_string (name : string) (props : value) : outcome value :=
  obind
    (if String.eqb name "swob" then py_get_or props "date_tm-value" "obs_date_tm"
     else if String.eqb name "hydrometric" then py_get props "DATETIME"
     else if String.eqb name "climate_hourly" then py_get_or props "UTC_DATE" "LOCAL_DATE"
     else Ok VNone)
    (fun timestamp_str =>
       if negb (truthy timestamp_str) then py_get props "processed_date_tm"
       else Ok timestamp_str).

Definition get_observation_timestamp `{DatetimeLib} (cfg : Config) (env : Env)
    (name : string) (props : value) : M (option datetime) :=
  (timestamp_str <- lift (observation_string name props) ;;
   parse_iso_to_utc cfg env timestamp_str)%py.

Definition get_station_id `{PyRuntime} (name : string) (props feat_id : value) : outcome string :=
  obind
    (if String.eqb name "swob" then py_get_or props "tc_id-value" "msc_id-value"
     else if String.eqb name "hydrometric" then py_get props "STATION_NUMBER"
     else if String.eqb name "climate_hourly" then py_get props "CLIMATE_IDENTIFIER"
     else Ok VNone)
    (fun station_key =>
       let station_key :=
         if negb (truthy station_key) then
           py_or feat_id
             (VStr ("unknown_" +:+ pretty (py_hash (String.substring 0 100 (py_str props)))))
         else station_key in
       Ok (py_str station_key)).

(** ** Paginated API client *)

(** Iterating over a value ([for x in v], [list.extend(v)]): a list gives
    its elements, a string its characters, a dict its keys; anything else
    is not iterable. *)
Definition py_iter (v : value) : outcome (list value) :=
  match v with
  | VList l => Ok l
  | VStr s => Ok ((fun c => VStr (String c "")) <$> list_ascii_of_string s)
  | VDict d => Ok ((fun kv => VStr (fst kv)) <$> d)
  | _ => Raise TypeError
  end.

(** [v == "next"]. *)
Definition is_next (v : value) : bool :=
  match v with
  | VStr s => String.eqb s "next"
  | _ => false
  end.

(** The [for link in links] loop: the [href] of the first link with
    [rel == "next"] and a truthy [href]. *)
Fixpoint find_next (links : list value) : outcome (option value) :=
  match links with
  | [] => Ok None
  | link :: rest =>
      obind (py_get link "rel") (fun rel =>
        if is_next rel then
          obind (py_get link "href") (fun href =>
            if truthy href then Ok (Some href) else find_next rest)
        else find_next rest)
  end.

(** [j.get(k, []) or []], iterated. *)
Definition page_list (j : value) (k : string) : outcome (list value) :=
  obind (py_get j k) (fun v => py_iter (py_or v (VList []))).

(** The body of [while next_url:] for a truthy [next_url], against the
    responses the server has still to give.  Every request consumes one
    response; a server that has none left to give is a connection
    failure.  Returns the outcome, the responses left and the requests
    made. *)
Fixpoint paging_loop (start_url : string) (first_params : gmap string string)
    (script : list http_outcome) (next_url : value) (items : list value)
    (reqs : list request) : outcome (list value) * list http_outcome * list request :=
  match next_url with
  | VStr url =>
      let req := {| req_url := url;
                    req_params := if String.eqb url start_url then Some first_params else None |} in
      match script with
      | [] => (Raise ConnectionError, [], reqs ++ [req])
      | resp :: script' =>
          match resp with
          | HttpStatusError _ => (Ok [], script', reqs ++ [req])
          | HttpTransportError => (Raise ConnectionError, script', reqs ++ [req])
          | HttpNotJson => (Raise ValueError, script', reqs ++ [req])
          | HttpOk j =>
              match page_list j "features" with
              | Raise e => (Raise e, script', reqs ++ [req])
              | Ok feats =>
                  let items := items ++ feats in
                  match obind (page_list j "links") find_next with
                  | Raise e => (Raise e, script', reqs ++ [req])
                  | Ok None => (Ok items, script', reqs ++ [req])
                  | Ok (Some href) =>
                      paging_loop start_url first_params script' href items (reqs ++ [req])
                  end
              end
          end
      end
  | _ => (Raise ValueError, script, reqs)
  end.

Definition fetch_features_with_paging (start_url : string) (params : gmap string string)
    (limit : Z) : M (list value) :=
  fun w =>
    let first_params := <["limit" := pretty limit]> params in
    if String.eqb start_url "" then (Ok [], w)
    else
      let '(r, script', reqs') :=
        paging_loop start_url first_params (w_responses w) (VStr start_url) [] (w_requests w) in
      (r, {| w_state := w_state w; w_ticks := w_ticks w; w_responses := script';
             w_requests := reqs'; w_puts := w_puts w |}).

(** ** Endpoint processor *)

(** Truthiness of an optional string read from the state. *)
Definition str_truthy (o : option string) : bool :=
  match o with
  | Some s => negb (String.eqb s "")
  | None => false
  end.

(** Lines 216-244: the start of the fetch window.  Both branches on the
    source name subtract the overlap from a stored watermark; they differ
    in the lookback of a first run.  A stored watermark that the parser
    turns into [None] makes [last_global_dt - timedelta(...)] a
    [TypeError]. *)
Definition compute_fetch_start `{DatetimeLib} (cfg : Config) (env : Env) (name : string)
  : M datetime :=
  (st <- get_state ;;
   let last_global_str := global_last_processed_dt (substate st name) in
   if String.eqb name "climate_hourly" then
     if str_truthy last_global_str then
       last_global_dt <- parse_iso_to_utc cfg env (VStr (default "" last_global_str)) ;;
       match last_global_dt with
       | Some dt => ret (dt - timedelta_minutes (INCREMENTAL_OVERLAP_MIN cfg))
       | None => raise TypeError
       end
     else
       now <- now_utc env ;;
       ret (now - timedelta_days (CLIMATE_HOURLY_LOOKBACK_DAYS cfg))
   else
     if str_truthy last_global_str then
       last_global_dt <- parse_iso_to_utc cfg env (VStr (default "" last_global_str)) ;;
       match last_global_dt with
       | Some dt => ret (dt - timedelta_minutes (INCREMENTAL_OVERLAP_MIN cfg))
       | None => raise TypeError
       end
     else
       now <- now_utc env ;;
       ret (now - timedelta_minutes (DEFAULT_INITIAL_LOOKBACK_MIN cfg)))%py.

(** The local variables of the [for feat in features] loop. *)
Record Loop : Type := {
  new_features : list value;
  max_seen_dt : datetime;
  min_obs_dt : option datetime;
  max_obs_dt : option datetime;
  rejected_quality_count : nat;
  rejected_timestamp_count : nat;
  seen_ids : list value
}.

Definition init_loop (fetch_start_dt : datetime) : Loop := {|
  new_features := [];
  max_seen_dt := fetch_start_dt;
  min_obs_dt := None;
  max_obs_dt := None;
  rejected_quality_count := 0;
  rejected_timestamp_count := 0;
  seen_ids := []
|}.

(** Equality of hashable values as a [set] sees it ([True == 1]). *)
Definition py_key_eqb (a b : value) : bool :=
  match a, b with
  | VNone, VNone => true
  | VStr s, VStr t => String.eqb s t
  | VNone, _ | _, VNone | VStr _, _ | _, VStr _ => false
  | _, _ =>
      match as_int a, as_int b with
      | Some m, Some n => m =? n
      | _, _ => false
      end
  end.

(** [feat_id in seen_ids]: a list or dict cannot be hashed. *)
Definition set_mem (v : value) (s : list value) : outcome bool :=
  if hashable v then Ok (existsb (py_key_eqb v) s) else Raise TypeError.

(** [state[name]["per_station"]], the dict the loop reads and writes in place. *)
Definition get_per_station (name : string) : M (gmap string string) :=
  fun w => (Ok (per_station (substate (w_state w) name)), w).

Definition with_per_station (f : gmap string string -> gmap string string) (ns : SourceState)
  : SourceState :=
  {| global_last_processed_dt := global_last_processed_dt ns;
     per_station := f (per_station ns);
     last_run_timestamp := last_run_timestamp ns;
     stations_tracked := stations_tracked ns;
     run_metadata := run_metadata ns |}.

(** [per_station[st_key] = v]. *)
Definition set_station (name st_key v : string) : M unit :=
  modify_state (fun st => <[name := with_per_station (insert st_key v) (substate st name)]> st).

(** What the loop does with a feature once its observation instant is known. *)
Definition decide_feature `{DatetimeLib} (cfg : Config) (env : Env) (name : string)
    (feat props : value) (st_key : string) (obs_dt : datetime) (ls : Loop) : M Loop :=
  (let min_obs := match min_obs_dt ls with
                  | Some m => if obs_dt <? m then Some obs_dt else Some m
                  | None => Some obs_dt
                  end in
   let max_obs := match max_obs_dt ls with
                  | Some m => if m <? obs_dt then Some obs_dt else Some m
                  | None => Some obs_dt
                  end in
   per_station <- get_per_station name ;;
   let last_station_str := per_station !! st_key in
   last_station_dt <- (if str_truthy last_station_str
                       then parse_iso_to_utc cfg env (VStr (default "" last_station_str))
                       else ret None) ;;
   let include := match last_station_dt with
                  | None => true
                  | Some last => last <? obs_dt
                  end in
   high <- (if include then lift (is_high_quality_data cfg name props) else ret true) ;;
   let rejected_quality := if include && negb high
                           then S (rejected_quality_count ls) else rejected_quality_count ls in
   let include := include && high in
   if include then
     (if negb (String.eqb st_key "") then
        per_station <- get_per_station name ;;
        let existing := per_station !! st_key in
        if negb (str_truthy existing) then set_station name st_key (isoformat obs_dt)
        else
          existing_dt <- parse_iso_to_utc cfg env (VStr (default "" existing)) ;;
          match existing_dt with
          | None => raise TypeError
          | Some e => if e <? obs_dt then set_station name st_key (isoformat obs_dt) else ret tt
          end
      else ret tt) ;;;
     ret {| new_features := new_features ls ++ [feat];
            max_seen_dt := if max_seen_dt ls <? obs_dt then obs_dt else max_seen_dt ls;
            min_obs_dt := min_obs; max_obs_dt := max_obs;
            rejected_quality_count := rejected_quality;
            rejected_timestamp_count := rejected_timestamp_count ls;
            seen_ids := seen_ids ls |}
   else
     ret {| new_features := new_features ls;
            max_seen_dt := max_seen_dt ls;
            min_obs_dt := min_obs; max_obs_dt := max_obs;
            rejected_quality_count := rejected_quality;
            rejected_timestamp_count := rejected_timestamp_count ls;
            seen_ids := seen_ids ls |})%py.

Definition add_seen (feat_id : value) (ls : Loop) : Loop :=
  {| new_features := new_features ls; max_seen_dt := max_seen_dt ls;
     min_obs_dt := min_obs_dt ls; max_obs_dt := max_obs_dt ls;
     rejected_quality_count := rejected_quality_count ls;
     rejected_timestamp_count := rejected_timestamp_count ls;
     seen_ids := feat_id :: seen_ids ls |}.

Definition count_timestamp_rejection (ls : Loop) : Loop :=
  {| new_features := new_features ls; max_seen_dt := max_seen_dt ls;
     min_obs_dt := min_obs_dt ls; max_obs_dt := max_obs_dt ls;
     rejected_quality_count := rejected_quality_count ls;
     rejected_timestamp_count := S (rejected_timestamp_count ls);
     seen_ids := seen_ids ls |}.

(** One iteration of [for feat in features] (lines 280-326). *)
Definition process_feature `{DatetimeLib} `{PyRuntime} (cfg : Config) (env : Env)
    (name : string) (feat : value) (ls : Loop) : M Loop :=
  (properties <- lift (py_get feat "properties") ;;
   let props := py_or properties (VDict []) in
   feat_id <- lift (py_get feat "id") ;;
   dup <- lift (set_mem feat_id (seen_ids ls)) ;;
   if dup then ret ls
   else
     let ls := add_seen feat_id ls in
     st_key <- lift (get_station_id name props feat_id) ;;
     obs_dt <- get_observation_timestamp cfg env name props ;;
     match obs_dt with
     | None => ret (count_timestamp_rejection ls)
     | Some obs_dt => decide_feature cfg env name feat props st_key obs_dt ls
     end)%py.

Fixpoint process_features `{DatetimeLib} `{PyRuntime} (cfg : Config) (env : Env)
    (name : string) (features : list value) (ls : Loop) : M Loop :=
  match features with
  | [] => ret ls
  | feat :: rest =>
      (ls' <- process_feature cfg env name feat ls ;;
       process_features cfg env name rest ls')%py
  end.

(** [ns = state.setdefault(name, {})]. *)
Definition setdefault_source (name : string) : M unit :=
  modify_state (fun st => match st !! name with
                          | Some _ => st
                          | None => <[name := empty_source]> st
                          end).

(** An assignment [ns[...] = ...] to the sub-state of [name]. *)
Definition update_source (name : string) (f : SourceState -> SourceState) : M unit :=
  modify_state (fun st => <[name := f (substate st name)]> st).

Definition set_last_run (t : string) (ns : SourceState) : SourceState :=
  {| global_last_processed_dt := global_last_processed_dt ns;
     per_station := per_station ns;
     last_run_timestamp := Some t;
     stations_tracked := stations_tracked ns;
     run_metadata := run_metadata ns |}.

Definition set_run_metadata (m : RunMetadata) (ns : SourceState) : SourceState :=
  {| global_last_processed_dt := global_last_processed_dt ns;
     per_station := per_station ns;
     last_run_timestamp := last_run_timestamp ns;
     stations_tracked := stations_tracked ns;
     run_metadata := Some m |}.

Definition set_global (g : string) (ns : SourceState) : SourceState :=
  {| global_last_processed_dt := Some g;
     per_station := per_station ns;
     last_run_timestamp := last_run_timestamp ns;
     stations_tracked := stations_tracked ns;
     run_metadata := run_metadata ns |}.

Definition set_stations_tracked (ns : SourceState) : SourceState :=
  {| global_last_processed_dt := global_last_processed_dt ns;
     per_station := per_station ns;
     last_run_timestamp := last_run_timestamp ns;
     stations_tracked := Some (size (per_station ns));
     run_metadata := run_metadata ns |}.

(** Lines 332-349: the delta artifact, written only when something is new.
    The temporary local file is not part of the model. *)
Definition upload_delta `{DatetimeLib} (env : Env) (name key_prefix : string)
    (new : list value) : M unit :=
  match new with
  | [] => ret tt
  | _ =>
      (t1 <- now_utc env ;;
       let ts := strftime "%Y%m%d%H%M%S" t1 in
       t2 <- now_utc env ;;
       let date_path := strftime "year=%Y/month=%m/day=%d" t2 in
       let filename := name +:+ "_delta_" +:+ ts +:+ ".json" in
       let s3_key := key_prefix +:+ "/" +:+ date_path +:+ "/" +:+ filename in
       put_object env (PutDelta s3_key new))%py
  end.

(** Lines 258-267: a run that fetched nothing. *)
Definition record_empty_run `{DatetimeLib} (env : Env) (name : string)
    (run_start_time : datetime) : M unit :=
  (setdefault_source name ;;;
   t1 <- now_utc env ;;
   update_source name (set_last_run (isoformat t1)) ;;;
   t2 <- now_utc env ;;
   update_source name (set_run_metadata
     {| features_fetched := 0; features_new := 0;
        features_rejected_quality := None; features_rejected_timestamp := None;
        run_duration_seconds := t2 - run_start_time;
        oldest_observation := None; newest_observation := None |}))%py.

(** Lines 269-370: a run that fetched at least one feature. *)
Definition record_run `{DatetimeLib} `{PyRuntime} (cfg : Config) (env : Env)
    (name key_prefix : string) (run_start_time fetch_start_dt : datetime)
    (features : list value) : M unit :=
  (setdefault_source name ;;;
   ls <- process_features cfg env name features (init_loop fetch_start_dt) ;;
   upload_delta env name key_prefix (new_features ls) ;;;
   update_source name (set_global (isoformat (max_seen_dt ls))) ;;;
   t1 <- now_utc env ;;
   update_source name (set_last_run (isoformat t1)) ;;;
   update_source name set_stations_tracked ;;;
   t2 <- now_utc env ;;
   update_source name (set_run_metadata
     {| features_fetched := length features;
        features_new := length (new_features ls);
        features_rejected_quality := Some (rejected_quality_count ls);
        features_rejected_timestamp := Some (rejected_timestamp_count ls);
        run_duration_seconds := t2 - run_start_time;
        oldest_observation := isoformat <$> min_obs_dt ls;
        newest_observation := isoformat <$> max_obs_dt ls |}))%py.

(** [process_endpoint(name, api_url, state, key_prefix)].  The [state]
    argument and the returned dict are the one object held in the world. *)
Definition process_endpoint `{DatetimeLib} `{PyRuntime} (cfg : Config) (env : Env)
    (name api_url key_prefix : string) : M unit :=
  (run_start_time <- now_utc env ;;
   fetch_start_dt <- compute_fetch_start cfg env name ;;
   let dt_filter := isoformat fetch_start_dt +:+ "/.." in
   let params : gmap string string := <["datetime" := dt_filter]> (<["lang" := "en"]> ∅) in
   fetched <- try_except
                (features <- fetch_features_with_paging api_url params (FETCH_LIMIT cfg) ;;
                 ret (Some features))
                (fun _ => ret None) ;;
   match fetched with
   | None => ret tt
   | Some [] => record_empty_run env name run_start_time
   | Some features =>
       record_run cfg env name key_prefix run_start_time fetch_start_dt features
   end)%py.

(** ** Run orchestrator *)

(** What [s3.get_object] and [json.loads] make of the stored checkpoint:
    the state, no object ([NoSuchKey]), or another failure. *)
Inductive stored_state : Type :=
  | Stored (st : State)
  | NoSuchKey
  | GetFailed.

(** [s3_get_json(bucket, key)]. *)
Definition s3_get_json (stored : stored_state) : M (option State) :=
  match stored with
  | Stored st => ret (Some st)
  | NoSuchKey => ret None
  | GetFailed => raise ClientError
  end.

(** One [try: state = process_endpoint(...)] with its handler
    [except Exception: state[name] = original_state.get(name, {})]. *)
Definition process_source `{DatetimeLib} `{PyRuntime} (cfg : Config) (env : Env)
    (original_state : State) (name api_url key_prefix : string) : M unit :=
  try_except (process_endpoint cfg env name api_url key_prefix)
    (fun _ => modify_state (fun st => <[name := substate original_state name]> st)).

(** [s3_put_json(bucket, key, state)]. *)
Definition s3_put_json (cfg : Config) (env : Env) : M unit :=
  (st <- get_state ;;
   put_object env (PutState (STATE_S3_KEY cfg) st))%py.

Definition main `{DatetimeLib} `{PyRuntime} (cfg : Config) (env : Env)
    (stored : stored_state) : M unit :=
  if String.eqb (S3_BUCKET_NAME cfg) "" then ret tt
  else
    (loaded <- s3_get_json stored ;;
     modify_state (fun _ => default ∅ loaded) ;;;
     original_state <- get_state ;;
     process_source cfg env original_state "swob" (API_URL_SWOB cfg) "swob_raw" ;;;
     process_source cfg env original_state "hydrometric" (API_URL_HYDROMETRIC cfg)
       "hydrometric_raw" ;;;
     process_source cfg env original_state "climate_hourly" (API_URL_CLIMATE_HOURLY cfg)
       "climate_hourly_raw" ;;;
     s3_put_json cfg env)%py.

(** ** A reference datetime library

    An executable [DatetimeLib] for the fixed-width ISO-8601 forms the
    upstream API and [isoformat] use, with the process time zone set to
    UTC.  The examples run on it; the general theorems do not depend on
    it. *)
Module RefDatetime.

Definition digit_of (c : ascii) : option Z :=
  let n := Z.of_nat (nat_of_ascii c) in
  if (48 <=? n) && (n <=? 57) then Some (n - 48) else None.

Fixpoint digits_acc (acc : Z) (cs : list ascii) : option Z :=
  match cs with
  | [] => Some acc
  | c :: cs' =>
      match digit_of c with
      | Some d => digits_acc (10 * acc + d) cs'
      | None => None
      end
  end.

(** A non-empty run of decimal digits. *)
Definition digits (cs : list ascii) : option Z :=
  match cs with
  | [] => None
  | _ => digits_acc 0 cs
  end.

Definition is_leap (y : Z) : bool :=
  ((y mod 4 =? 0) && negb (y mod 100 =? 0)) || (y mod 400 =? 0).

Definition days_in_month (y m : Z) : Z :=
  if m =? 2 then (if is_leap y then 29 else 28)
  else if (m =? 4) || (m =? 6) || (m =? 9) || (m =? 11) then 30
  else 31.

(** Days since 1970-01-01 of a proleptic Gregorian date. *)
Definition days_from_civil (y m d : Z) : Z :=
  let y' := if m <=? 2 then y - 1 else y in
  let era := y' / 400 in
  let yoe := y' - era * 400 in
  let doy := (153 * (if 2 <? m then m - 3 else m + 9) + 2) / 5 + d - 1 in
  let doe := yoe * 365 + yoe / 4 - yoe / 100 + doy in
  era * 146097 + doe - 719468.

Definition civil_from_days (z : Z) : Z * Z * Z :=
  let z := z + 719468 in
  let era := z / 146097 in
  let doe := z - era * 146097 in
  let yoe := (doe - doe / 1460 + doe / 36524 - doe / 146096) / 365 in
  let doy := doe - (365 * yoe + yoe / 4 - yoe / 100) in
  let mp := (5 * doy + 2) / 153 in
  let d := doy - (153 * mp + 2) / 5 + 1 in
  let m := if mp <? 10 then mp + 3 else mp - 9 in
  (yoe + era * 400 + (if m <=? 2 then 1 else 0), m, d).

(** [YYYY-MM-DD], one separator, [HH:MM:SS]. *)
Definition parse_date_time (sep : ascii -> bool) (cs : list ascii) : option Z :=
  match cs with
  | y1 :: y2 :: y3 :: y4 :: "-"%char :: m1 :: m2 :: "-"%char :: d1 :: d2 :: s
      :: h1 :: h2 :: ":"%char :: n1 :: n2 :: ":"%char :: s1 :: s2 :: [] =>
      y ← digits [y1; y2; y3; y4];
      m ← digits [m1; m2];
      d ← digits [d1; d2];
      h ← digits [h1; h2];
      n ← digits [n1; n2];
      sec ← digits [s1; s2];
      if sep s && (1 <=? y) && (1 <=? m) && (m <=? 12) && (1 <=? d)
         && (d <=? days_in_month y m) && (h <? 24) && (n <? 60) && (sec <? 60)
      then Some ((days_from_civil y m d * 86400 + h * 3600 + n * 60 + sec) * 1000000)
      else None
  | _ => None
  end.

(** [.f] to [.ffffff] as microseconds. *)
Definition parse_fraction (cs : list ascii) : option Z :=
  match cs with
  | "."%char :: ds =>
      if (Nat.leb (length ds) 6)
      then v ← digits ds; Some (v * 10 ^ (6 - Z.of_nat (length ds)))
      else None
  | _ => None
  end.

(** [+HH:MM] or [-HH:MM] as microseconds east of UTC. *)
Definition parse_offset (cs : list ascii) : option Z :=
  match cs with
  | sign :: h1 :: h2 :: ":"%char :: m1 :: m2 :: [] =>
      h ← digits [h1; h2];
      m ← digits [m1; m2];
      if (h <? 24) && (m <? 60) then
        if Ascii.eqb sign "+" then Some ((h * 3600 + m * 60) * 1000000)
        else if Ascii.eqb sign "-" then Some (- ((h * 3600 + m * 60) * 1000000))
        else None
      else None
  | _ => None
  end.

Definition any_sep (c : ascii) : bool := true.
Definition sep_is (x c : ascii) : bool := Ascii.eqb x c.

Fixpoint leading_digits (cs : list ascii) : list ascii :=
  match cs with
  | c :: tl => match digit_of c with
               | Some _ => c :: leading_digits tl
               | None => []
               end
  | [] => []
  end.

(** Date and time, then an optional fraction, then an optional offset. *)
Definition parse_iso (sep : ascii -> bool) (with_offset : bool) (s : string) : option Z :=
  let cs := list_ascii_of_string s in
  base ← parse_date_time sep (take 19 cs);
  let rest := drop 19 cs in
  let '(frac, rest) :=
    match rest with
    | "."%char :: tl =>
        let ds := leading_digits tl in
        (parse_fraction ("."%char :: ds), drop (length ds) tl)
    | _ => (Some 0, rest)
    end in
  f ← frac;
  match rest with
  | [] => Some (base + f)
  | _ => if with_offset then off ← parse_offset rest; Some (base + f - off) else None
  end.

Definition ref_fromisoformat_utc (s : string) : option datetime := parse_iso any_sep true s.

(** The four patterns of the fallback list, in their fixed-width form. *)
Definition ref_strptime_utc (s fmt : string) : option datetime :=
  if String.eqb fmt "%Y-%m-%dT%H:%M:%S.%fZ" then
    if ends_with_Z s then
      match parse_iso (sep_is "T") false (drop_last s) with
      | Some t => if Nat.ltb 19 (String.length (drop_last s)) then Some t else None
      | None => None
      end
    else None
  else if String.eqb fmt "%Y-%m-%dT%H:%M:%SZ" then
    if ends_with_Z s then parse_date_time (sep_is "T") (list_ascii_of_string (drop_last s))
    else None
  else if String.eqb fmt "%Y-%m-%dT%H:%M:%S" then
    parse_date_time (sep_is "T") (list_ascii_of_string s)
  else if String.eqb fmt "%Y-%m-%d %H:%M:%S" then
    parse_date_time (sep_is " ") (list_ascii_of_string s)
  else None.

(** [n] printed in at least [w] digits. *)
Definition pad (w : nat) (n : Z) : string :=
  let s := pretty n in
  string_of_list_ascii (replicate (w - String.length s) "0"%char) +:+ s.

(** The fields of an instant: year, month, day, hour, minute, second, microsecond. *)
Definition fields (t : datetime) : Z * Z * Z * Z * Z * Z * Z :=
  let secs := t / 1000000 in
  let us := t mod 1000000 in
  let days := secs / 86400 in
  let sod := secs mod 86400 in
  let '(y, m, d) := civil_from_days days in
  (y, m, d, sod / 3600, (sod mod 3600) / 60, sod mod 60, us).

Definition ref_isoformat (t : datetime) : string :=
  let '(y, m, d, h, n, s, us) := fields t in
  pad 4 y +:+ "-" +:+ pad 2 m +:+ "-" +:+ pad 2 d +:+ "T" +:+
  pad 2 h +:+ ":" +:+ pad 2 n +:+ ":" +:+ pad 2 s +:+
  (if us =? 0 then "" else "." +:+ pad 6 us) +:+ "+00:00".

Fixpoint format_with (t : datetime) (fmt : list ascii) : string :=
  let '(y, m, d, h, n, s, us) := fields t in
  match fmt with
  | "%"%char :: c :: rest =>
      (if Ascii.eqb c "Y" then pad 4 y
       else if Ascii.eqb c "m" then pad 2 m
       else if Ascii.eqb c "d" then pad 2 d
       else if Ascii.eqb c "H" then pad 2 h
       else if Ascii.eqb c "M" then pad 2 n
       else if Ascii.eqb c "S" then pad 2 s
       else if Ascii.eqb c "f" then pad 6 us
       else String c "") +:+ format_with t rest
  | c :: rest => String c (format_with t rest)
  | [] => ""
  end.

Definition ref_strftime (fmt : string) (t : datetime) : string :=
  format_with t (list_ascii_of_string fmt).

Definition lib : DatetimeLib := {|
  fromisoformat_utc := ref_fromisoformat_utc;
  strptime_utc := ref_strptime_utc;
  isoformat := ref_isoformat;
  strftime := ref_strftime
|}.

End RefDatetime.

(** ** A reference interpreter runtime *)
Module RefRuntime.

(** [repr] of a JSON value, as [str()] prints lists and dicts. *)
Fixpoint ref_repr (v : value) : string :=
  match v with
  | VNone => "None"
  | VBool true => "True"
  | VBool false => "False"
  | VInt n => pretty n
  | VStr s => "'" +:+ s +:+ "'"
  | VList l =>
      "[" +:+ (fix items (l : list value) : string :=
                 match l with
                 | [] => ""
                 | [x] => ref_repr x
                 | x :: tl => ref_repr x +:+ ", " +:+ items tl
                 end) l +:+ "]"
  | VDict d =>
      "{" +:+ (fix items (d : list (string * value)) : string :=
                 match d with
                 | [] => ""
                 | [(k, x)] => "'" +:+ k +:+ "': " +:+ ref_repr x
                 | (k, x) :: tl => "'" +:+ k +:+ "': " +:+ ref_repr x +:+ ", " +:+ items tl
                 end) d +:+ "}"
  end.

(** A polynomial string hash standing for the interpreter's. *)
Definition ref_hash (s : string) : Z :=
  fold_left (fun h c => (h * 31 + Z.of_nat (nat_of_ascii c)) mod 2 ^ 61)
            (list_ascii_of_string s) 7.

Definition runtime : PyRuntime.
Proof.
  refine {| py_repr := ref_repr; py_hash := ref_hash; py_repr_nonempty := _ |}.
  intros v. destruct v; cbn [hashable ref_repr]; intros Hv E;
    solve [discriminate Hv | discriminate E].
Defined.

End RefRuntime.

(** The examples run on the reference library and runtime. *)
#[global] Existing Instance RefDatetime.lib.
#[global] Existing Instance RefRuntime.runtime.

(** * Vocabulary of the properties *)

(** The world after one more reading of the clock. *)
Definition tick (w : World) : World :=
  {| w_state := w_state w; w_ticks := S (w_ticks w); w_responses := w_responses w;
     w_requests := w_requests w; w_puts := w_puts w |}.

(** What the clock shows at the next reading. *)
Definition now_of (env : Env) (w : World) : datetime := clock env (w_ticks w).

(** The quality code of a field as the filter reads it. *)
Definition qa_code (props : dict) (field : string) : value :=
  dict_get (field +:+ "-qa") props.

(** A code that is absent or a number. *)
Definition qa_typed (v : value) : bool :=
  match v with
  | VNone => true
  | _ => bool_decide (is_Some (as_int v))
  end.

(** A code that is present and numerically below the threshold. *)
Definition qa_below (cfg : Config) (v : value) : bool :=
  match v with
  | VNone => false
  | _ => match as_int v with
         | Some q => q <? MIN_QA_THRESHOLD cfg
         | None => false
         end
  end.

(** A code that is absent, or a number at or above the threshold. *)
Definition qa_passes (cfg : Config) (v : value) : bool :=
  match v with
  | VNone => true
  | _ => match as_int v with
         | Some q => MIN_QA_THRESHOLD cfg <=? q
         | None => false
         end
  end.

(** The lookback of a first run: days for the climate-hourly source,
    minutes for the others. *)
Definition initial_lookback (cfg : Config) (name : string) : Z :=
  if String.eqb name "climate_hourly"
  then timedelta_days (CLIMATE_HOURLY_LOOKBACK_DAYS cfg)
  else timedelta_minutes (DEFAULT_INITIAL_LOOKBACK_MIN cfg).

(** The features array of a page and its link to the next page, as the
    client reads them. *)
Definition page_features (j : value) : outcome (list value) := page_list j "features".
Definition page_next (j : value) : outcome (option value) :=
  obind (page_list j "links") find_next.

Definition features_of (j : value) : list value :=
  match page_features j with
  | Ok l => l
  | Raise _ => []
  end.

(** The features of a sequence of pages, page after page. *)
Definition all_features (pages : list value) : list value :=
  concat (features_of <$> pages).

(** [follows pages hrefs]: every page is a readable feature collection
    and carries a [next] link, the i-th page to the i-th URL of [hrefs]. *)
Fixpoint follows (pages : list value) (hrefs : list string) : Prop :=
  match pages, hrefs with
  | [], [] => True
  | j :: more, h :: hs =>
      page_features j = Ok (features_of j) ∧ page_next j = Ok (Some (VStr h)) ∧ follows more hs
  | _, _ => False
  end.

(** A readable page without a [next] link. *)
Definition final_page (j : value) : Prop :=
  page_features j = Ok (features_of j) ∧ page_next j = Ok None.

(** The request the client makes for a URL: the first-request parameters
    go with the start URL and with no other (line 178). *)
Definition request_for (start_url : string) (first_params : gmap string string)
    (url : string) : request :=
  {| req_url := url;
     req_params := if String.eqb url start_url then Some first_params else None |}.

(** A request for the bare URL. *)
Definition bare (url : string) : request := {| req_url := url; req_params := None |}.

(** The URLs requested while [hrefs] are being followed from [url], and
    the URL reached at the end. *)
Definition visited (url : string) (hrefs : list string) : list string :=
  take (length hrefs) (url :: hrefs).
Definition frontier (url : string) (hrefs : list string) : string :=
  default url (last hrefs).

(** The world after a fetch: responses consumed, requests recorded. *)
Definition after_fetch (w : World) (responses : list http_outcome) (reqs : list request)
  : World :=
  {| w_state := w_state w; w_ticks := w_ticks w; w_responses := responses;
     w_requests := reqs; w_puts := w_puts w |}.

(** The query parameters of the first request for a window starting at
    [fetch_start_dt], before and after the client adds the page size. *)
Definition window_params `{DatetimeLib} (fetch_start_dt : datetime) : gmap string string :=
  <["datetime" := isoformat fetch_start_dt +:+ "/.."]> (<["lang" := "en"]> ∅).
Definition with_limit (limit : Z) (params : gmap string string) : gmap string string :=
  <["limit" := pretty limit]> params.

(** The identifier and the properties of a feature as the loop reads
    them (lines 281-282). *)
Definition feature_id (fd : dict) : value := dict_get "id" fd.
Definition feature_props (fd : dict) : value := py_or (dict_get "properties" fd) (VDict []).

(** A feature the loop can process: a JSON object whose identifier can be
    hashed and whose properties, if any, are a JSON object. *)
Definition well_formed (feat : value) : bool :=
  match feat with
  | VDict fd =>
      hashable (feature_id fd) &&
      match feature_props fd with VDict _ => true | _ => false end
  | _ => false
  end.

(** The station key of a feature. *)
Definition station_of `{PyRuntime} (name : string) (feat : value) : string :=
  match feat with
  | VDict fd =>
      match get_station_id name (feature_props fd) (feature_id fd) with
      | Ok k => k
      | Raise _ => ""
      end
  | _ => ""
  end.

(** The observation instant a feature carries, before validation. *)
Definition observed `{DatetimeLib} (name : string) (feat : value) : option datetime :=
  match feat with
  | VDict fd =>
      match observation_string name (feature_props fd) with
      | Ok v => if truthy v then parse_raw v else None
      | Raise _ => None
      end
  | _ => None
  end.

(** The watermark a station has in a state: the instant its stored string
    denotes. *)
Definition watermark_of `{DatetimeLib} (st : State) (name k : string) : option datetime :=
  match per_station (substate st name) !! k with
  | Some s => if String.eqb s "" then None else parse_raw (VStr s)
  | None => None
  end.

(** An instant that stays inside the validation window at every reading
    of the clock. *)
Definition stays_valid (cfg : Config) (env : Env) (t : datetime) : Prop :=
  ∀ i, in_window cfg (clock env i) t = true.

(** An observation the station's watermark already covers. *)
Definition already_accepted `{DatetimeLib} `{PyRuntime} (cfg : Config) (env : Env)
    (name : string) (st : State) (feat : value) : Prop :=
  well_formed feat = true ∧
  ∃ T, watermark_of st name (station_of name feat) = Some T ∧
       stays_valid cfg env T ∧
       ∀ t, observed name feat = Some t → t ≤ T.

(** The loop variables after a feature that was looked at and not
    accepted for its instant: only the observed range moves. *)
Definition note_observation (obs_dt : datetime) (ls : Loop) : Loop :=
  {| new_features := new_features ls;
     max_seen_dt := max_seen_dt ls;
     min_obs_dt := match min_obs_dt ls with
                   | Some m => if obs_dt <? m then Some obs_dt else Some m
                   | None => Some obs_dt
                   end;
     max_obs_dt := match max_obs_dt ls with
                   | Some m => if m <? obs_dt then Some obs_dt else Some m
                   | None => Some obs_dt
                   end;
     rejected_quality_count := rejected_quality_count ls;
     rejected_timestamp_count := rejected_timestamp_count ls;
     seen_ids := seen_ids ls |}.

(** The loop variables after a feature that was accepted. *)
Definition accept_feature (feat : value) (obs_dt : datetime) (ls : Loop) : Loop :=
  {| new_features := new_features ls ++ [feat];
     max_seen_dt := if max_seen_dt ls <? obs_dt then obs_dt else max_seen_dt ls;
     min_obs_dt := min_obs_dt (note_observation obs_dt ls);
     max_obs_dt := max_obs_dt (note_observation obs_dt ls);
     rejected_quality_count := rejected_quality_count ls;
     rejected_timestamp_count := rejected_timestamp_count ls;
     seen_ids := seen_ids ls |}.

(** A feature without an identifier: ['id'] is absent (or null), so
    [feat.get("id")] is [None]. *)
Definition idless (feat : value) : bool :=
  match feat with
  | VDict fd => match dict_get "id" fd with VNone => true | _ => false end
  | _ => false
  end.

(** The batch without its id-less features, and the batch without the
    id-less features that come after the first one. *)
Definition drop_idless (features : list value) : list value :=
  filter (λ f, idless f = false) features.
Fixpoint keep_first_idless (features : list value) : list value :=
  match features with
  | [] => []
  | f :: rest => if idless f then f :: drop_idless rest else f :: keep_first_idless rest
  end.

(** [None in seen_ids]. *)
Definition seen_none (ls : Loop) : bool := existsb (py_key_eqb VNone) (seen_ids ls).

(** [preserves R c]: whatever [c] returns or raises, the world it leaves
    is related by [R] to the world it started in. *)
Definition preserves {A : Type} (R : World → World → Prop) (c : M A) : Prop :=
  ∀ w r w', c w = (r, w') → R w w'.

(** The world after one more [put_object] call. *)
Definition add_put (p : s3_put) (w : World) : World :=
  {| w_state := w_state w; w_ticks := w_ticks w; w_responses := w_responses w;
     w_requests := w_requests w; w_puts := w_puts w ++ [p] |}.

(** The sub-states of all sources but [name] are the same in both worlds. *)
Definition elsewhere (name : string) (w w' : World) : Prop :=
  ∀ m, m ≠ name → w_state w' !! m = w_state w !! m.

Definition is_delta (p : s3_put) : bool :=
  match p with
  | PutDelta _ _ => true
  | PutState _ _ => false
  end.

(** The second world has the [put_object] calls of the first, followed by
    calls that write delta artifacts only. *)
Definition deltas_added (w w' : World) : Prop :=
  ∃ ds, w_puts w' = w_puts w ++ ds ∧ forallb is_delta ds = true.

(** The state the run starts from: the stored checkpoint, or the empty
    state when there is none. *)
Definition loaded (stored : stored_state) : option State :=
  match stored with
  | Stored st => Some st
  | NoSuchKey => Some ∅
  | GetFailed => None
  end.

(** What the orchestrator settles on for a source, given the outcome [r]
    of its [process_endpoint] call: the pre-run snapshot if the call
    raised, the sub-state the call left otherwise. *)
Definition settled (original : State) (name : string) (r : outcome unit * World)
  : SourceState :=
  match fst r with
  | Raise _ => substate original name
  | Ok _ => substate (w_state (snd r)) name
  end.

(** ** Sample data for the executable examples *)

(** Surface-weather properties: one quality code below zero, and one code
    exactly at the default threshold beside an absent one. *)
Definition props_low_humidity_code : dict :=
  [("air_temp", VInt 21); ("air_temp-qa", VInt 100);
   ("rel_hum", VInt 40); ("rel_hum-qa", VInt (-1))].
Definition props_code_at_threshold : dict :=
  [("air_temp", VInt 21); ("air_temp-qa", VInt 0); ("rel_hum", VInt 40)].

(** 2025-06-01T12:00:00Z. *)
Definition noon : datetime := 1748779200000000.

(** A clock that starts ten minutes past noon and advances by one
    millisecond per reading, and a store that accepts every write. *)
Definition sample_env : Env :=
  {| clock := fun i => noon + timedelta_minutes 10 + Z.of_nat i * 1000;
     put_ok := fun _ => true |}.

(** A surface-weather feature of station [station] observed at [stamp]. *)
Definition swob_feature (id station stamp : string) : value :=
  VDict [("id", VStr id);
         ("properties", VDict [("tc_id-value", VStr station); ("date_tm-value", VStr stamp);
                               ("air_temp", VInt 21); ("air_temp-qa", VInt 100)])].

(** A world holding [st], with the server ready to give [responses]. *)
Definition world_of (st : State) (responses : list http_outcome) : World :=
  {| w_state := st; w_ticks := 0; w_responses := responses; w_requests := []; w_puts := [] |}.

(** An observation dated two days after noon. *)
Definition feature_two_days_ahead : value := swob_feature "f-future" "ABC" "2025-06-03T12:00:00Z".

(** The fields of a feature, when it is a JSON object. *)
Definition fields_of (feat : value) : dict :=
  match feat with
  | VDict d => d
  | _ => []
  end.

(** A checkpoint in which [name] has the global watermark [g] and the
    station watermarks [stations]. *)
Definition checkpoint (name g : string) (stations : gmap string string) : State :=
  {[ name := {| global_last_processed_dt := Some g; per_station := stations;
                last_run_timestamp := None; stations_tracked := None;
                run_metadata := None |} ]}.

(** A page of the upstream API: a feature collection with an optional
    [next] link after the [self] link. *)
Definition page (feats : list value) (next : option string) : value :=
  VDict [("type", VStr "FeatureCollection");
         ("features", VList feats);
         ("links", VList (VDict [("rel", VStr "self"); ("href", VStr "https://api/items")] ::
                          match next with
                          | Some h => [VDict [("rel", VStr "next"); ("href", VStr h)]]
                          | None => []
                          end))].

Definition items_url : string := "https://api/items".

(** Three pages linked by two [next] links. *)
Definition page_a : value :=
  page [swob_feature "f1" "ABC" "2025-06-01T12:01:00Z";
        swob_feature "f2" "ABC" "2025-06-01T12:02:00Z"] (Some "https://api/items?offset=2").
Definition page_b : value :=
  page [swob_feature "f3" "XYZ" "2025-06-01T12:01:00Z"] (Some "https://api/items?offset=3").
Definition page_c : value :=
  page [swob_feature "f4" "XYZ" "2025-06-01T12:02:00Z"] None.

(** A page that names the start URL itself as its [next] link. *)
Definition page_back : value :=
  page [swob_feature "f1" "ABC" "2025-06-01T12:01:00Z"] (Some items_url).

(** The parameters of a window that starts at noon. *)
Definition noon_params : gmap string string := window_params (H := RefDatetime.lib) noon.

(** A checkpoint of the surface-weather source at noon, and a server
    whose second page fails at the transport level. *)
Definition swob_at_noon : State :=
  checkpoint "swob" "2025-06-01T12:00:00+00:00" {[ "ABC" := "2025-06-01T12:00:00+00:00" ]}.
Definition world_broken_link : World := world_of swob_at_noon [HttpOk page_a; HttpTransportError].

(** Two observations without identifiers, from two stations neither of
    which has a watermark yet. *)
Definition anonymous_a : value :=
  VDict [("properties", VDict [("tc_id-value", VStr "AAA");
                               ("date_tm-value", VStr "2025-06-01T12:01:00Z")])].
Definition anonymous_b : value :=
  VDict [("properties", VDict [("tc_id-value", VStr "BBB");
                               ("date_tm-value", VStr "2025-06-01T12:02:00Z")])].

(** A climate-hourly feature of station [station] observed at [stamp]. *)
Definition climate_feature (id station stamp : string) : value :=
  VDict [("id", VStr id);
         ("properties", VDict [("CLIMATE_IDENTIFIER", VStr station); ("UTC_DATE", VStr stamp)])].

(** A checkpoint in which the surface-weather source stands at noon and
    the hydrometric source carries a watermark of 2020, which the parser
    turns down as too old; and a server with one new surface-weather
    observation and one new climate-hourly observation. *)
Definition stale_checkpoint : State :=
  <["hydrometric" := {| global_last_processed_dt := Some "2020-01-01T00:00:00+00:00";
                        per_station := {[ "05AA001" := "2020-01-01T00:00:00+00:00" ]};
                        last_run_timestamp := None; stations_tracked := Some 1%nat;
                        run_metadata := None |}]> swob_at_noon.
Definition stale_world : World :=
  world_of ∅ [HttpOk (page [swob_feature "f9" "ABC" "2025-06-01T12:05:00Z"] None);
              HttpOk (page [climate_feature "c1" "7025250" "2025-06-01T11:00:00"] None)].

(** A clock that starts ten minutes past noon and advances by one
    millisecond per reading for its first hour of readings. *)
Definition steady_env : Env :=
  {| clock := fun i => noon + timedelta_minutes 10 + Z.min (Z.of_nat i) 3600000 * 1000;
     put_ok := fun _ => true |}.

(** Observations of station ABC at noon, a minute before and five
    minutes after. *)
Definition at_noon : dict := fields_of (swob_feature "f-1200" "ABC" "2025-06-01T12:00:00Z").
Definition before_noon : dict := fields_of (swob_feature "f-1159" "ABC" "2025-06-01T11:59:00Z").
Definition after_noon : dict := fields_of (swob_feature "f-1205" "ABC" "2025-06-01T12:05:00Z").

(** The overlap window of a source that stands at noon, fetched again:
    the server has only the observation of noon, which was accepted by an
    earlier run. *)
Definition overlap_world : World :=
  world_of swob_at_noon [HttpOk (page [VDict at_noon] None)].

(** * Further vocabulary *)

(** The loop variables after a feature that the quality filter vetoed. *)
Definition veto_feature (obs_dt : datetime) (ls : Loop) : Loop :=
  {| new_features := new_features ls;
     max_seen_dt := max_seen_dt ls;
     min_obs_dt := min_obs_dt (note_observation obs_dt ls);
     max_obs_dt := max_obs_dt (note_observation obs_dt ls);
     rejected_quality_count := S (rejected_quality_count ls);
     rejected_timestamp_count := rejected_timestamp_count ls;
     seen_ids := seen_ids ls |}.

(** The state after [per_station[st_key] = obs_dt.isoformat()] for the source [name]. *)
Definition advance_station `{DatetimeLib} (name st_key : string) (obs_dt : datetime)
    (st : State) : State :=
  <[name := with_per_station (insert st_key (isoformat obs_dt)) (substate st name)]> st.

(** The number of features the loop has settled so far: accepted, vetoed
    for quality or turned down for their timestamp. *)
Definition tally (ls : Loop) : nat :=
  (length (new_features ls) + rejected_quality_count ls + rejected_timestamp_count ls)%nat.

(** The batch as the loop sees it once repeated identifiers are dropped:
    a feature whose identifier equals, as a set key, one in [seen] or the
    identifier of an earlier feature is removed.  A feature the loop
    cannot get past (not a JSON object, or with an identifier that cannot
    be hashed) ends the filtering: the loop raises there. *)
Fixpoint drop_repeated (seen : list value) (features : list value) : list value :=
  match features with
  | [] => []
  | feat :: rest =>
      match feat with
      | VDict fd =>
          if hashable (feature_id fd) then
            if existsb (py_key_eqb (feature_id fd)) seen then drop_repeated seen rest
            else feat :: drop_repeated (feature_id fd :: seen) rest
          else feat :: rest
      | _ => feat :: rest
      end
  end.

(** The run of a source gets as far as its batch: the window start is
    computed and the fetch returns [features]. *)
Definition fetched `{DatetimeLib} (cfg : Config) (env : Env) (name url : string)
    (w : World) (start : datetime) (features : list value) (w2 : World) : Prop :=
  ∃ w1, compute_fetch_start cfg env name (tick w) = (Ok start, w1) ∧
        fetch_features_with_paging url (window_params start) (FETCH_LIMIT cfg) w1
          = (Ok features, w2).

(** The key of the delta artifact written at the clock readings [t1] (file
    name) and [t2] (date path). *)
Definition delta_key `{DatetimeLib} (name key_prefix : string) (t1 t2 : datetime) : string :=
  key_prefix +:+ "/" +:+ strftime "year=%Y/month=%m/day=%d" t2 +:+ "/" +:+
  (name +:+ "_delta_" +:+ strftime "%Y%m%d%H%M%S" t1 +:+ ".json").

(** Apart from the state and the clock, the two worlds are the same:
    no request, no response consumed, no write to the store. *)
Definition same_io (w w' : World) : Prop :=
  w_puts w' = w_puts w ∧ w_requests w' = w_requests w ∧ w_responses w' = w_responses w.

(** The [put_object] calls a run of one source can add: none, or one delta
    artifact with at least one feature. *)
Definition at_most_one_delta (w w' : World) : Prop :=
  w_puts w' = w_puts w ∨
  ∃ key feats, feats ≠ [] ∧ w_puts w' = w_puts w ++ [PutDelta key feats].

(** * Further examples *)

(** Two observations of station XYZ, which has no watermark in
    [swob_at_noon]. *)
Definition xyz_early : dict := fields_of (swob_feature "f3" "XYZ" "2025-06-01T12:01:00Z").
Definition xyz_late : dict := fields_of (swob_feature "f4" "XYZ" "2025-06-01T12:02:00Z").

(** An observation of station ABC, five minutes after noon, whose
    humidity carries a quality code below the threshold. *)
Definition low_quality_feature : dict :=
  [("id", VStr "f-low");
   ("properties", VDict (("tc_id-value", VStr "ABC") ::
                         ("date_tm-value", VStr "2025-06-01T12:05:00Z") ::
                         props_low_humidity_code))].

(** Properties whose humidity quality code is a string, and the
    properties [props_code_at_threshold] with a quality code for a field
    that is not critical. *)
Definition props_textual_code : dict :=
  [("air_temp", VInt 21); ("air_temp-qa", VInt 100);
   ("rel_hum", VInt 40); ("rel_hum-qa", VStr "good")].
Definition props_with_wind_code : dict := ("wind_spd-qa", VInt (-5)) :: props_code_at_threshold.

(** A hydrometric feature of station [station] observed at [stamp]. *)
Definition hydrometric_feature (id station stamp : string) : value :=
  VDict [("id", VStr id);
         ("properties", VDict [("STATION_NUMBER", VStr station); ("DATETIME", VStr stamp)])].
Definition gauge_reading : dict :=
  fields_of (hydrometric_feature "h1" "05AA001" "2025-06-01T12:05:00Z").

(** A server with nothing new, a server whose second page is refused, and
    a server with one new observation of station ABC. *)
Definition quiet_world : World := world_of swob_at_noon [HttpOk (page [] None)].
Definition world_refused_page : World :=
  world_of swob_at_noon [HttpOk page_a; HttpStatusError 503].
Definition fresh_world : World :=
  world_of stale_checkpoint [HttpOk (page [VDict after_noon] None)].

(** The clock of [steady_env] with a store that refuses every write. *)
Definition refusing_env : Env :=
  {| clock := clock steady_env; put_ok := fun _ => false |}.

(** * Watermarks that have aged out of the validation window *)

(** A checkpoint of the surface-weather source, global watermark at noon,
    in which station OLD last reported on 1 January 2024, more than 365
    days before noon, while station ABC stands at noon; an observation of
    station OLD five minutes after noon; and a server that delivers it. *)
Definition dormant_checkpoint : State :=
  checkpoint "swob" "2025-06-01T12:00:00+00:00"
    (<["OLD" := "2024-01-01T00:00:00+00:00"]> {[ "ABC" := "2025-06-01T12:00:00+00:00" ]}).
Definition old_station_reading : dict :=
  fields_of (swob_feature "f-old" "OLD" "2025-06-01T12:05:00Z").
Definition dormant_world : World :=
  world_of dormant_checkpoint [HttpOk (page [VDict old_station_reading] None)].

(** A server with a new reading of the gauge of [stale_checkpoint], whose
    hydrometric watermarks date from 2020. *)
Definition stale_gauge_world : World :=
  world_of stale_checkpoint [HttpOk (page [VDict gauge_reading] None)].

(** * Properties *)

(** ** The monad *)

Lemma bind_ok {A B} (c : M A) (k : A → M B) w a w' :
  c w = (Ok a, w') → bind c k w = k a w'.
Proof. unfold bind. by intros ->. Qed.

Lemma bind_raise {A B} (c : M A) (k : A → M B) w e w' :
  c w = (Raise e, w') → bind c k w = (Raise e, w').
Proof. unfold bind. by intros ->. Qed.

Lemma bind_lift_ok {A B} (o : outcome A) (k : A → M B) w a :
  o = Ok a → bind (lift o) k w = k a w.
Proof. intros ->. reflexivity. Qed.

Lemma now_utc_eq env w : now_utc env w = (Ok (now_of env w), tick w).
Proof. reflexivity. Qed.

(** ** Time parser and validator *)

Lemma validate_timestamp_eq cfg env dt w :
  validate_timestamp cfg env dt w = (Ok (in_window cfg (now_of env w) dt), tick w).
Proof.
  unfold validate_timestamp, bind, in_window. rewrite now_utc_eq.
  destruct (_ <? dt); [reflexivity|]. by destruct (dt <? _).
Qed.

(** The parser as one equation: a falsy or unparsable argument gives no
    value without reading the clock; a parsed instant is kept exactly when
    it lies in the window around the clock reading. *)
Lemma parse_iso_to_utc_eq `{DatetimeLib} cfg env s w :
  parse_iso_to_utc cfg env s w =
  if negb (truthy s) then (Ok None, w)
  else match parse_raw s with
       | Some dt => (Ok (if in_window cfg (now_of env w) dt then Some dt else None), tick w)
       | None => (Ok None, w)
       end.
Proof.
  unfold parse_iso_to_utc. destruct (negb (truthy s)); [reflexivity|].
  destruct (parse_raw s) as [dt|]; [|reflexivity].
  unfold bind. rewrite validate_timestamp_eq. by destruct (in_window _ _ _).
Qed.

(** ** Quality filter *)

Lemma quality_step cfg props f fields :
  quality_loop cfg (VDict props) (f :: fields) =
  match qa_code props f with
  | VNone => quality_loop cfg (VDict props) fields
  | v => match as_int v with
         | Some q => if q <? MIN_QA_THRESHOLD cfg then Ok false
                     else quality_loop cfg (VDict props) fields
         | None => Raise TypeError
         end
  end.
Proof.
  cbn [quality_loop py_get obind]. unfold qa_code, py_lt_int.
  destruct (dict_get (f +:+ "-qa") props) as [|b|n|s|l|d]; try reflexivity.
Qed.

Lemma quality_loop_accepts cfg props fields :
  forallb (λ f, qa_passes cfg (qa_code props f)) fields = true →
  quality_loop cfg (VDict props) fields = Ok true.
Proof.
  induction fields as [|f fields IH]; [reflexivity|].
  intros [Hf Hrest]%andb_prop. rewrite quality_step. specialize (IH Hrest).
  unfold qa_passes in Hf.
  destruct (qa_code props f) as [|b|n|s|l|d]; cbn [as_int] in Hf |- *; try done;
    apply Z.leb_le in Hf;
    (destruct (_ <? MIN_QA_THRESHOLD cfg) eqn:E; [apply Z.ltb_lt in E; lia|done]).
Qed.

Lemma quality_loop_rejects cfg props fields :
  forallb (λ f, qa_typed (qa_code props f)) fields = true →
  existsb (λ f, qa_below cfg (qa_code props f)) fields = true →
  quality_loop cfg (VDict props) fields = Ok false.
Proof.
  induction fields as [|f fields IH]; [done|].
  intros [Hf Hrest]%andb_prop Hex. rewrite quality_step. specialize (IH Hrest).
  cbn [existsb] in Hex. unfold qa_typed, qa_below in *.
  destruct (qa_code props f) as [|b|n|s|l|d]; cbn [as_int orb] in Hf, Hex |- *;
    try done; try (by apply IH);
    (destruct (_ <? MIN_QA_THRESHOLD cfg); [done|by apply IH]).
Qed.

(** C7.  For a surface-weather feature whose critical quality codes are
    absent or numeric: if some critical field's code is present and
    numerically below [MIN_QA_THRESHOLD] the filter rejects the feature; if
    every critical code is absent or at least the threshold (so also when
    it equals the threshold) the filter accepts it; for every other source
    name, hydrometric and climate-hourly among them, the filter passes
    whatever the properties are. *)
Theorem quality_filter_boundary (cfg : Config) (props : dict) :
  (forallb (λ f, qa_typed (qa_code props f)) critical_fields = true →
   existsb (λ f, qa_below cfg (qa_code props f)) critical_fields = true →
   is_high_quality_data cfg "swob" (VDict props) = Ok false) ∧
  (forallb (λ f, qa_passes cfg (qa_code props f)) critical_fields = true →
   is_high_quality_data cfg "swob" (VDict props) = Ok true) ∧
  (∀ (name : string) (any : value), name ≠ "swob" →
   is_high_quality_data cfg name any = Ok true).
Proof.
  split; [|split].
  - intros Hty Hex. by apply quality_loop_rejects.
  - intros Hall. by apply quality_loop_accepts.
  - intros name any Hne. unfold is_high_quality_data.
    destruct (String.eqb_spec name "swob"); [done|reflexivity].
Qed.

Lemma quality_filter_boundary_witness :
  is_high_quality_data default_config "swob" (VDict props_low_humidity_code) = Ok false ∧
  is_high_quality_data default_config "swob" (VDict props_code_at_threshold) = Ok true ∧
  is_high_quality_data default_config "hydrometric" (VDict props_low_humidity_code) = Ok true ∧
  is_high_quality_data default_config "climate_hourly" (VDict props_low_humidity_code) = Ok true.
Proof.
  split; [|split; [|split]].
  - apply (proj1 (quality_filter_boundary default_config props_low_humidity_code));
      reflexivity.
  - apply (proj1 (proj2 (quality_filter_boundary default_config props_code_at_threshold)));
      reflexivity.
  - apply (proj2 (proj2 (quality_filter_boundary default_config props_low_humidity_code)));
      discriminate.
  - apply (proj2 (proj2 (quality_filter_boundary default_config props_low_humidity_code)));
      discriminate.
Defined.

(** ** Timestamp rejection *)

Lemma observation_string_dict name props v :
  observation_string name props = Ok v → ∃ d, props = VDict d.
Proof.
  destruct props as [|b|n|s|l|d]; try (by eexists);
    unfold observation_string, py_get_or, py_get;
    destruct (String.eqb name "swob"); try done;
    destruct (String.eqb name "hydrometric"); try done;
    destruct (String.eqb name "climate_hourly"); done.
Qed.

Lemma get_station_id_dict `{PyRuntime} name d feat_id :
  ∃ k, get_station_id name (VDict d) feat_id = Ok k.
Proof.
  unfold get_station_id, py_get_or, py_get.
  destruct (String.eqb name "swob"); cbn [obind].
  { destruct (truthy (dict_get "tc_id-value" d)); cbn [obind]; by eexists. }
  destruct (String.eqb name "hydrometric"); cbn [obind]; [by eexists|].
  destruct (String.eqb name "climate_hourly"); cbn [obind]; by eexists.
Qed.

Lemma get_observation_timestamp_state `{DatetimeLib} cfg env name props w r w' :
  get_observation_timestamp cfg env name props w = (r, w') → w_state w' = w_state w.
Proof.
  unfold get_observation_timestamp, bind, lift.
  destruct (observation_string name props) as [v|e]; [|by intros [= _ <-]].
  rewrite parse_iso_to_utc_eq.
  destruct (negb (truthy v)); [by intros [= _ <-]|].
  destruct (parse_raw v); by intros [= _ <-].
Qed.

(** A first occurrence whose timestamp the parser turns down ends the
    iteration at line 295. *)
Lemma process_feature_no_timestamp `{DatetimeLib} `{PyRuntime} cfg env name fd ls w w' :
  set_mem (dict_get "id" fd) (seen_ids ls) = Ok false →
  get_observation_timestamp cfg env name
    (py_or (dict_get "properties" fd) (VDict [])) w = (Ok None, w') →
  process_feature cfg env name (VDict fd) ls w =
    (Ok (count_timestamp_rejection (add_seen (dict_get "id" fd) ls)), w').
Proof.
  intros Hmem Hobs. unfold process_feature.
  cbn [py_get]. rewrite (bind_lift_ok _ _ _ _ eq_refl).
  rewrite (bind_lift_ok _ _ _ _ eq_refl).
  rewrite (bind_lift_ok _ _ _ _ Hmem).
  assert (∃ d, py_or (dict_get "properties" fd) (VDict []) = VDict d) as [d Hd].
  { unfold get_observation_timestamp, bind, lift in Hobs.
    destruct (observation_string _ _) as [v|e] eqn:E; [|done].
    by apply observation_string_dict in E. }
  rewrite Hd in *.
  destruct (get_station_id_dict name d (dict_get "id" fd)) as [k Hk].
  rewrite (bind_lift_ok _ _ _ _ Hk).
  by rewrite (bind_ok _ _ _ _ _ Hobs).
Qed.

(** C8.  The time parser never raises.  A falsy argument (an absent
    timestamp, [None] or the empty string) gives no value; so does an
    argument no pattern parses; so does a parsed instant more than
    [MAX_FUTURE_DAYS] after, or more than 365 days before, the clock
    reading.  A feature, first of its identifier in the batch, whose
    timestamp gives no value is counted in [rejected_timestamp_count] and
    leaves the accepted features, the running global maximum and the whole
    persisted state (every station watermark) as they were. *)
Theorem timestamp_rejection `{DatetimeLib} `{PyRuntime} (cfg : Config) (env : Env) :
  (∀ s w, ∃ r w', parse_iso_to_utc cfg env s w = (Ok r, w')) ∧
  (∀ s w, truthy s = false → parse_iso_to_utc cfg env s w = (Ok None, w)) ∧
  (∀ s w, parse_raw s = None → parse_iso_to_utc cfg env s w = (Ok None, w)) ∧
  (∀ s dt w, truthy s = true → parse_raw s = Some dt →
     now_of env w + timedelta_days (MAX_FUTURE_DAYS cfg) < dt ∨
     dt < now_of env w - timedelta_days 365 →
     parse_iso_to_utc cfg env s w = (Ok None, tick w)) ∧
  (∀ name fd ls w w',
     set_mem (dict_get "id" fd) (seen_ids ls) = Ok false →
     get_observation_timestamp cfg env name
       (py_or (dict_get "properties" fd) (VDict [])) w = (Ok None, w') →
     ∃ ls', process_feature cfg env name (VDict fd) ls w = (Ok ls', w') ∧
            rejected_timestamp_count ls' = S (rejected_timestamp_count ls) ∧
            rejected_quality_count ls' = rejected_quality_count ls ∧
            new_features ls' = new_features ls ∧
            max_seen_dt ls' = max_seen_dt ls ∧
            w_state w' = w_state w).
Proof.
  repeat apply conj.
  - intros s w. rewrite parse_iso_to_utc_eq.
    destruct (negb (truthy s)); [by eexists _, _|].
    destruct (parse_raw s); by eexists _, _.
  - intros s w Hs. rewrite parse_iso_to_utc_eq. by rewrite Hs.
  - intros s w Hs. rewrite parse_iso_to_utc_eq, Hs. by destruct (negb (truthy s)).
  - intros s dt w Hs Hraw Hout. rewrite parse_iso_to_utc_eq, Hs, Hraw. cbn [negb].
    unfold in_window.
    destruct (Z.ltb_spec (now_of env w + timedelta_days (MAX_FUTURE_DAYS cfg)) dt);
      [reflexivity|].
    destruct (Z.ltb_spec dt (now_of env w - timedelta_days 365)); [reflexivity|lia].
  - intros name fd ls w w' Hmem Hobs. eexists. split.
    + by apply process_feature_no_timestamp.
    + repeat split. by eapply get_observation_timestamp_state.
Qed.

Lemma timestamp_rejection_witness :
  parse_iso_to_utc (H := RefDatetime.lib) default_config sample_env VNone (world_of ∅ [])
    = (Ok None, world_of ∅ []) ∧
  parse_iso_to_utc (H := RefDatetime.lib) default_config sample_env (VStr "yesterday")
    (world_of ∅ []) = (Ok None, world_of ∅ []) ∧
  parse_iso_to_utc (H := RefDatetime.lib) default_config sample_env
    (VStr "2025-06-03T12:00:00Z") (world_of ∅ []) = (Ok None, tick (world_of ∅ [])) ∧
  ∃ ls', process_feature (H := RefDatetime.lib) (H0 := RefRuntime.runtime)
           default_config sample_env "swob"
           (VDict (fields_of feature_two_days_ahead)) (init_loop noon) (world_of ∅ [])
         = (Ok ls', tick (world_of ∅ [])) ∧
         rejected_timestamp_count ls' = S (rejected_timestamp_count (init_loop noon)) ∧
         rejected_quality_count ls' = rejected_quality_count (init_loop noon) ∧
         new_features ls' = new_features (init_loop noon) ∧
         max_seen_dt ls' = max_seen_dt (init_loop noon) ∧
         w_state (tick (world_of ∅ [])) = w_state (world_of ∅ []).
Proof.
  pose proof (@timestamp_rejection RefDatetime.lib RefRuntime.runtime
                default_config sample_env) as (_ & Hfalsy & Hraw & Hwin & Hfeat).
  split; [|split; [|split]].
  - apply Hfalsy. reflexivity.
  - apply Hraw. vm_compute. reflexivity.
  - apply (Hwin _ 1748952000000000); [reflexivity|vm_compute; reflexivity|].
    left. vm_compute. reflexivity.
  - apply Hfeat; vm_compute; reflexivity.
Defined.

(** ** Fetch window *)

Lemma compute_fetch_start_eq `{DatetimeLib} cfg env name w :
  compute_fetch_start cfg env name w =
  let last := global_last_processed_dt (substate (w_state w) name) in
  if str_truthy last then
    match parse_iso_to_utc cfg env (VStr (default "" last)) w with
    | (Ok (Some dt), w') => (Ok (dt - timedelta_minutes (INCREMENTAL_OVERLAP_MIN cfg)), w')
    | (Ok None, w') => (Raise TypeError, w')
    | (Raise e, w') => (Raise e, w')
    end
  else (Ok (now_of env w - initial_lookback cfg name), tick w).
Proof.
  unfold compute_fetch_start, initial_lookback, bind, get_state, ret, raise. cbn zeta.
  destruct (String.eqb name "climate_hourly");
    destruct (str_truthy _); try reflexivity;
    by destruct (parse_iso_to_utc _ _ _ _) as [[[dt|]|e] w'].
Qed.

(** A stored global watermark that the parser does not read, or reads as
    an instant outside its validation window, ends the run of the source
    with a [TypeError] at the subtraction of the overlap. *)
Lemma unreadable_watermark_raises `{DatetimeLib} cfg env name w s :
  global_last_processed_dt (substate (w_state w) name) = Some s →
  s ≠ "" →
  (∀ W, parse_raw (VStr s) = Some W → in_window cfg (now_of env w) W = false) →
  fst (compute_fetch_start cfg env name w) = Raise TypeError.
Proof.
  intros Hs Hne Hbad. rewrite compute_fetch_start_eq. cbn zeta.
  rewrite Hs. change (default "" (Some s)) with s.
  rewrite parse_iso_to_utc_eq. cbn [str_truthy truthy].
  destruct (String.eqb_spec s ""); [done|]. cbn [negb].
  destruct (parse_raw (VStr s)) as [W|]; [|reflexivity].
  by rewrite (Hbad W eq_refl).
Qed.

(** The fetch window where it is defined.  With no prior global
    watermark the fetch start is the clock reading minus the initial
    lookback, which is [CLIMATE_HOURLY_LOOKBACK_DAYS] days for the source
    named [climate_hourly] and [DEFAULT_INITIAL_LOOKBACK_MIN] minutes for
    every other source.  With a prior global watermark that the parser
    reads as the instant [W] and finds inside its validation window, the
    fetch start is [W] minus [INCREMENTAL_OVERLAP_MIN] minutes, for every
    source.  Outside that window the subtraction raises
    ([unreadable_watermark_raises]). *)
Lemma fetch_window_derivation `{DatetimeLib} (cfg : Config) (env : Env)
    (name : string) (w : World) :
  (str_truthy (global_last_processed_dt (substate (w_state w) name)) = false →
   compute_fetch_start cfg env name w =
     (Ok (now_of env w -
          (if String.eqb name "climate_hourly"
           then timedelta_days (CLIMATE_HOURLY_LOOKBACK_DAYS cfg)
           else timedelta_minutes (DEFAULT_INITIAL_LOOKBACK_MIN cfg))), tick w)) ∧
  (∀ s W,
     global_last_processed_dt (substate (w_state w) name) = Some s →
     s ≠ "" →
     parse_raw (VStr s) = Some W →
     in_window cfg (now_of env w) W = true →
     compute_fetch_start cfg env name w =
       (Ok (W - timedelta_minutes (INCREMENTAL_OVERLAP_MIN cfg)), tick w)).
Proof.
  split.
  - intros Hno. rewrite compute_fetch_start_eq. cbn zeta. by rewrite Hno.
  - intros s W Hs Hne Hraw Hwin. rewrite compute_fetch_start_eq. cbn zeta.
    rewrite Hs. change (default "" (Some s)) with s.
    rewrite parse_iso_to_utc_eq. cbn [str_truthy truthy].
    destruct (String.eqb_spec s ""); [done|]. cbn [negb].
    by rewrite Hraw, Hwin.
Qed.

Lemma fetch_window_derivation_witness :
  compute_fetch_start (H := RefDatetime.lib) default_config sample_env "swob" (world_of ∅ [])
    = (Ok (noon + timedelta_minutes 10 - timedelta_minutes 60), tick (world_of ∅ [])) ∧
  compute_fetch_start (H := RefDatetime.lib) default_config sample_env "climate_hourly"
    (world_of ∅ [])
    = (Ok (noon + timedelta_minutes 10 - timedelta_days 7), tick (world_of ∅ [])) ∧
  compute_fetch_start (H := RefDatetime.lib) default_config sample_env "hydrometric"
    (world_of (checkpoint "hydrometric" "2025-06-01T12:00:00+00:00" ∅) [])
    = (Ok (noon - timedelta_minutes 15),
       tick (world_of (checkpoint "hydrometric" "2025-06-01T12:00:00+00:00" ∅) [])) ∧
  compute_fetch_start (H := RefDatetime.lib) default_config sample_env "climate_hourly"
    (world_of (checkpoint "climate_hourly" "2025-06-01T12:00:00+00:00" ∅) [])
    = (Ok (noon - timedelta_minutes 15),
       tick (world_of (checkpoint "climate_hourly" "2025-06-01T12:00:00+00:00" ∅) [])).
Proof.
  split; [|split; [|split]].
  - apply (proj1 (@fetch_window_derivation RefDatetime.lib default_config sample_env
                    "swob" (world_of ∅ []))).
    reflexivity.
  - apply (proj1 (@fetch_window_derivation RefDatetime.lib default_config sample_env
                    "climate_hourly" (world_of ∅ []))).
    reflexivity.
  - apply (proj2 (@fetch_window_derivation RefDatetime.lib default_config sample_env
                    "hydrometric" _) "2025-06-01T12:00:00+00:00" noon);
      [reflexivity|discriminate|vm_compute; reflexivity|vm_compute; reflexivity].
  - apply (proj2 (@fetch_window_derivation RefDatetime.lib default_config sample_env
                    "climate_hourly" _) "2025-06-01T12:00:00+00:00" noon);
      [reflexivity|discriminate|vm_compute; reflexivity|vm_compute; reflexivity].
Defined.

(** C6, at a failing input.  The hydrometric source has a prior global
    watermark, the string its own run wrote on 1 January 2020, which the
    parser's formats read as an instant [W].  The clock stands at ten past
    noon on 1 June 2025.  The fetch start is not [W] minus the overlap:
    the parser's validation turns a watermark older than 365 days into
    [None], the subtraction of the overlap raises [TypeError] (line 237),
    and the run of the source ends there, before any request, with the
    state as it was.  The orchestrator restores the same sub-state, so
    every later run fails the same way. *)
Theorem stale_global_watermark_breaks_the_window :
  ∃ W w1 w',
    global_last_processed_dt (substate (w_state stale_gauge_world) "hydrometric")
      = Some "2020-01-01T00:00:00+00:00" ∧
    parse_raw (VStr "2020-01-01T00:00:00+00:00") = Some W ∧
    compute_fetch_start default_config sample_env "hydrometric" (tick stale_gauge_world)
      = (Raise TypeError, w1) ∧
    process_endpoint default_config sample_env "hydrometric" items_url "hydrometric_raw"
      stale_gauge_world = (Raise TypeError, w') ∧
    w_requests w' = [] ∧
    w_puts w' = [] ∧
    w_state w' = w_state stale_gauge_world ∧
    w_state (snd (process_source default_config sample_env stale_checkpoint "hydrometric"
                    items_url "hydrometric_raw" stale_gauge_world))
      = w_state stale_gauge_world.
Proof.
  eexists _, _, _.
  split; [vm_compute; reflexivity|]. split; [vm_compute; reflexivity|].
  split; [vm_compute; reflexivity|]. split; [vm_compute; reflexivity|].
  repeat split; vm_compute; reflexivity.
Qed.

(** ** Paginated fetch *)

Lemma visited_cons url h hs : visited url (h :: hs) = url :: visited h hs.
Proof. reflexivity. Qed.

Lemma frontier_cons url h hs : frontier url (h :: hs) = frontier h hs.
Proof.
  unfold frontier. revert h. induction hs as [|h' hs IH]; intros h; [reflexivity|].
  change (last (h :: h' :: hs)) with (last (h' :: hs)).
  destruct (last (h' :: hs)) eqn:E; [reflexivity|].
  by apply last_None in E.
Qed.

Lemma paging_step_next start fp j script url items reqs h :
  page_features j = Ok (features_of j) →
  page_next j = Ok (Some (VStr h)) →
  paging_loop start fp (HttpOk j :: script) (VStr url) items reqs =
  paging_loop start fp script (VStr h) (items ++ features_of j)
    (reqs ++ [request_for start fp url]).
Proof.
  intros Hf Hn. cbn [paging_loop]. unfold page_features, page_next in *.
  by rewrite Hf, Hn.
Qed.

Lemma paging_step_final start fp j script url items reqs :
  final_page j →
  paging_loop start fp (HttpOk j :: script) (VStr url) items reqs =
  (Ok (items ++ features_of j), script, reqs ++ [request_for start fp url]).
Proof.
  intros [Hf Hn]. cbn [paging_loop]. unfold page_features, page_next in *.
  by rewrite Hf, Hn.
Qed.

(** Following a run of linked pages. *)
Lemma paging_loop_follows start fp rest :
  ∀ pages hrefs url items reqs,
    follows pages hrefs →
    paging_loop start fp ((HttpOk <$> pages) ++ rest) (VStr url) items reqs =
    paging_loop start fp rest (VStr (frontier url hrefs)) (items ++ all_features pages)
      (reqs ++ (request_for start fp <$> visited url hrefs)).
Proof.
  induction pages as [|j pages IH]; intros [|h hs] url items reqs Hfol; try done.
  - unfold all_features, visited, frontier. cbn. by rewrite !app_nil_r.
  - destruct Hfol as (Hf & Hn & Hfol).
    rewrite fmap_cons. cbn [app]. rewrite (paging_step_next _ _ _ _ _ _ _ h Hf Hn).
    rewrite (IH hs h _ _ Hfol). rewrite frontier_cons, visited_cons.
    unfold all_features. rewrite !fmap_cons. cbn [concat].
    by rewrite <- !app_assoc.
Qed.

Lemma visited_frontier url hrefs : visited url hrefs ++ [frontier url hrefs] = url :: hrefs.
Proof.
  revert url. induction hrefs as [|h hs IH]; intros url; [reflexivity|].
  rewrite visited_cons, frontier_cons. cbn [app]. by rewrite IH.
Qed.

Lemma fetch_eq start params limit w :
  start ≠ "" →
  fetch_features_with_paging start params limit w =
  let '(r, script', reqs') :=
    paging_loop start (with_limit limit params) (w_responses w) (VStr start) []
      (w_requests w) in
  (r, after_fetch w script' reqs').
Proof.
  intros Hne. unfold fetch_features_with_paging.
  by destruct (String.eqb_spec start "").
Qed.

Lemma fetch_state start params limit w r w' :
  fetch_features_with_paging start params limit w = (r, w') → w_state w' = w_state w.
Proof.
  unfold fetch_features_with_paging. destruct (String.eqb start ""); [by intros [= _ <-]|].
  destruct (paging_loop _ _ _ _ _ _) as [[r' s'] q']. by intros [= _ <-].
Qed.

(** The fetch over a finite chain of pages: the result and the requests. *)
Lemma fetch_chain start params limit pages last_page hrefs rest w :
  start ≠ "" →
  follows pages hrefs →
  final_page last_page →
  w_responses w = (HttpOk <$> pages) ++ HttpOk last_page :: rest →
  fetch_features_with_paging start params limit w =
    (Ok (all_features (pages ++ [last_page])),
     after_fetch w rest
       (w_requests w ++ (request_for start (with_limit limit params) <$> (start :: hrefs)))).
Proof.
  intros Hne Hfol Hfin Hresp. rewrite (fetch_eq _ _ _ _ Hne), Hresp.
  rewrite (paging_loop_follows _ _ _ _ _ _ _ _ Hfol).
  rewrite (paging_step_final _ _ _ _ _ _ _ Hfin).
  rewrite <- (visited_frontier start hrefs), fmap_app, app_assoc.
  unfold all_features. rewrite fmap_app, concat_app. cbn. by rewrite app_nil_r.
Qed.

(** C9 (amended).  For a response of finitely many pages, each but the
    last linking to the next, the client returns exactly the features of
    all pages, in page order and in the order they have within each page,
    after requesting the start URL with the parameters and then each
    [next] link in turn, until a page has no [next] link.  A link is
    requested as a bare URL unless it equals the start URL; a link equal
    to the start URL is requested with the first request's parameters. *)
Theorem pagination_completeness (start : string) (params : gmap string string) (limit : Z)
    (pages : list value) (last_page : value) (hrefs : list string)
    (rest : list http_outcome) (w : World) :
  start ≠ "" →
  follows pages hrefs →
  final_page last_page →
  w_responses w = (HttpOk <$> pages) ++ HttpOk last_page :: rest →
  ∃ w',
    fetch_features_with_paging start params limit w =
      (Ok (concat (features_of <$> pages ++ [last_page])), w') ∧
    w_responses w' = rest ∧
    w_requests w' =
      w_requests w ++
      {| req_url := start; req_params := Some (with_limit limit params) |} ::
      ((λ h, if String.eqb h start
             then {| req_url := h; req_params := Some (with_limit limit params) |}
             else bare h) <$> hrefs).
Proof.
  intros Hne Hfol Hfin Hresp. eexists. split; [by eapply fetch_chain|].
  split; [reflexivity|]. cbn [w_requests after_fetch]. f_equal.
  rewrite fmap_cons. unfold request_for at 1. rewrite String.eqb_refl. f_equal.
  apply list_fmap_ext. intros i h _. unfold request_for, bare.
  by destruct (String.eqb h start).
Qed.

Lemma pagination_completeness_witness :
  ∃ w',
    fetch_features_with_paging items_url noon_params 500
      (world_of ∅ [HttpOk page_a; HttpOk page_b; HttpOk page_c]) =
      (Ok [swob_feature "f1" "ABC" "2025-06-01T12:01:00Z";
           swob_feature "f2" "ABC" "2025-06-01T12:02:00Z";
           swob_feature "f3" "XYZ" "2025-06-01T12:01:00Z";
           swob_feature "f4" "XYZ" "2025-06-01T12:02:00Z"], w') ∧
    w_responses w' = [] ∧
    w_requests w' =
      [{| req_url := items_url; req_params := Some (with_limit 500 noon_params) |};
       bare "https://api/items?offset=2"; bare "https://api/items?offset=3"].
Proof.
  apply (pagination_completeness items_url noon_params 500 [page_a; page_b] page_c
           ["https://api/items?offset=2"; "https://api/items?offset=3"] []
           (world_of ∅ [HttpOk page_a; HttpOk page_b; HttpOk page_c])).
  - discriminate.
  - vm_compute. repeat split.
  - vm_compute. repeat split.
  - reflexivity.
Defined.

(** C9 as stated fails: when a page names the start URL as its [next]
    link, that link is not requested as a bare URL; the first request's
    parameters go with it again. *)
Lemma pagination_reattaches_parameters :
  follows [page_back] [items_url] ∧ final_page page_c ∧
  ∃ w',
    fetch_features_with_paging items_url noon_params 500
      (world_of ∅ [HttpOk page_back; HttpOk page_c]) =
      (Ok (all_features [page_back; page_c]), w') ∧
    w_requests w' ≠
      [{| req_url := items_url; req_params := Some (with_limit 500 noon_params) |};
       bare items_url] ∧
    w_requests w' !! 1%nat =
      Some {| req_url := items_url; req_params := Some (with_limit 500 noon_params) |}.
Proof.
  split; [vm_compute; repeat split|]. split; [vm_compute; repeat split|].
  eexists. split; [vm_compute; reflexivity|]. split; [|reflexivity].
  intros Heq. apply (f_equal (λ l, req_params <$> l !! 1%nat)) in Heq.
  cbn in Heq. discriminate.
Qed.

(** ** Failures of the fetch *)

Lemma parse_iso_to_utc_state `{DatetimeLib} cfg env s w r w' :
  parse_iso_to_utc cfg env s w = (r, w') → w_state w' = w_state w.
Proof.
  rewrite parse_iso_to_utc_eq. destruct (negb (truthy s)); [by intros [= _ <-]|].
  destruct (parse_raw s); by intros [= _ <-].
Qed.

Lemma compute_fetch_start_state `{DatetimeLib} cfg env name w r w' :
  compute_fetch_start cfg env name w = (r, w') → w_state w' = w_state w.
Proof.
  rewrite compute_fetch_start_eq. cbn zeta. destruct (str_truthy _); [|by intros [= _ <-]].
  destruct (parse_iso_to_utc _ _ _ _) as [[[dt|]|e] w1] eqn:E;
    intros [= _ <-]; by eapply parse_iso_to_utc_state.
Qed.

(** [process_endpoint] up to the fetch. *)
Lemma process_endpoint_eq `{DatetimeLib} `{PyRuntime} cfg env name url prefix w :
  process_endpoint cfg env name url prefix w =
  match compute_fetch_start cfg env name (tick w) with
  | (Raise e, w1) => (Raise e, w1)
  | (Ok start, w1) =>
      match fetch_features_with_paging url (window_params start) (FETCH_LIMIT cfg) w1 with
      | (Raise _, w2) => (Ok tt, w2)
      | (Ok [], w2) => record_empty_run env name (now_of env w) w2
      | (Ok features, w2) =>
          record_run cfg env name prefix (now_of env w) start features w2
      end
  end.
Proof.
  unfold process_endpoint. rewrite (bind_ok _ _ _ _ _ (now_utc_eq env w)).
  unfold bind at 1. destruct (compute_fetch_start _ _ _ _) as [[start|e] w1]; [|reflexivity].
  unfold bind at 1, try_except, window_params.
  unfold bind at 1.
  destruct (fetch_features_with_paging _ _ _ _) as [[features|e] w2]; [|reflexivity].
  unfold ret. by destruct features.
Qed.

Lemma fetch_status_error start params limit pages hrefs status rest w :
  start ≠ "" →
  follows pages hrefs →
  w_responses w = (HttpOk <$> pages) ++ HttpStatusError status :: rest →
  fetch_features_with_paging start params limit w =
    (Ok [], after_fetch w rest
              (w_requests w ++
               (request_for start (with_limit limit params) <$> (start :: hrefs)))).
Proof.
  intros Hne Hfol Hresp. rewrite (fetch_eq _ _ _ _ Hne), Hresp.
  rewrite (paging_loop_follows _ _ _ _ _ _ _ _ Hfol). cbn [paging_loop].
  by rewrite <- (visited_frontier start hrefs), fmap_app, app_assoc.
Qed.

Lemma fetch_transport_error start params limit pages hrefs rest w :
  start ≠ "" →
  follows pages hrefs →
  w_responses w = (HttpOk <$> pages) ++ HttpTransportError :: rest →
  fetch_features_with_paging start params limit w =
    (Raise ConnectionError,
     after_fetch w rest
       (w_requests w ++ (request_for start (with_limit limit params) <$> (start :: hrefs)))).
Proof.
  intros Hne Hfol Hresp. rewrite (fetch_eq _ _ _ _ Hne), Hresp.
  rewrite (paging_loop_follows _ _ _ _ _ _ _ _ Hfol). cbn [paging_loop].
  by rewrite <- (visited_frontier start hrefs), fmap_app, app_assoc.
Qed.

(** C4 (amended).  An HTTP-status error on any page, the first or one
    reached through [next] links, makes the fetch return the empty list:
    nothing is raised and the features of the pages already read are
    dropped.  A transport failure on any page is raised by the fetch.  It
    does not leave the endpoint processor: [process_endpoint] catches
    whatever the fetch raises and returns normally with the state as it
    was, so the orchestrator's handler for that source is not entered. *)
Theorem fetch_failure_handling `{DatetimeLib} `{PyRuntime} (cfg : Config) (env : Env) :
  (∀ start params limit pages hrefs status rest w,
     start ≠ "" → follows pages hrefs →
     w_responses w = (HttpOk <$> pages) ++ HttpStatusError status :: rest →
     ∃ w', fetch_features_with_paging start params limit w = (Ok [], w')) ∧
  (∀ start params limit pages hrefs rest w,
     start ≠ "" → follows pages hrefs →
     w_responses w = (HttpOk <$> pages) ++ HttpTransportError :: rest →
     ∃ w', fetch_features_with_paging start params limit w = (Raise ConnectionError, w')) ∧
  (∀ name url prefix original w start w1 e w2,
     compute_fetch_start cfg env name (tick w) = (Ok start, w1) →
     fetch_features_with_paging url (window_params start) (FETCH_LIMIT cfg) w1
       = (Raise e, w2) →
     process_endpoint cfg env name url prefix w = (Ok tt, w2) ∧
     process_source cfg env original name url prefix w = (Ok tt, w2) ∧
     w_state w2 = w_state w).
Proof.
  split; [|split].
  - intros. eexists. by eapply fetch_status_error.
  - intros. eexists. by eapply fetch_transport_error.
  - intros name url prefix original w start w1 e w2 Hstart Hfetch.
    assert (Hpe : process_endpoint cfg env name url prefix w = (Ok tt, w2)).
    { by rewrite process_endpoint_eq, Hstart, Hfetch. }
    split; [exact Hpe|]. split.
    + unfold process_source, try_except. by rewrite Hpe.
    + apply fetch_state in Hfetch. apply compute_fetch_start_state in Hstart.
      by rewrite Hfetch, Hstart.
Qed.

Lemma fetch_failure_handling_witness :
  (∃ w', fetch_features_with_paging items_url noon_params 500
           (world_of ∅ [HttpOk page_a; HttpStatusError 503]) = (Ok [], w')) ∧
  (∃ w', fetch_features_with_paging items_url noon_params 500
           (world_of ∅ [HttpOk page_a; HttpTransportError]) = (Raise ConnectionError, w')) ∧
  (let w2 := snd (fetch_features_with_paging items_url
                    (window_params (noon - timedelta_minutes 15)) 500
                    (tick (tick world_broken_link))) in
   process_endpoint default_config sample_env "swob" items_url "swob_raw" world_broken_link
     = (Ok tt, w2) ∧
   process_source default_config sample_env swob_at_noon "swob" items_url "swob_raw"
     world_broken_link = (Ok tt, w2) ∧
   w_state w2 = w_state world_broken_link).
Proof.
  pose proof (fetch_failure_handling default_config sample_env) as (Hhttp & Hconn & Hcatch).
  split; [|split].
  - apply (Hhttp items_url noon_params 500 [page_a] ["https://api/items?offset=2"] 503 []).
    + discriminate.
    + vm_compute. repeat split.
    + reflexivity.
  - apply (Hconn items_url noon_params 500 [page_a] ["https://api/items?offset=2"] []).
    + discriminate.
    + vm_compute. repeat split.
    + reflexivity.
  - apply (Hcatch "swob" items_url "swob_raw" swob_at_noon world_broken_link
             (noon - timedelta_minutes 15) (tick (tick world_broken_link)) ConnectionError).
    + vm_compute. reflexivity.
    + vm_compute. reflexivity.
Defined.

(** C4 as stated fails: a transport failure on the second page is raised
    by the fetch, yet [process_endpoint] returns normally; nothing reaches
    the orchestrator. *)
Lemma transport_failure_is_caught :
  fst (fetch_features_with_paging items_url (window_params (noon - timedelta_minutes 15)) 500
         (tick (tick world_broken_link))) = Raise ConnectionError ∧
  fst (process_endpoint default_config sample_env "swob" items_url "swob_raw"
         world_broken_link) = Ok tt ∧
  (∀ e, fst (process_endpoint default_config sample_env "swob" items_url "swob_raw"
               world_broken_link) ≠ Raise e).
Proof.
  split; [vm_compute; reflexivity|].
  assert (Hok : fst (process_endpoint default_config sample_env "swob" items_url "swob_raw"
                       world_broken_link) = Ok tt) by (vm_compute; reflexivity).
  split; [exact Hok|]. intros e. rewrite Hok. discriminate.
Qed.

(** ** Deduplication inside a batch *)

Lemma decide_feature_seen `{DatetimeLib} cfg env name feat props k obs ls w ls' w' :
  decide_feature cfg env name feat props k obs ls w = (Ok ls', w') →
  seen_ids ls' = seen_ids ls.
Proof.
  unfold decide_feature, bind, get_per_station, lift, ret, raise, set_station, modify_state.
  intros Heq. repeat case_match; simplify_eq; reflexivity.
Qed.

Lemma process_feature_seen `{DatetimeLib} `{PyRuntime} cfg env name feat ls w ls' w' :
  process_feature cfg env name feat ls w = (Ok ls', w') →
  seen_ids ls' = seen_ids ls ∨
  ∃ fd, feat = VDict fd ∧ seen_ids ls' = dict_get "id" fd :: seen_ids ls.
Proof.
  unfold process_feature, bind, lift, ret. intros Heq.
  destruct feat as [| | | | |fd]; try done. cbn [py_get] in Heq.
  destruct (set_mem _ _) as [[|]|]; [by left; simplify_eq|..|done].
  destruct (get_station_id _ _ _); [|done].
  destruct (get_observation_timestamp _ _ _ _ _) as [[[obs|]|] w1]; [..|done].
  - apply decide_feature_seen in Heq. right. by exists fd.
  - right. exists fd. by simplify_eq.
Qed.

(** An id-less feature met after [None] has entered [seen_ids] is skipped
    at line 286: nothing is read, counted or written. *)
Lemma process_feature_idless_skipped `{DatetimeLib} `{PyRuntime} cfg env name feat ls w :
  idless feat = true → seen_none ls = true →
  process_feature cfg env name feat ls w = (Ok ls, w).
Proof.
  unfold idless, seen_none. destruct feat as [| | | | |fd]; try done.
  destruct (dict_get "id" fd) eqn:Hid; try done. intros _ Hseen.
  unfold process_feature, bind, lift, ret. cbn [py_get]. rewrite Hid.
  unfold set_mem. cbn [hashable]. by rewrite Hseen.
Qed.

Lemma process_feature_keeps_none `{DatetimeLib} `{PyRuntime} cfg env name feat ls w ls' w' :
  process_feature cfg env name feat ls w = (Ok ls', w') →
  seen_none ls = true → seen_none ls' = true.
Proof.
  intros Heq Hseen. unfold seen_none in *.
  destruct (process_feature_seen _ _ _ _ _ _ _ _ Heq) as [-> | (fd & _ & ->)]; [done|].
  cbn [existsb]. rewrite Hseen. apply orb_true_r.
Qed.

Lemma process_feature_adds_none `{DatetimeLib} `{PyRuntime} cfg env name feat ls w ls' w' :
  idless feat = true →
  process_feature cfg env name feat ls w = (Ok ls', w') →
  seen_none ls' = true.
Proof.
  intros Hid Heq. destruct (seen_none ls) eqn:Hseen.
  { by eapply process_feature_keeps_none. }
  unfold seen_none in *.
  destruct (process_feature_seen _ _ _ _ _ _ _ _ Heq) as [Hs | (fd & -> & ->)].
  - (* the feature was skipped as a duplicate: impossible, [None] was not seen *)
    exfalso. revert Heq. unfold idless in Hid.
    destruct feat as [| | | | |fd]; try done.
    destruct (dict_get "id" fd) eqn:Hfd; try done.
    unfold process_feature, bind, lift, ret. cbn [py_get]. rewrite Hfd.
    unfold set_mem. cbn [hashable]. rewrite Hseen.
    destruct (get_station_id _ _ _); [|done].
    destruct (get_observation_timestamp _ _ _ _ _) as [[[obs|]|] w1]; [..|done].
    + intros Heq. apply decide_feature_seen in Heq. cbn [seen_ids add_seen] in Heq.
      rewrite Hs in Heq. by apply (f_equal length) in Heq; cbn in Heq; lia.
    + intros [= <- _]. cbn [seen_ids count_timestamp_rejection add_seen] in Hs.
      by apply (f_equal length) in Hs; cbn in Hs; lia.
  - unfold idless in Hid. destruct (dict_get "id" fd); try done.
Qed.

Lemma process_features_drop_idless `{DatetimeLib} `{PyRuntime} cfg env name features :
  ∀ ls w, seen_none ls = true →
    process_features cfg env name features ls w =
    process_features cfg env name (drop_idless features) ls w.
Proof.
  induction features as [|f rest IH]; intros ls w Hseen; [reflexivity|].
  unfold drop_idless. rewrite filter_cons. destruct (idless f) eqn:Hid.
  - rewrite decide_False by done. cbn [process_features]. unfold bind at 1.
    rewrite process_feature_idless_skipped by done. by apply IH.
  - rewrite decide_True by done. cbn [process_features]. unfold bind.
    destruct (process_feature cfg env name f ls w) as [[ls'|e] w'] eqn:Heq; [|reflexivity].
    apply IH. by eapply process_feature_keeps_none.
Qed.

(** C10.  Deduplication looks only at [feat.get("id")], so every feature
    without an identifier presents the same key [None]: whatever the
    batch, the loop state and the world, the loop over the batch behaves
    exactly as the loop over the batch from which every id-less feature
    after the first has been removed.  Those features are not inspected,
    not counted and not included, whatever their stations and instants. *)
Theorem idless_features_collapse `{DatetimeLib} `{PyRuntime} (cfg : Config) (env : Env)
    (name : string) (features : list value) (ls : Loop) (w : World) :
  process_features cfg env name features ls w =
  process_features cfg env name (keep_first_idless features) ls w.
Proof.
  revert ls w. induction features as [|f rest IH]; intros ls w; [reflexivity|].
  cbn [keep_first_idless]. destruct (idless f) eqn:Hid; cbn [process_features]; unfold bind.
  - destruct (process_feature cfg env name f ls w) as [[ls'|e] w'] eqn:Heq; [|reflexivity].
    apply process_features_drop_idless. by eapply process_feature_adds_none.
  - destruct (process_feature cfg env name f ls w) as [[ls'|e] w'] eqn:Heq; [|reflexivity].
    apply IH.
Qed.

(** Two id-less observations of two different new stations: only the
    first is accepted, and only its station gets a watermark. *)
Example anonymous_features_collide :
  ∃ ls' w',
    process_features default_config sample_env "swob" [anonymous_a; anonymous_b]
      (init_loop noon) (world_of ∅ []) = (Ok ls', w') ∧
    new_features ls' = [anonymous_a] ∧
    rejected_quality_count ls' = 0%nat ∧ rejected_timestamp_count ls' = 0%nat ∧
    per_station (substate (w_state w') "swob") !! "AAA" = Some "2025-06-01T12:01:00+00:00" ∧
    per_station (substate (w_state w') "swob") !! "BBB" = None.
Proof. eexists _, _. split; [vm_compute; reflexivity|]. by vm_compute. Qed.

(** ** What a run of one source can touch *)

Section Preservation.
Variable R : World → World → Prop.
Variable name : string.
Hypothesis R_refl : ∀ w, R w w.
Hypothesis R_trans : ∀ w1 w2 w3, R w1 w2 → R w2 w3 → R w1 w3.
Hypothesis R_tick : ∀ w, R w (tick w).
Hypothesis R_fetch : ∀ w script reqs, R w (after_fetch w script reqs).
Hypothesis R_put_delta : ∀ w key feats, R w (add_put (PutDelta key feats) w).
Hypothesis R_update : ∀ w ns, R w (set_state (insert name ns) w).

Lemma preserves_ret {A} (a : A) : preserves R (ret a).
Proof. intros w r w' [= _ <-]. apply R_refl. Qed.

Lemma preserves_raise {A} e : preserves R (raise (A := A) e).
Proof. intros w r w' [= _ <-]. apply R_refl. Qed.

Lemma preserves_lift {A} (o : outcome A) : preserves R (lift o).
Proof. intros w r w' [= _ <-]. apply R_refl. Qed.

Lemma preserves_bind {A B} (c : M A) (k : A → M B) :
  preserves R c → (∀ a, preserves R (k a)) → preserves R (bind c k).
Proof.
  intros Hc Hk w r w'. unfold bind. destruct (c w) as [[a|e] w1] eqn:E.
  - intros Hka. eapply R_trans; [by eapply Hc|by eapply Hk].
  - intros [= _ <-]. by eapply Hc.
Qed.

Lemma preserves_try_except {A} (c : M A) (h : exn → M A) :
  preserves R c → (∀ e, preserves R (h e)) → preserves R (try_except c h).
Proof.
  intros Hc Hh w r w'. unfold try_except. destruct (c w) as [[a|e] w1] eqn:E.
  - intros [= _ <-]. by eapply Hc.
  - intros Hhe. eapply R_trans; [by eapply Hc|by eapply Hh].
Qed.

Lemma preserves_now_utc env : preserves R (now_utc env).
Proof. intros w r w' [= _ <-]. apply R_tick. Qed.

Lemma preserves_get_state : preserves R get_state.
Proof. intros w r w' [= _ <-]. apply R_refl. Qed.

Lemma preserves_get_per_station n : preserves R (get_per_station n).
Proof. intros w r w' [= _ <-]. apply R_refl. Qed.

Lemma preserves_update_source f : preserves R (update_source name f).
Proof. intros w r w' [= _ <-]. apply R_update. Qed.

Lemma preserves_set_station k v : preserves R (set_station name k v).
Proof. intros w r w' [= _ <-]. apply R_update. Qed.

Lemma preserves_setdefault_source : preserves R (setdefault_source name).
Proof.
  intros w r w' [= _ <-]. unfold set_state.
  destruct (w_state w !! name) eqn:E; [destruct w; apply R_refl|apply R_update].
Qed.

Lemma preserves_put_delta env key feats : preserves R (put_object env (PutDelta key feats)).
Proof.
  intros w r w'. unfold put_object.
  destruct (put_ok env _); intros [= _ <-]; apply R_put_delta.
Qed.

Lemma preserves_fetch start params limit :
  preserves R (fetch_features_with_paging start params limit).
Proof.
  intros w r w'. unfold fetch_features_with_paging.
  destruct (String.eqb start ""); [intros [= _ <-]; apply R_refl|].
  destruct (paging_loop _ _ _ _ _ _) as [[r' s'] q']. intros [= _ <-]. apply R_fetch.
Qed.

Lemma preserves_parse `{DatetimeLib} cfg env s : preserves R (parse_iso_to_utc cfg env s).
Proof.
  intros w r w'. rewrite parse_iso_to_utc_eq.
  destruct (negb (truthy s)); [intros [= _ <-]; apply R_refl|].
  destruct (parse_raw s); intros [= _ <-]; [apply R_tick|apply R_refl].
Qed.

Create HintDb preserve discriminated.
Hint Resolve preserves_ret preserves_raise preserves_lift preserves_now_utc
  preserves_get_state preserves_get_per_station preserves_update_source
  preserves_set_station preserves_setdefault_source preserves_put_delta
  preserves_fetch preserves_parse : preserve.

(** Decomposes a computation along its binds and its case analyses. *)
Ltac preserve :=
  repeat first
    [ progress auto with preserve
    | match goal with
      | |- preserves _ (bind _ _) => apply preserves_bind; [|intros]
      | |- preserves _ (try_except _ _) => apply preserves_try_except; [|intros]
      | |- preserves _ (if ?b then _ else _) => destruct b
      | |- preserves _ (match ?x with _ => _ end) => destruct x
      end ].

Lemma preserves_compute_fetch_start `{DatetimeLib} cfg env :
  preserves R (compute_fetch_start cfg env name).
Proof. unfold compute_fetch_start. preserve. Qed.

Lemma preserves_decide_feature `{DatetimeLib} cfg env feat props k obs ls :
  preserves R (decide_feature cfg env name feat props k obs ls).
Proof. unfold decide_feature. cbn zeta. preserve. Qed.

Hint Resolve preserves_compute_fetch_start preserves_decide_feature : preserve.

Lemma preserves_process_feature `{DatetimeLib} `{PyRuntime} cfg env feat ls :
  preserves R (process_feature cfg env name feat ls).
Proof. unfold process_feature, get_observation_timestamp. preserve. Qed.

Hint Resolve preserves_process_feature : preserve.

Lemma preserves_process_features `{DatetimeLib} `{PyRuntime} cfg env features :
  ∀ ls, preserves R (process_features cfg env name features ls).
Proof.
  induction features as [|f rest IH]; intros ls; cbn [process_features]; preserve.
Qed.

Hint Resolve preserves_process_features : preserve.

Lemma preserves_record_empty_run `{DatetimeLib} env run_start_time :
  preserves R (record_empty_run env name run_start_time).
Proof. unfold record_empty_run. preserve. Qed.

Lemma preserves_record_run `{DatetimeLib} `{PyRuntime} cfg env prefix run_start_time
    fetch_start_dt features :
  preserves R (record_run cfg env name prefix run_start_time fetch_start_dt features).
Proof. unfold record_run, upload_delta. preserve. Qed.

Hint Resolve preserves_record_empty_run preserves_record_run : preserve.

Lemma preserves_process_endpoint `{DatetimeLib} `{PyRuntime} cfg env url prefix :
  preserves R (process_endpoint cfg env name url prefix).
Proof. unfold process_endpoint. preserve. Qed.

Lemma preserves_process_source `{DatetimeLib} `{PyRuntime} cfg env original url prefix :
  preserves R (process_source cfg env original name url prefix).
Proof.
  unfold process_source. apply preserves_try_except.
  - apply preserves_process_endpoint.
  - intros e w r w' [= _ <-]. apply R_update.
Qed.
End Preservation.

Lemma elsewhere_process_source `{DatetimeLib} `{PyRuntime} cfg env original name url prefix :
  preserves (elsewhere name) (process_source cfg env original name url prefix).
Proof.
  apply preserves_process_source; unfold elsewhere; try done.
  - intros w1 w2 w3 H12 H23 m Hm. by rewrite H23, H12.
  - intros w ns m Hm. cbn. by rewrite lookup_insert_ne.
Qed.

Lemma deltas_process_source `{DatetimeLib} `{PyRuntime} cfg env original name url prefix :
  preserves deltas_added (process_source cfg env original name url prefix).
Proof.
  apply preserves_process_source with (name := name); unfold deltas_added.
  - intros w. exists []. by rewrite app_nil_r.
  - intros w1 w2 w3 (d1 & E1 & F1) (d2 & E2 & F2). exists (d1 ++ d2).
    rewrite E2, E1, app_assoc, forallb_app, F1, F2. done.
  - intros w. exists []. by rewrite app_nil_r.
  - intros w script reqs. exists []. by rewrite app_nil_r.
  - intros w key feats. by exists [PutDelta key feats].
  - intros w ns. exists []. by rewrite app_nil_r.
Qed.

(** What the orchestrator makes of one source. *)
Lemma process_source_settles `{DatetimeLib} `{PyRuntime} cfg env original name url prefix w :
  substate (w_state (snd (process_source cfg env original name url prefix w))) name =
  settled original name (process_endpoint cfg env name url prefix w).
Proof.
  unfold process_source, try_except, settled.
  destruct (process_endpoint cfg env name url prefix w) as [[[]|e] w1]; [reflexivity|].
  cbn. unfold substate. by rewrite lookup_insert_eq.
Qed.

Lemma elsewhere_substate name w w' m :
  elsewhere name w w' → m ≠ name → substate (w_state w') m = substate (w_state w) m.
Proof. intros He Hm. unfold substate. by rewrite He. Qed.

Lemma process_source_returns `{DatetimeLib} `{PyRuntime} cfg env original name url prefix w :
  process_source cfg env original name url prefix w =
  (Ok tt, snd (process_source cfg env original name url prefix w)).
Proof.
  unfold process_source, try_except.
  by destruct (process_endpoint cfg env name url prefix w) as [[[]|e] w1].
Qed.

(** ** Run orchestrator *)

(** C5.  Whatever happens while the three sources are processed, [main]
    goes on to the final [s3_put_json]: it is the one [put_object] call of
    the run that writes the state, it comes after the delta artifacts, and
    it carries the state of all three sources.  In that state the
    sub-state of a source whose [process_endpoint] call raised is the
    pre-run snapshot of that source, and the sub-state of a source whose
    call returned is exactly what that call left, untouched by the
    processing or the rollback of the other two.  (Sub-states are read as
    the program reads them, [state.get(name, {})].) *)
Theorem fatal_isolation `{DatetimeLib} `{PyRuntime} (cfg : Config) (env : Env)
    (stored : stored_state) (original : State) (w0 : World) :
  S3_BUCKET_NAME cfg ≠ "" →
  loaded stored = Some original →
  let w1 := set_state (λ _, original) w0 in
  let wa := snd (process_source cfg env original "swob" (API_URL_SWOB cfg) "swob_raw" w1) in
  let wb := snd (process_source cfg env original "hydrometric" (API_URL_HYDROMETRIC cfg)
                   "hydrometric_raw" wa) in
  let wc := snd (process_source cfg env original "climate_hourly"
                   (API_URL_CLIMATE_HOURLY cfg) "climate_hourly_raw" wb) in
  substate (w_state wc) "swob" =
    settled original "swob"
      (process_endpoint cfg env "swob" (API_URL_SWOB cfg) "swob_raw" w1) ∧
  substate (w_state wc) "hydrometric" =
    settled original "hydrometric"
      (process_endpoint cfg env "hydrometric" (API_URL_HYDROMETRIC cfg) "hydrometric_raw" wa) ∧
  substate (w_state wc) "climate_hourly" =
    settled original "climate_hourly"
      (process_endpoint cfg env "climate_hourly" (API_URL_CLIMATE_HOURLY cfg)
         "climate_hourly_raw" wb) ∧
  ∃ r deltas,
    main cfg env stored w0 = (r, add_put (PutState (STATE_S3_KEY cfg) (w_state wc)) wc) ∧
    w_puts (add_put (PutState (STATE_S3_KEY cfg) (w_state wc)) wc) =
      w_puts w0 ++ deltas ++ [PutState (STATE_S3_KEY cfg) (w_state wc)] ∧
    forallb is_delta deltas = true.
Proof.
  intros Hbucket Hload w1 wa wb wc.
  pose proof (elsewhere_process_source cfg env original "hydrometric"
                (API_URL_HYDROMETRIC cfg) "hydrometric_raw" wa _ _
                (surjective_pairing _)) as Hb.
  pose proof (elsewhere_process_source cfg env original "climate_hourly"
                (API_URL_CLIMATE_HOURLY cfg) "climate_hourly_raw" wb _ _
                (surjective_pairing _)) as Hc.
  fold wb in Hb. fold wc in Hc.
  split; [|split; [|split]].
  - rewrite (elsewhere_substate _ _ _ _ Hc) by done.
    rewrite (elsewhere_substate _ _ _ _ Hb) by done.
    apply process_source_settles.
  - rewrite (elsewhere_substate _ _ _ _ Hc) by done.
    apply process_source_settles.
  - apply process_source_settles.
  - pose proof (deltas_process_source cfg env original "swob" (API_URL_SWOB cfg)
                  "swob_raw" w1 _ _ (surjective_pairing _)) as (da & Ea & Fa).
    pose proof (deltas_process_source cfg env original "hydrometric"
                  (API_URL_HYDROMETRIC cfg) "hydrometric_raw" wa _ _
                  (surjective_pairing _)) as (db & Eb & Fb).
    pose proof (deltas_process_source cfg env original "climate_hourly"
                  (API_URL_CLIMATE_HOURLY cfg) "climate_hourly_raw" wb _ _
                  (surjective_pairing _)) as (dc & Ec & Fc).
    fold wa in Ea. fold wb in Eb. fold wc in Ec.
    exists (if put_ok env (length (w_puts wc)) then Ok tt else Raise ClientError),
           (da ++ db ++ dc).
    split; [|split].
    + unfold main. destruct (String.eqb_spec (S3_BUCKET_NAME cfg) ""); [done|].
      destruct stored as [st| |]; [| |done]; cbn in Hload; simplify_eq;
        unfold s3_get_json, bind at 1, ret, modify_state, get_state;
        cbn [default from_option id];
        (unfold bind at 1; unfold bind at 1; unfold bind at 1;
         rewrite process_source_returns; fold w1; fold wa;
         unfold bind at 1; rewrite process_source_returns; fold wb;
         unfold bind at 1; rewrite process_source_returns; fold wc;
         unfold s3_put_json, bind, get_state, put_object, add_put;
         by destruct (put_ok env _)).
    + cbn [w_puts add_put]. rewrite Ec, Eb, Ea. cbn [w_puts set_state].
      by rewrite <- !app_assoc.
    + by rewrite !forallb_app, Fa, Fb, Fc.
Qed.

Lemma fatal_isolation_witness :
  let cfg := default_config in
  let original := stale_checkpoint in
  let w1 := set_state (λ _, original) stale_world in
  let wa := snd (process_source cfg sample_env original "swob" (API_URL_SWOB cfg) "swob_raw" w1) in
  let wb := snd (process_source cfg sample_env original "hydrometric"
                   (API_URL_HYDROMETRIC cfg) "hydrometric_raw" wa) in
  let wc := snd (process_source cfg sample_env original "climate_hourly"
                   (API_URL_CLIMATE_HOURLY cfg) "climate_hourly_raw" wb) in
  fst (process_endpoint cfg sample_env "hydrometric" (API_URL_HYDROMETRIC cfg)
         "hydrometric_raw" wa) = Raise TypeError ∧
  substate (w_state wc) "swob" =
    settled original "swob"
      (process_endpoint cfg sample_env "swob" (API_URL_SWOB cfg) "swob_raw" w1) ∧
  substate (w_state wc) "hydrometric" =
    settled original "hydrometric"
      (process_endpoint cfg sample_env "hydrometric" (API_URL_HYDROMETRIC cfg)
         "hydrometric_raw" wa) ∧
  substate (w_state wc) "climate_hourly" =
    settled original "climate_hourly"
      (process_endpoint cfg sample_env "climate_hourly" (API_URL_CLIMATE_HOURLY cfg)
         "climate_hourly_raw" wb) ∧
  ∃ r deltas,
    main cfg sample_env (Stored original) stale_world =
      (r, add_put (PutState (STATE_S3_KEY cfg) (w_state wc)) wc) ∧
    w_puts (add_put (PutState (STATE_S3_KEY cfg) (w_state wc)) wc) =
      w_puts stale_world ++ deltas ++ [PutState (STATE_S3_KEY cfg) (w_state wc)] ∧
    forallb is_delta deltas = true.
Proof.
  intros cfg original w1 wa wb wc. split; [vm_compute; reflexivity|].
  apply (fatal_isolation default_config sample_env (Stored stale_checkpoint)
           stale_checkpoint stale_world); [discriminate|reflexivity].
Defined.

(** The same run, spelled out: the surface-weather source
    accepts its new observation, the hydrometric source raises and keeps
    its checkpoint, the climate-hourly source starts from nothing, and the
    state is written once, after the two delta artifacts. *)
Example isolation_run :
  ∃ wf, main default_config sample_env (Stored stale_checkpoint) stale_world = (Ok tt, wf) ∧
    substate (w_state wf) "hydrometric" = substate stale_checkpoint "hydrometric" ∧
    per_station (substate (w_state wf) "swob") !! "ABC" = Some "2025-06-01T12:05:00+00:00" ∧
    per_station (substate (w_state wf) "climate_hourly") !! "7025250"
      = Some "2025-06-01T11:00:00+00:00" ∧
    is_delta <$> w_puts wf = [true; true; false].
Proof. eexists. split; [vm_compute; reflexivity|]. by vm_compute. Qed.

(** ** Station keys *)

Lemma pretty_N_go_nonempty x s : s ≠ "" → pretty_N_go x s ≠ "".
Proof.
  revert s. induction (N.lt_wf_0 x) as [x _ IH]; intros s Hs.
  destruct (decide (x = 0)%N) as [->|Hx]; [by rewrite pretty_N_go_0|].
  rewrite pretty_N_go_step by lia. apply IH; [apply N.div_lt; lia|done].
Qed.

Lemma pretty_Z_nonempty (n : Z) : pretty n ≠ "".
Proof.
  destruct n as [|p|p]; [done| |done].
  unfold pretty, pretty_Z, pretty, pretty_positive, pretty, pretty_N.
  rewrite decide_False by done.
  rewrite pretty_N_go_step by lia. by apply pretty_N_go_nonempty.
Qed.

Lemma py_str_truthy_nonempty `{PyRuntime} v : truthy v = true → py_str v ≠ "".
Proof.
  destruct v as [|[]|n|s|l|d]; cbn [truthy py_str]; try done.
  - intros _. apply pretty_Z_nonempty.
  - by destruct (String.eqb_spec s "").
  - intros _. by apply py_repr_nonempty.
  - intros _. by apply py_repr_nonempty.
Qed.

(** [if st_key:] at line 321 always holds. *)
Lemma get_station_id_nonempty `{PyRuntime} name props feat_id k :
  get_station_id name props feat_id = Ok k → k ≠ "".
Proof.
  unfold get_station_id.
  destruct (if String.eqb name "swob" then _ else _) as [station_key|e]; [|done].
  cbn [obind]. intros [= <-]. apply py_str_truthy_nonempty.
  destruct (truthy station_key) eqn:E; [done|]. cbn [negb].
  unfold py_or. by destruct (truthy feat_id) eqn:E'.
Qed.

(** ** The inclusion decision *)

Lemma observation_string_ok name d : ∃ v, observation_string name (VDict d) = Ok v.
Proof.
  unfold observation_string, py_get_or, py_get.
  destruct (String.eqb name "swob"); cbn [obind].
  { destruct (truthy (dict_get "date_tm-value" d)) eqn:E; cbn [obind negb].
    - rewrite E. by eexists.
    - destruct (negb _); by eexists. }
  destruct (String.eqb name "hydrometric"); cbn [obind].
  { destruct (negb _); by eexists. }
  destruct (String.eqb name "climate_hourly"); cbn [obind].
  { destruct (truthy (dict_get "UTC_DATE" d)) eqn:E; cbn [obind negb].
    - rewrite E. by eexists.
    - destruct (negb _); by eexists. }
  by eexists.
Qed.

(** Reading a watermark that stays valid. *)
Lemma parse_watermark `{DatetimeLib} cfg env st name k T w :
  watermark_of st name k = Some T →
  stays_valid cfg env T →
  ∃ s, per_station (substate st name) !! k = Some s ∧ str_truthy (Some s) = true ∧
       parse_iso_to_utc cfg env (VStr s) w = (Ok (Some T), tick w).
Proof.
  unfold watermark_of. intros Hw Hvalid.
  destruct (per_station (substate st name) !! k) as [s|]; [|done].
  exists s. split; [done|]. cbn [str_truthy].
  destruct (String.eqb s "") eqn:E; [done|]. split; [done|].
  rewrite parse_iso_to_utc_eq. cbn [truthy]. rewrite E, Hw. cbn [negb].
  unfold now_of. by rewrite Hvalid.
Qed.

(** The timestamp of a well-formed feature, as the loop obtains it. *)
Lemma get_observation_timestamp_eq `{DatetimeLib} cfg env name fd w :
  well_formed (VDict fd) = true →
  get_observation_timestamp cfg env name (feature_props fd) w =
  match observed name (VDict fd) with
  | Some t => (Ok (if in_window cfg (now_of env w) t then Some t else None), tick w)
  | None => (Ok None, w)
  end.
Proof.
  cbn [well_formed observed]. intros [_ Hp]%andb_prop.
  destruct (feature_props fd) as [| | | | |d]; try done.
  unfold get_observation_timestamp, bind, lift.
  destruct (observation_string_ok name d) as [v ->].
  rewrite parse_iso_to_utc_eq. destruct (truthy v); [|reflexivity]. cbn [negb].
  by destruct (parse_raw v).
Qed.

(** One iteration on a well-formed feature. *)
Lemma process_feature_eq `{DatetimeLib} `{PyRuntime} cfg env name fd ls w :
  well_formed (VDict fd) = true →
  process_feature cfg env name (VDict fd) ls w =
  if existsb (py_key_eqb (feature_id fd)) (seen_ids ls) then (Ok ls, w)
  else
    match get_observation_timestamp cfg env name (feature_props fd) w with
    | (Ok (Some t), w1) =>
        decide_feature cfg env name (VDict fd) (feature_props fd)
          (station_of name (VDict fd)) t (add_seen (feature_id fd) ls) w1
    | (Ok None, w1) => (Ok (count_timestamp_rejection (add_seen (feature_id fd) ls)), w1)
    | (Raise e, w1) => (Raise e, w1)
    end.
Proof.
  intros Hwf. pose proof Hwf as [Hh Hp]%andb_prop.
  unfold process_feature. cbn [py_get].
  rewrite (bind_lift_ok _ _ _ _ eq_refl), (bind_lift_ok _ _ _ _ eq_refl).
  fold (feature_props fd). fold (feature_id fd).
  unfold set_mem. rewrite Hh. rewrite (bind_lift_ok _ _ _ _ eq_refl).
  destruct (existsb _ _); [reflexivity|].
  cbn [station_of]. destruct (feature_props fd) as [| | | | |d] eqn:Ed; try done.
  destruct (get_station_id_dict name d (feature_id fd)) as [k Hk]. rewrite Hk.
  rewrite (bind_lift_ok _ _ _ _ eq_refl). unfold bind.
  by destruct (get_observation_timestamp _ _ _ _ _) as [[[t|]|e] w1].
Qed.

(** The decision for an instant the station's watermark already covers. *)
Lemma decide_feature_covered `{DatetimeLib} cfg env name feat props k t T ls w :
  watermark_of (w_state w) name k = Some T →
  stays_valid cfg env T →
  t ≤ T →
  decide_feature cfg env name feat props k t ls w = (Ok (note_observation t ls), tick w).
Proof.
  intros Hw Hvalid Hle.
  destruct (parse_watermark cfg env _ _ _ _ w Hw Hvalid) as (s & Hs & Htr & Hparse).
  unfold decide_feature. cbn zeta. unfold bind at 1, get_per_station.
  rewrite Hs, Htr. change (default "" (Some s)) with s.
  unfold bind at 1. rewrite Hparse.
  destruct (Z.ltb_spec T t); [lia|]. reflexivity.
Qed.

(** The decision for an instant newer than the station's watermark, on a
    feature that passes the quality filter. *)
Lemma decide_feature_newer `{DatetimeLib} cfg env name feat props k t T ls w :
  watermark_of (w_state w) name k = Some T →
  stays_valid cfg env T →
  T < t →
  k ≠ "" →
  is_high_quality_data cfg name props = Ok true →
  decide_feature cfg env name feat props k t ls w =
    (Ok (accept_feature feat t ls),
     set_state (λ st, <[name := with_per_station (insert k (isoformat t)) (substate st name)]> st)
       (tick (tick w))).
Proof.
  intros Hw Hvalid Hlt Hk Hq.
  destruct (parse_watermark cfg env _ _ _ _ w Hw Hvalid) as (s & Hs & Htr & Hparse).
  destruct (parse_watermark cfg env _ _ _ _ (tick w) Hw Hvalid) as (s' & Hs' & _ & Hparse').
  cbn [w_state tick] in Hs'. rewrite Hs in Hs'. injection Hs' as <-.
  unfold decide_feature. cbn zeta. unfold bind at 1, get_per_station.
  rewrite Hs, Htr. change (default "" (Some s)) with s.
  unfold bind at 1. rewrite Hparse.
  destruct (Z.ltb_spec T t); [|lia].
  unfold bind at 1, lift. rewrite Hq. cbn [andb negb].
  destruct (String.eqb_spec k ""); [done|]. cbn [negb].
  unfold bind at 1. unfold bind at 1. cbn [w_state tick]. rewrite Hs, Htr. cbn [negb].
  change (default "" (Some s)) with s. unfold bind at 1. rewrite Hparse'.
  destruct (Z.ltb_spec T t); [|lia]. reflexivity.
Qed.

(** A delivered observation that its station's watermark already covers
    is never accepted: it is skipped as a duplicate, turned down for its
    timestamp, or found not newer than the watermark. *)
Lemma process_feature_covered `{DatetimeLib} `{PyRuntime} cfg env name feat ls w :
  already_accepted cfg env name (w_state w) feat →
  ∃ ls' w', process_feature cfg env name feat ls w = (Ok ls', w') ∧
            new_features ls' = new_features ls ∧
            max_seen_dt ls' = max_seen_dt ls ∧
            rejected_quality_count ls' = rejected_quality_count ls ∧
            w_state w' = w_state w.
Proof.
  intros (Hwf & T & Hw & Hvalid & Hle).
  destruct feat as [| | | | |fd]; try done.
  rewrite (process_feature_eq _ _ _ _ _ _ Hwf).
  destruct (existsb _ _); [by eexists _, _|].
  rewrite (get_observation_timestamp_eq _ _ _ _ _ Hwf).
  destruct (observed name (VDict fd)) as [t|]; [|by eexists _, _].
  destruct (in_window cfg (now_of env w) t); [|by eexists _, _].
  rewrite (decide_feature_covered _ _ _ _ _ _ t T); [by eexists _, _|done..|by apply Hle].
Qed.

Lemma process_features_covered `{DatetimeLib} `{PyRuntime} cfg env name features :
  ∀ ls w,
    Forall (already_accepted cfg env name (w_state w)) features →
    ∃ ls' w', process_features cfg env name features ls w = (Ok ls', w') ∧
              new_features ls' = new_features ls ∧
              max_seen_dt ls' = max_seen_dt ls ∧
              rejected_quality_count ls' = rejected_quality_count ls ∧
              w_state w' = w_state w.
Proof.
  induction features as [|f rest IH]; intros ls w Hall; [by eexists _, _|].
  apply Forall_cons in Hall as [Hf Hrest].
  destruct (process_feature_covered cfg env name f ls w Hf)
    as (ls1 & w1 & Hstep & Hn1 & Hm1 & Hq1 & Hs1).
  rewrite <- Hs1 in Hrest.
  destruct (IH ls1 w1 Hrest) as (ls2 & w2 & Hloop & Hn2 & Hm2 & Hq2 & Hs2).
  exists ls2, w2. cbn [process_features]. rewrite (bind_ok _ _ _ _ _ Hstep).
  split; [done|]. by rewrite Hn2, Hm2, Hq2, Hs2.
Qed.

(** A first delivery of an observation newer than its station's
    watermark, on a feature that passes the quality filter. *)
Lemma process_feature_newer `{DatetimeLib} `{PyRuntime} cfg env name fd ls w T t :
  well_formed (VDict fd) = true →
  existsb (py_key_eqb (feature_id fd)) (seen_ids ls) = false →
  watermark_of (w_state w) name (station_of name (VDict fd)) = Some T →
  stays_valid cfg env T →
  observed name (VDict fd) = Some t →
  stays_valid cfg env t →
  T < t →
  is_high_quality_data cfg name (feature_props fd) = Ok true →
  process_feature cfg env name (VDict fd) ls w =
    (Ok (accept_feature (VDict fd) t (add_seen (feature_id fd) ls)),
     set_state (λ st, <[name := with_per_station
                                  (insert (station_of name (VDict fd)) (isoformat t))
                                  (substate st name)]> st)
       (tick (tick (tick w)))).
Proof.
  intros Hwf Hnew Hw HT Hobs Ht Hlt Hq.
  rewrite (process_feature_eq _ _ _ _ _ _ Hwf), Hnew.
  rewrite (get_observation_timestamp_eq _ _ _ _ _ Hwf), Hobs.
  unfold now_of at 1. rewrite Ht.
  apply decide_feature_newer with (T := T); try done.
  pose proof Hwf as [_ Hp]%andb_prop. cbn [station_of].
  destruct (feature_props fd) as [| | | | |d]; try done.
  destruct (get_station_id_dict name d (feature_id fd)) as [k Hk]. rewrite Hk.
  by eapply get_station_id_nonempty.
Qed.

(** Inclusion inside the validation window.  (1) A delivered observation
    whose station has a watermark [T] and whose instant is [T] or earlier
    is not accepted and moves no watermark.  (2) A whole batch of such
    observations, an overlap window fetched again, is processed without a
    single inclusion and leaves the state as it was.  (3) An observation
    at an instant after [T] that passes validation and the quality filter
    is accepted on its first delivery, once, and the station's watermark
    becomes its instant; delivered again in a later window, by a process
    that gives the feature the same station key, against the state the
    first delivery left, it is not accepted.  All of this for watermarks
    and instants that are inside the validation window for as long as the
    runs last; for a watermark outside it see
    [stale_station_watermark_blocks_inclusion]. *)
Lemma strict_inclusion `{DatetimeLib} `{first : PyRuntime} (cfg : Config) (env : Env)
    (name : string) :
  (∀ feat ls w,
     already_accepted cfg env name (w_state w) feat →
     ∃ ls' w', process_feature cfg env name feat ls w = (Ok ls', w') ∧
               new_features ls' = new_features ls ∧ w_state w' = w_state w) ∧
  (∀ features ls w,
     Forall (already_accepted cfg env name (w_state w)) features →
     ∃ ls' w', process_features cfg env name features ls w = (Ok ls', w') ∧
               new_features ls' = new_features ls ∧ w_state w' = w_state w) ∧
  (∀ fd ls w T t,
     well_formed (VDict fd) = true →
     existsb (py_key_eqb (feature_id fd)) (seen_ids ls) = false →
     watermark_of (w_state w) name (station_of name (VDict fd)) = Some T →
     stays_valid cfg env T →
     observed name (VDict fd) = Some t →
     stays_valid cfg env t →
     T < t →
     is_high_quality_data cfg name (feature_props fd) = Ok true →
     isoformat t ≠ "" →
     parse_raw (VStr (isoformat t)) = Some t →
     ∃ ls' w',
       process_feature cfg env name (VDict fd) ls w = (Ok ls', w') ∧
       new_features ls' = new_features ls ++ [VDict fd] ∧
       watermark_of (w_state w') name (station_of name (VDict fd)) = Some t ∧
       ∀ (later : PyRuntime) ls2 w2,
         @station_of later name (VDict fd) = @station_of first name (VDict fd) →
         w_state w2 = w_state w' →
         ∃ ls2' w2', @process_feature _ later cfg env name (VDict fd) ls2 w2 = (Ok ls2', w2') ∧
                     new_features ls2' = new_features ls2 ∧ w_state w2' = w_state w2).
Proof.
  split; [|split].
  - intros feat ls w Hacc.
    destruct (process_feature_covered cfg env name feat ls w Hacc)
      as (ls' & w' & ? & ? & _ & _ & ?). by exists ls', w'.
  - intros features ls w Hall.
    destruct (process_features_covered cfg env name features ls w Hall)
      as (ls' & w' & ? & ? & _ & _ & ?). by exists ls', w'.
  - intros fd ls w T t Hwf Hnew Hw HT Hobs Ht Hlt Hq Hne Hback.
    eexists _, _. split; [by eapply process_feature_newer|]. split; [reflexivity|].
    assert (Hmark : ∀ st, watermark_of
              (<[name := with_per_station
                           (insert (station_of name (VDict fd)) (isoformat t))
                           (substate st name)]> st)
              name (station_of name (VDict fd)) = Some t).
    { intros st. unfold watermark_of, substate. rewrite lookup_insert_eq.
      cbn [default from_option id per_station with_per_station].
      rewrite lookup_insert_eq. by destruct (String.eqb_spec (isoformat t) ""). }
    split; [apply Hmark|].
    intros later ls2 w2 Hkey Hsame.
    destruct (@process_feature_covered _ later cfg env name (VDict fd) ls2 w2)
      as (ls2' & w2' & ? & ? & _ & _ & ?); [|by exists ls2', w2'].
    split; [done|]. exists t. rewrite Hsame, Hkey. split; [apply Hmark|]. split; [done|].
    intros t' Ht'. rewrite Hobs in Ht'. injection Ht' as <-. lia.
Qed.

Lemma strict_inclusion_witness :
  (∃ ls' w', process_feature default_config steady_env "swob" (VDict at_noon)
               (init_loop (noon - timedelta_minutes 15)) (world_of swob_at_noon [])
             = (Ok ls', w') ∧
             new_features ls' = new_features (init_loop (noon - timedelta_minutes 15)) ∧
             w_state w' = w_state (world_of swob_at_noon [])) ∧
  (∃ ls' w', process_features default_config steady_env "swob"
               [VDict at_noon; VDict before_noon; VDict at_noon]
               (init_loop (noon - timedelta_minutes 15)) (world_of swob_at_noon [])
             = (Ok ls', w') ∧
             new_features ls' = new_features (init_loop (noon - timedelta_minutes 15)) ∧
             w_state w' = w_state (world_of swob_at_noon [])) ∧
  (∃ ls' w', process_feature default_config steady_env "swob" (VDict after_noon)
               (init_loop (noon - timedelta_minutes 15)) (world_of swob_at_noon [])
             = (Ok ls', w') ∧
             new_features ls' =
               new_features (init_loop (noon - timedelta_minutes 15)) ++ [VDict after_noon] ∧
             watermark_of (w_state w') "swob" (station_of "swob" (VDict after_noon))
               = Some (noon + timedelta_minutes 5) ∧
             ∀ (later : PyRuntime) ls2 w2,
               @station_of later "swob" (VDict after_noon)
                 = @station_of RefRuntime.runtime "swob" (VDict after_noon) →
               w_state w2 = w_state w' →
               ∃ ls2' w2', @process_feature _ later default_config steady_env "swob"
                             (VDict after_noon) ls2 w2 = (Ok ls2', w2') ∧
                           new_features ls2' = new_features ls2 ∧ w_state w2' = w_state w2).
Proof.
  assert (Hvalid : ∀ t, noon - timedelta_minutes 60 ≤ t ≤ noon + timedelta_minutes 60 →
                        stays_valid default_config steady_env t).
  { intros t Ht i. unfold in_window, steady_env, timedelta_days, timedelta_minutes, noon in *.
    cbn [clock MAX_FUTURE_DAYS default_config].
    apply andb_true_intro. split; apply negb_true_iff, Z.ltb_ge; lia. }
  assert (Hacc : ∀ fd t,
            well_formed (VDict fd) = true →
            station_of "swob" (VDict fd) = "ABC" →
            observed "swob" (VDict fd) = Some t → t ≤ noon →
            already_accepted default_config steady_env "swob" swob_at_noon (VDict fd)).
  { intros fd t Hwf Hst Hobs Hle. split; [done|]. exists noon. rewrite Hst.
    split; [vm_compute; reflexivity|]. split.
    - apply Hvalid. unfold timedelta_minutes. lia.
    - intros t' Ht'. rewrite Hobs in Ht'. injection Ht' as <-. exact Hle. }
  pose proof (strict_inclusion default_config steady_env "swob") as (Hone & Hbatch & Hnew).
  split; [|split].
  - apply Hone. apply (Hacc at_noon noon); [reflexivity..|lia].
  - apply Hbatch. repeat apply Forall_cons_2; [..|apply Forall_nil_2].
    + apply (Hacc at_noon noon); [reflexivity..|lia].
    + apply (Hacc before_noon (noon - timedelta_minutes 1));
        [reflexivity|reflexivity|vm_compute; reflexivity|unfold timedelta_minutes; lia].
    + apply (Hacc at_noon noon); [reflexivity..|lia].
  - apply (Hnew after_noon _ _ noon (noon + timedelta_minutes 5)).
    + reflexivity.
    + reflexivity.
    + vm_compute. reflexivity.
    + apply Hvalid. unfold timedelta_minutes. lia.
    + vm_compute. reflexivity.
    + apply Hvalid. unfold timedelta_minutes. lia.
    + unfold timedelta_minutes. lia.
    + reflexivity.
    + vm_compute. discriminate.
    + vm_compute. reflexivity.
Defined.

(** C3, at a failing input.  Station OLD has the watermark [T], 1 January
    2024, written by the run that accepted its last observation; the
    clock stands at ten past noon on 1 June 2025.  An observation of
    station OLD at five past noon is delivered: its instant is after [T],
    it passes validation and the quality filter, and its identifier is
    new.  It is not included.  The parser's validation turns the
    watermark, older than 365 days, into [None]; the feature is appended
    to [new_features], and the comparison of [None] with the observation
    instant raises [TypeError] (line 323) before the watermark is written.
    The run of the source raises with nothing uploaded, the orchestrator
    restores the checkpoint, and the next run meets the same state. *)
Theorem stale_station_watermark_blocks_inclusion :
  ∃ T t w1 w',
    watermark_of dormant_checkpoint "swob" (station_of "swob" (VDict old_station_reading))
      = Some T ∧
    observed "swob" (VDict old_station_reading) = Some t ∧
    T < t ∧
    (∀ i, (i ≤ 100)%nat → in_window default_config (clock sample_env i) t = true) ∧
    is_high_quality_data default_config "swob" (feature_props old_station_reading) = Ok true ∧
    process_feature default_config sample_env "swob" (VDict old_station_reading)
      (init_loop (noon - timedelta_minutes 15)) (world_of dormant_checkpoint [])
      = (Raise TypeError, w1) ∧
    w_state w1 = dormant_checkpoint ∧
    process_endpoint default_config sample_env "swob" items_url "swob_raw" dormant_world
      = (Raise TypeError, w') ∧
    w_puts w' = [] ∧
    w_state w' = dormant_checkpoint ∧
    w_state (snd (process_source default_config sample_env dormant_checkpoint "swob"
                    items_url "swob_raw" dormant_world))
      = dormant_checkpoint.
Proof.
  eexists _, (noon + timedelta_minutes 5), _, _.
  split; [vm_compute; reflexivity|]. split; [vm_compute; reflexivity|].
  split; [vm_compute; reflexivity|]. split.
  { intros i Hi. unfold in_window, sample_env, timedelta_days, timedelta_minutes, noon.
    cbn [clock MAX_FUTURE_DAYS default_config].
    apply andb_true_intro. split; apply negb_true_iff, Z.ltb_ge; lia. }
  split; [vm_compute; reflexivity|]. split; [vm_compute; reflexivity|].
  split; [vm_compute; reflexivity|]. split; [vm_compute; reflexivity|].
  repeat split; vm_compute; reflexivity.
Qed.

(** ** The global watermark *)

Lemma substate_insert name ns (st : State) : substate (<[name := ns]> st) name = ns.
Proof. unfold substate. by rewrite lookup_insert_eq. Qed.

Lemma setdefault_source_present name w ns :
  w_state w !! name = Some ns → setdefault_source name w = (Ok tt, w).
Proof.
  intros Hns. unfold setdefault_source, modify_state, set_state. rewrite Hns. by destruct w.
Qed.

(** X22.  A run that fetches something and accepts nothing writes the start of
    its fetch window as the global watermark: the prior watermark minus
    the overlap.  The station watermarks stay where they were. *)
Lemma nothing_new_moves_global_back `{DatetimeLib} `{PyRuntime} cfg env name url prefix
    w s W features w2 :
  global_last_processed_dt (substate (w_state w) name) = Some s →
  s ≠ "" →
  parse_raw (VStr s) = Some W →
  in_window cfg (now_of env (tick w)) W = true →
  fetch_features_with_paging url
    (window_params (W - timedelta_minutes (INCREMENTAL_OVERLAP_MIN cfg)))
    (FETCH_LIMIT cfg) (tick (tick w)) = (Ok features, w2) →
  features ≠ [] →
  Forall (already_accepted cfg env name (w_state w)) features →
  ∃ w', process_endpoint cfg env name url prefix w = (Ok tt, w') ∧
        global_last_processed_dt (substate (w_state w') name) =
          Some (isoformat (W - timedelta_minutes (INCREMENTAL_OVERLAP_MIN cfg))) ∧
        per_station (substate (w_state w') name) = per_station (substate (w_state w) name).
Proof.
  intros Hs Hne Hraw Hwin Hfetch Hfeat Hall.
  rewrite process_endpoint_eq, compute_fetch_start_eq. cbn zeta.
  cbn [w_state tick]. rewrite Hs. change (default "" (Some s)) with s.
  rewrite parse_iso_to_utc_eq. cbn [str_truthy truthy].
  destruct (String.eqb_spec s ""); [done|]. cbn [negb]. rewrite Hraw, Hwin, Hfetch.
  destruct features as [|f rest]; [done|].
  pose proof (fetch_state _ _ _ _ _ _ Hfetch) as Hst2. cbn [w_state tick] in Hst2.
  assert (Hpresent : ∃ ns, w_state w2 !! name = Some ns ∧ substate (w_state w) name = ns).
  { rewrite Hst2. unfold substate in *. destruct (w_state w !! name) as [ns|]; [by eexists|done]. }
  destruct Hpresent as (ns & Hns & Hsub).
  unfold record_run. rewrite (bind_ok _ _ _ _ _ (setdefault_source_present _ _ _ Hns)).
  rewrite <- Hst2 in Hall.
  destruct (process_features_covered cfg env name (f :: rest)
              (init_loop (W - timedelta_minutes (INCREMENTAL_OVERLAP_MIN cfg))) w2 Hall)
    as (ls' & w3 & Hloop & Hnew & Hmax & _ & Hst3).
  unfold bind at 1. rewrite Hloop. cbn [new_features init_loop] in Hnew. rewrite Hnew.
  cbn [upload_delta]. unfold bind at 1, ret.
  cbn [max_seen_dt init_loop] in Hmax. rewrite Hmax.
  eexists. split; [reflexivity|].
  cbn [w_state set_state tick]. rewrite !substate_insert.
  cbn [global_last_processed_dt per_station set_run_metadata set_stations_tracked
         set_last_run set_global].
  split; [reflexivity|]. by rewrite Hst3, Hst2.
Qed.

Lemma nothing_new_moves_global_back_witness :
  ∃ w', process_endpoint default_config steady_env "swob" items_url "swob_raw" overlap_world
          = (Ok tt, w') ∧
        global_last_processed_dt (substate (w_state w') "swob") =
          Some (isoformat (noon - timedelta_minutes (INCREMENTAL_OVERLAP_MIN default_config))) ∧
        per_station (substate (w_state w') "swob")
          = per_station (substate (w_state overlap_world) "swob").
Proof.
  apply (nothing_new_moves_global_back default_config steady_env "swob" items_url "swob_raw"
           overlap_world "2025-06-01T12:00:00+00:00" noon [VDict at_noon]
           (snd (fetch_features_with_paging items_url
                   (window_params (noon - timedelta_minutes 15)) 500
                   (tick (tick overlap_world))))).
  - vm_compute. reflexivity.
  - discriminate.
  - vm_compute. reflexivity.
  - vm_compute. reflexivity.
  - vm_compute. reflexivity.
  - discriminate.
  - constructor; [|constructor]. split; [vm_compute; reflexivity|].
    exists noon. split; [vm_compute; reflexivity|]. split.
    + intros i. unfold in_window, steady_env, timedelta_days, timedelta_minutes, noon.
      cbn [clock MAX_FUTURE_DAYS default_config].
      apply andb_true_intro. split; apply negb_true_iff, Z.ltb_ge; lia.
    + intros t Ht. vm_compute in Ht. injection Ht as <-. unfold noon. lia.
Defined.

(** C1, at a failing input.  The surface-weather source stands at noon;
    the overlap window holds only the observation of noon, accepted
    before.  The run succeeds and writes 11:45 as the global watermark,
    fifteen minutes before the watermark it found. *)
Theorem global_watermark_moves_back :
  ∃ w' W W',
    process_endpoint default_config sample_env "swob" items_url "swob_raw" overlap_world
      = (Ok tt, w') ∧
    global_last_processed_dt (substate (w_state overlap_world) "swob")
      = Some "2025-06-01T12:00:00+00:00" ∧
    global_last_processed_dt (substate (w_state w') "swob")
      = Some "2025-06-01T11:45:00+00:00" ∧
    parse_raw (VStr "2025-06-01T12:00:00+00:00") = Some W ∧
    parse_raw (VStr "2025-06-01T11:45:00+00:00") = Some W' ∧
    W' < W.
Proof.
  eexists _, noon, (noon - timedelta_minutes 15).
  split; [vm_compute; reflexivity|]. repeat split; vm_compute; reflexivity.
Qed.

(** C2, at a failing input.  In the same run the state satisfies the
    invariant before (station ABC and the global watermark both at noon)
    and breaks it after: station ABC still stands at noon, the global
    watermark at 11:45. *)
Theorem station_watermark_exceeds_global :
  ∃ w' g,
    process_endpoint default_config sample_env "swob" items_url "swob_raw" overlap_world
      = (Ok tt, w') ∧
    (∀ k T, watermark_of (w_state overlap_world) "swob" k = Some T → T ≤ noon) ∧
    global_last_processed_dt (substate (w_state overlap_world) "swob")
      = Some (isoformat noon) ∧
    global_last_processed_dt (substate (w_state w') "swob") = Some (isoformat g) ∧
    watermark_of (w_state w') "swob" "ABC" = Some noon ∧
    g < noon.
Proof.
  eexists _, (noon - timedelta_minutes 15).
  split; [vm_compute; reflexivity|]. split.
  - intros k T. unfold watermark_of.
    destruct (decide (k = "ABC")) as [->|Hk].
    + assert (Habc : per_station (substate (w_state overlap_world) "swob") !! "ABC"
                     = Some "2025-06-01T12:00:00+00:00") by (vm_compute; reflexivity).
      assert (Hnoon : parse_raw (VStr "2025-06-01T12:00:00+00:00") = Some noon)
        by (vm_compute; reflexivity).
      rewrite Habc. cbn [String.eqb Ascii.eqb Bool.eqb]. rewrite Hnoon.
      intros [= <-]. lia.
    + change (per_station (substate (w_state overlap_world) "swob"))
        with ({[ "ABC" := "2025-06-01T12:00:00+00:00" ]} : gmap string string).
      by rewrite lookup_singleton_ne.
  - repeat split; vm_compute; reflexivity.
Qed.

(** ** The window in the request *)

Lemma paging_loop_log start fp script :
  ∀ next items reqs r script' reqs',
    paging_loop start fp script next items reqs = (r, script', reqs') →
    ∃ more, reqs' = reqs ++ more.
Proof.
  induction script as [|resp script IH]; intros next items reqs r script' reqs';
    destruct next as [| | |url| |]; cbn [paging_loop];
    try (intros [= _ _ <-]; first [by (exists []; rewrite app_nil_r) | by eexists]).
  destruct resp as [j| | |]; try (intros [= _ _ <-]; by eexists).
  destruct (page_list j "features") as [feats|e]; [|intros [= _ _ <-]; by eexists].
  destruct (obind (page_list j "links") find_next) as [[href|]|e];
    try (intros [= _ _ <-]; by eexists).
  intros Hrec. apply IH in Hrec as [more ->]. rewrite <- app_assoc. by eexists.
Qed.

Lemma fetch_first_request url params limit w r w' :
  url ≠ "" →
  fetch_features_with_paging url params limit w = (r, w') →
  ∃ more, w_requests w' =
            w_requests w ++
            {| req_url := url; req_params := Some (with_limit limit params) |} :: more.
Proof.
  intros Hne. rewrite (fetch_eq _ _ _ _ Hne).
  destruct (w_responses w) as [|resp script]; cbn [paging_loop]; rewrite String.eqb_refl.
  { intros [= _ <-]. by exists []. }
  destruct resp as [j| | |]; try (intros [= _ <-]; by exists []).
  destruct (page_list j "features") as [feats|e]; [|intros [= _ <-]; by exists []].
  destruct (obind (page_list j "links") find_next) as [[href|]|e];
    try (intros [= _ <-]; by exists []).
  destruct (paging_loop _ _ _ _ _ _) as [[r' s'] q'] eqn:Hrec.
  apply paging_loop_log in Hrec as [more ->]. intros [= _ <-].
  cbn [w_requests after_fetch]. rewrite <- app_assoc. by exists more.
Qed.

(** X23.  The instant [compute_fetch_start] returns is the start of the
    [datetime] filter of the first request the run makes. *)
Lemma window_reaches_request `{DatetimeLib} `{PyRuntime} cfg env name url prefix w start w1 :
  url ≠ "" →
  compute_fetch_start cfg env name (tick w) = (Ok start, w1) →
  ∃ more,
    w_requests (snd (process_endpoint cfg env name url prefix w)) =
      w_requests w ++
      {| req_url := url;
         req_params := Some (<["limit" := pretty (FETCH_LIMIT cfg)]>
                               (<["datetime" := isoformat start +:+ "/.."]>
                                  (<["lang" := "en"]> ∅))) |} :: more.
Proof.
  intros Hne Hstart. rewrite process_endpoint_eq, Hstart.
  assert (Hq1 : w_requests w1 = w_requests w).
  { apply (preserves_compute_fetch_start (λ a b, w_requests b = w_requests a) name)
      in Hstart; try done. intros a b c Hab Hbc. by rewrite Hbc. }
  destruct (fetch_features_with_paging _ _ _ _) as [[features|e] w2] eqn:Hfetch;
    apply (fetch_first_request _ _ _ _ _ _ Hne) in Hfetch as [more Hq2];
    rewrite Hq1 in Hq2; [|by exists more].
  assert (Hkeep : ∀ (c : M unit), preserves (λ a b, w_requests b = w_requests a) c →
            w_requests (snd (c w2)) = w_requests w2).
  { intros c Hc. by apply (Hc w2 (fst (c w2)) (snd (c w2))), surjective_pairing. }
  destruct features as [|f rest].
  - rewrite Hkeep; [by exists more|].
    apply preserves_record_empty_run; try done.
    intros a b c Hab Hbc. by rewrite Hbc.
  - rewrite Hkeep; [by exists more|].
    apply preserves_record_run; try done.
    intros a b c Hab Hbc. by rewrite Hbc.
Qed.

Lemma window_reaches_request_witness :
  ∃ more,
    w_requests (snd (process_endpoint default_config steady_env "swob" items_url "swob_raw"
                       fresh_world)) =
      w_requests fresh_world ++
      {| req_url := items_url;
         req_params := Some (<["limit" := pretty (FETCH_LIMIT default_config)]>
                               (<["datetime" := isoformat (noon - timedelta_minutes 15) +:+ "/.."]>
                                  (<["lang" := "en"]> ∅))) |} :: more.
Proof.
  apply (window_reaches_request default_config steady_env "swob" items_url "swob_raw"
           fresh_world (noon - timedelta_minutes 15) (tick (tick fresh_world))).
  - discriminate.
  - vm_compute. reflexivity.
Defined.

(** * Further properties *)

(** ** What one iteration can do *)

(** The four ways the decision on an observation can end: not newer than
    the watermark, vetoed by the quality filter, accepted (with or
    without a write to the station's entry), or an exception.  The state
    changes only in the accepted case, and then only by the write to the
    station's entry. *)
Lemma decide_feature_cases `{DatetimeLib} cfg env name feat props k t ls w r w' :
  decide_feature cfg env name feat props k t ls w = (r, w') →
  (r = Ok (note_observation t ls) ∧ w_state w' = w_state w) ∨
  (r = Ok (veto_feature t ls) ∧ w_state w' = w_state w ∧
   is_high_quality_data cfg name props = Ok false) ∨
  (r = Ok (accept_feature feat t ls) ∧
   is_high_quality_data cfg name props = Ok true ∧
   (w_state w' = w_state w ∨ w_state w' = advance_station name k t (w_state w))) ∨
  ((∃ e, r = Raise e) ∧ w_state w' = w_state w).
Proof.
  unfold decide_feature. cbn zeta. unfold bind at 1, get_per_station.
  set (last := per_station (substate (w_state w) name) !! k).
  unfold bind at 1.
  destruct (if str_truthy last then _ else _) as [[last_dt|e] w1] eqn:Hlast; cycle 1.
  { intros [= <- <-]. right. right. right. split; [by eexists|].
    destruct (str_truthy last); [by eapply parse_iso_to_utc_state|by injection Hlast as _ <-]. }
  assert (Hw1 : w_state w1 = w_state w).
  { destruct (str_truthy last); [by eapply parse_iso_to_utc_state|by injection Hlast as _ <-]. }
  set (include := match last_dt with Some l => l <? t | None => true end).
  unfold bind at 1, lift, ret.
  destruct include eqn:Hinc; cycle 1.
  { cbn [andb]. intros [= <- <-]. by left. }
  destruct (is_high_quality_data cfg name props) as [[|]|e] eqn:Hq; cbn [andb negb]; cycle 1.
  { intros [= <- <-]. right. left. done. }
  { intros [= <- <-]. right. right. right. split; [by eexists|done]. }
  unfold bind at 1.
  destruct (negb (String.eqb k "")); cycle 1.
  { unfold ret. intros [= <- <-]. right. right. left. split; [done|]. split; [done|by left]. }
  unfold bind at 1, get_per_station. rewrite Hw1. fold last.
  destruct (negb (str_truthy last)).
  { unfold set_station, modify_state. intros [= <- <-]. right. right. left.
    split; [done|]. split; [done|]. right. cbn [w_state set_state]. by rewrite Hw1. }
  unfold bind at 1.
  destruct (parse_iso_to_utc cfg env (VStr (default "" last)) w1)
    as [[[existing_dt|]|e] w2] eqn:Hex;
    pose proof (parse_iso_to_utc_state _ _ _ _ _ _ Hex) as Hw2.
  - destruct (existing_dt <? t).
    + unfold set_station, modify_state. intros [= <- <-]. right. right. left.
      split; [done|]. split; [done|]. right. cbn [w_state set_state]. by rewrite Hw2, Hw1.
    + unfold ret. intros [= <- <-]. right. right. left.
      split; [done|]. split; [done|]. left. by rewrite Hw2.
  - unfold raise. intros [= <- <-]. right. right. right.
    split; [by eexists|]. by rewrite Hw2.
  - intros [= <- <-]. right. right. right. split; [by eexists|]. by rewrite Hw2.
Qed.

Lemma get_observation_timestamp_some `{DatetimeLib} cfg env name fd w t w' :
  get_observation_timestamp cfg env name (feature_props fd) w = (Ok (Some t), w') →
  observed name (VDict fd) = Some t ∧ in_window cfg (now_of env w) t = true.
Proof.
  unfold get_observation_timestamp, bind, lift. cbn [observed].
  destruct (observation_string name (feature_props fd)) as [v|e]; [|done].
  rewrite parse_iso_to_utc_eq. destruct (truthy v); [|done]. cbn [negb].
  destruct (parse_raw v) as [dt|]; [|done].
  destruct (in_window cfg (now_of env w) dt) eqn:Hwin; [|done].
  by intros [= -> _].
Qed.

(** Every way one iteration of the loop can end. *)
Lemma process_feature_cases `{DatetimeLib} `{PyRuntime} cfg env name feat ls w r w' :
  process_feature cfg env name feat ls w = (r, w') →
  (r = Ok ls ∧ w' = w ∧
   ∃ fd, feat = VDict fd ∧ existsb (py_key_eqb (feature_id fd)) (seen_ids ls) = true) ∨
  (∃ fd, feat = VDict fd ∧
         existsb (py_key_eqb (feature_id fd)) (seen_ids ls) = false ∧
         ((r = Ok (count_timestamp_rejection (add_seen (feature_id fd) ls)) ∧
           w_state w' = w_state w) ∨
          ∃ t, observed name feat = Some t ∧ in_window cfg (now_of env w) t = true ∧
               ((r = Ok (note_observation t (add_seen (feature_id fd) ls)) ∧
                 w_state w' = w_state w) ∨
                (r = Ok (veto_feature t (add_seen (feature_id fd) ls)) ∧
                 w_state w' = w_state w ∧
                 is_high_quality_data cfg name (feature_props fd) = Ok false) ∨
                (r = Ok (accept_feature feat t (add_seen (feature_id fd) ls)) ∧
                 is_high_quality_data cfg name (feature_props fd) = Ok true ∧
                 (w_state w' = w_state w ∨
                  w_state w' = advance_station name (station_of name feat) t (w_state w)))))) ∨
  ((∃ e, r = Raise e) ∧ w_state w' = w_state w).
Proof.
  unfold process_feature.
  destruct feat as [| | | | |fd];
    try (cbn; intros [= <- <-]; right; right; split; [by eexists|done]).
  cbn [py_get]. rewrite (bind_lift_ok _ _ _ _ eq_refl), (bind_lift_ok _ _ _ _ eq_refl).
  fold (feature_props fd). fold (feature_id fd). unfold set_mem.
  destruct (hashable (feature_id fd));
    [|cbn; intros [= <- <-]; right; right; split; [by eexists|done]].
  rewrite (bind_lift_ok _ _ _ _ eq_refl).
  destruct (existsb _ _) eqn:Hdup; [intros [= <- <-]; left; eauto|].
  unfold bind at 1, lift. cbn [station_of].
  destruct (get_station_id name (feature_props fd) (feature_id fd)) as [k|e];
    [|intros [= <- <-]; right; right; split; [by eexists|done]].
  unfold bind at 1.
  destruct (get_observation_timestamp cfg env name (feature_props fd) w)
    as [[[t|]|e] w1] eqn:Hobs;
    pose proof (get_observation_timestamp_state _ _ _ _ _ _ _ Hobs) as Hw1.
  - intros Hdec. apply decide_feature_cases in Hdec.
    apply get_observation_timestamp_some in Hobs as [Hobs Hwin].
    rewrite Hw1 in Hdec.
    destruct Hdec as [[-> ?]|[(-> & ? & ?)|[(-> & ? & ?)|[? ?]]]].
    + right. left. exists fd. split; [done|]. split; [done|]. right. exists t. eauto 10.
    + right. left. exists fd. split; [done|]. split; [done|]. right. exists t. eauto 10.
    + right. left. exists fd. split; [done|]. split; [done|]. right. exists t.
      split; [done|]. split; [done|]. right. right. done.
    + right. right. done.
  - intros [= <- <-]. right. left. exists fd. split; [done|]. split; [done|]. by left.
  - intros [= <- <-]. right. right. split; [by eexists|done].
Qed.

(** One iteration settles at most one feature, appends at most the
    feature itself and never lowers the running maximum. *)
Lemma process_feature_progress `{DatetimeLib} `{PyRuntime} cfg env name feat ls w ls' w' :
  process_feature cfg env name feat ls w = (Ok ls', w') →
  (new_features ls' = new_features ls ∨ new_features ls' = new_features ls ++ [feat]) ∧
  (tally ls ≤ tally ls' ≤ S (tally ls))%nat ∧
  max_seen_dt ls ≤ max_seen_dt ls'.
Proof.
  intros Hstep. apply process_feature_cases in Hstep.
  destruct Hstep as [[[= ->] _]|[(fd & -> & _ & Hcase)|[[e [=]] _]]].
  { split; [by left|]. split; [lia|lia]. }
  destruct Hcase as [[[= ->] _]|(t & _ & _ & [[[= ->] _]|[([= ->] & _)|([= ->] & _)]])];
    unfold tally; cbn [new_features max_seen_dt rejected_quality_count
                         rejected_timestamp_count count_timestamp_rejection add_seen
                         note_observation veto_feature accept_feature].
  - split; [by left|]. split; lia.
  - split; [by left|]. split; lia.
  - split; [by left|]. split; lia.
  - split; [by right|]. rewrite length_app. cbn [length]. split; [lia|].
    destruct (Z.ltb_spec (max_seen_dt ls) t); lia.
Qed.

Lemma process_feature_state `{DatetimeLib} `{PyRuntime} cfg env name feat ls w r w' :
  process_feature cfg env name feat ls w = (r, w') →
  w_state w' = w_state w ∨
  ∃ t, observed name feat = Some t ∧
       w_state w' = advance_station name (station_of name feat) t (w_state w).
Proof.
  intros Hstep. apply process_feature_cases in Hstep.
  destruct Hstep as [(_ & -> & _)|[(fd & -> & _ & Hcase)|[_ ?]]]; [by left| |by left].
  destruct Hcase as [[_ ?]|(t & Hobs & _ & [[_ ?]|[(_ & ? & _)|(_ & _ & [?|?])]])];
    try (by left).
  right. by exists t.
Qed.

Lemma advance_station_lookup `{DatetimeLib} name k t st k' :
  per_station (substate (advance_station name k t st) name) !! k' =
  if decide (k = k') then Some (isoformat t) else per_station (substate st name) !! k'.
Proof.
  unfold advance_station. rewrite substate_insert. cbn [per_station with_per_station].
  apply lookup_insert.
Qed.

Lemma advance_station_global `{DatetimeLib} name k t st :
  global_last_processed_dt (substate (advance_station name k t st) name) =
  global_last_processed_dt (substate st name).
Proof. unfold advance_station. by rewrite substate_insert. Qed.

(** ** Stations are independent *)

(** X1.  A batch in which no feature belongs to station [k] leaves the
    watermark of [k] as it was, whatever the loop does with the features
    and whether it finishes or raises; and the loop never writes the
    global watermark of the source. *)
Theorem stations_are_independent `{DatetimeLib} `{PyRuntime} (cfg : Config) (env : Env)
    (name : string) (features : list value) (ls : Loop) (w : World)
    (r : outcome Loop) (w' : World) (k : string) :
  process_features cfg env name features ls w = (r, w') →
  Forall (λ feat, station_of name feat ≠ k) features →
  per_station (substate (w_state w') name) !! k =
    per_station (substate (w_state w) name) !! k ∧
  global_last_processed_dt (substate (w_state w') name) =
    global_last_processed_dt (substate (w_state w) name).
Proof.
  revert ls w. induction features as [|f rest IH]; intros ls w Hloop Hall.
  { by injection Hloop as _ <-. }
  apply Forall_cons in Hall as [Hf Hrest]. cbn [process_features] in Hloop.
  unfold bind in Hloop.
  destruct (process_feature cfg env name f ls w) as [[ls1|e] w1] eqn:Hstep.
  - destruct (IH _ _ Hloop Hrest) as [-> ->].
    destruct (process_feature_state _ _ _ _ _ _ _ _ Hstep) as [->|(t & _ & ->)]; [done|].
    rewrite advance_station_lookup, advance_station_global.
    by rewrite decide_False.
  - injection Hloop as _ <-.
    destruct (process_feature_state _ _ _ _ _ _ _ _ Hstep) as [->|(t & _ & ->)]; [done|].
    rewrite advance_station_lookup, advance_station_global.
    by rewrite decide_False.
Qed.

Lemma stations_are_independent_witness :
  let w := world_of swob_at_noon [] in
  let w' := snd (process_features default_config steady_env "swob" [VDict xyz_early; VDict xyz_late]
                   (init_loop (noon - timedelta_minutes 15)) w) in
  per_station (substate (w_state w') "swob") !! "ABC" =
    per_station (substate (w_state w) "swob") !! "ABC" ∧
  global_last_processed_dt (substate (w_state w') "swob") =
    global_last_processed_dt (substate (w_state w) "swob").
Proof.
  intros w w'.
  apply (stations_are_independent default_config steady_env "swob"
           [VDict xyz_early; VDict xyz_late] (init_loop (noon - timedelta_minutes 15)) w
           (fst (process_features default_config steady_env "swob"
                   [VDict xyz_early; VDict xyz_late]
                   (init_loop (noon - timedelta_minutes 15)) w)) w' "ABC").
  - apply surjective_pairing.
  - repeat constructor; vm_compute; discriminate.
Defined.

(** ** What the loop accepts *)

(** One iteration, seen from the accepted features: nothing is added, or
    the feature itself is added, and then it is a feature with a
    validated observation instant at or below the running maximum and
    with properties that pass the quality filter. *)
Lemma process_feature_accepts `{DatetimeLib} `{PyRuntime} cfg env name feat ls w ls' w' :
  process_feature cfg env name feat ls w = (Ok ls', w') →
  new_features ls' = new_features ls ∨
  (new_features ls' = new_features ls ++ [feat] ∧
   ∃ fd t, feat = VDict fd ∧ observed name feat = Some t ∧
           in_window cfg (now_of env w) t = true ∧ t ≤ max_seen_dt ls' ∧
           is_high_quality_data cfg name (feature_props fd) = Ok true).
Proof.
  intros Hstep. apply process_feature_cases in Hstep.
  destruct Hstep as [([= ->] & _)|[(fd & -> & _ & Hcase)|[[e [=]] _]]]; [by left|].
  destruct Hcase as [[[= ->] _]|(t & Hobs & Hwin & [[[= ->] _]|[([= ->] & _)|([= ->] & Hq & _)]])];
    try (by left).
  right. split; [done|]. exists fd, t. repeat (split; [done|]). split; [|done].
  cbn [max_seen_dt accept_feature add_seen].
  destruct (Z.ltb_spec (max_seen_dt ls) t); lia.
Qed.

(** X2.  The features the loop accepts are appended to [new_features] in the
    order of the batch: what a finished loop has added is a subsequence
    of the batch, so nothing is accepted that was not fetched, nothing is
    reordered and nothing that was accepted before is dropped. *)
Theorem accepted_is_subsequence `{DatetimeLib} `{PyRuntime} (cfg : Config) (env : Env)
    (name : string) (features : list value) (ls : Loop) (w : World)
    (ls' : Loop) (w' : World) :
  process_features cfg env name features ls w = (Ok ls', w') →
  ∃ kept, new_features ls' = new_features ls ++ kept ∧ sublist kept features.
Proof.
  revert ls w. induction features as [|f rest IH]; intros ls w Hloop.
  { injection Hloop as <- _. exists []. by rewrite app_nil_r. }
  cbn [process_features] in Hloop. unfold bind in Hloop.
  destruct (process_feature cfg env name f ls w) as [[ls1|e] w1] eqn:Hstep; [|done].
  destruct (IH _ _ Hloop) as (kept & -> & Hsub).
  destruct (process_feature_accepts _ _ _ _ _ _ _ _ Hstep) as [->|[-> _]].
  - exists kept. split; [done|]. by apply sublist_cons.
  - exists (f :: kept). rewrite <- app_assoc. split; [done|]. by apply sublist_skip.
Qed.

Lemma accepted_is_subsequence_witness :
  ∃ ls' w',
    process_features default_config steady_env "swob"
      [VDict at_noon; VDict xyz_early; VDict before_noon; VDict after_noon]
      (init_loop (noon - timedelta_minutes 15)) (world_of swob_at_noon []) = (Ok ls', w') ∧
    ∃ kept,
      new_features ls' = new_features (init_loop (noon - timedelta_minutes 15)) ++ kept ∧
      sublist kept [VDict at_noon; VDict xyz_early; VDict before_noon; VDict after_noon].
Proof.
  destruct (process_features default_config steady_env "swob"
              [VDict at_noon; VDict xyz_early; VDict before_noon; VDict after_noon]
              (init_loop (noon - timedelta_minutes 15)) (world_of swob_at_noon []))
    as [[ls'|e] w'] eqn:Hrun; [|vm_compute in Hrun; discriminate Hrun].
  exists ls', w'. split; [reflexivity|].
  exact (accepted_is_subsequence default_config steady_env "swob" _ _ _ _ _ Hrun).
Defined.

(** One iteration, seen from the state: the state moves only when the
    feature is accepted, and then only the watermark of its own station. *)
Lemma process_feature_moves `{DatetimeLib} `{PyRuntime} cfg env name feat ls w ls' w' :
  process_feature cfg env name feat ls w = (Ok ls', w') →
  (new_features ls' = new_features ls ∧ w_state w' = w_state w) ∨
  (new_features ls' = new_features ls ++ [feat] ∧
   ∃ t, observed name feat = Some t ∧
        (w_state w' = w_state w ∨
         w_state w' = advance_station name (station_of name feat) t (w_state w))).
Proof.
  intros Hstep. apply process_feature_cases in Hstep.
  destruct Hstep as [([= ->] & -> & _)|[(fd & -> & _ & Hcase)|[[e [=]] _]]]; [by left|].
  destruct Hcase as [([= ->] & Hst)|(t & Hobs & _ & Hcase)]; [by left|].
  destruct Hcase as [([= ->] & Hst)|[([= ->] & Hst & _)|([= ->] & _ & Hst)]];
    [by left|by left|].
  right. split; [done|]. by exists t.
Qed.

(** X3.  The state moves only with an accepted feature.  If a finished
    loop has accepted nothing, the state is the one it started from; and
    the watermark of every station is either the stored one or the
    [isoformat] of the observation instant of a feature of that very
    station that the loop has accepted. *)
Theorem watermarks_move_only_on_acceptance `{DatetimeLib} `{PyRuntime} (cfg : Config)
    (env : Env) (name : string) (features : list value) (ls : Loop) (w : World)
    (ls' : Loop) (w' : World) :
  process_features cfg env name features ls w = (Ok ls', w') →
  ∃ kept,
    new_features ls' = new_features ls ++ kept ∧
    (kept = [] → w_state w' = w_state w) ∧
    ∀ k,
      per_station (substate (w_state w') name) !! k
        = per_station (substate (w_state w) name) !! k ∨
      ∃ feat t, feat ∈ kept ∧ station_of name feat = k ∧ observed name feat = Some t ∧
                per_station (substate (w_state w') name) !! k = Some (isoformat t).
Proof.
  revert ls w. induction features as [|f rest IH]; intros ls w Hloop.
  { injection Hloop as <- <-. exists []. rewrite app_nil_r. split; [done|]. split; [done|].
    intros k. by left. }
  cbn [process_features] in Hloop. unfold bind in Hloop.
  destruct (process_feature cfg env name f ls w) as [[ls1|e] w1] eqn:Hstep; [|done].
  destruct (IH _ _ Hloop) as (kept & Hnew & Hnone & Hmoved).
  destruct (process_feature_moves _ _ _ _ _ _ _ _ Hstep) as [[Hsame Hst]|[Hadd (t & Hobs & Hst)]].
  - exists kept. rewrite Hnew, Hsame, <- Hst. by split.
  - exists (f :: kept). rewrite Hnew, Hadd, <- app_assoc. split; [done|]. split; [done|].
    intros k. destruct (Hmoved k) as [Hk|(feat & t' & Hin & Hk & Hobs' & Hlook)].
    + rewrite Hk. destruct Hst as [->| ->]; [by left|].
      rewrite advance_station_lookup. destruct (decide (station_of name f = k)) as [Heq|Hne].
      * right. exists f, t. split; [by left|done].
      * by left.
    + right. exists feat, t'. split; [by right|done].
Qed.

Lemma watermarks_move_only_on_acceptance_witness :
  ∃ ls' w',
    process_features default_config steady_env "swob"
      [VDict at_noon; VDict xyz_early; VDict low_quality_feature; VDict xyz_late]
      (init_loop (noon - timedelta_minutes 15)) (world_of swob_at_noon []) = (Ok ls', w') ∧
    ∃ kept,
      new_features ls' = new_features (init_loop (noon - timedelta_minutes 15)) ++ kept ∧
      (kept = [] → w_state w' = w_state (world_of swob_at_noon [])) ∧
      ∀ k,
        per_station (substate (w_state w') "swob") !! k
          = per_station (substate (w_state (world_of swob_at_noon [])) "swob") !! k ∨
        ∃ feat t, feat ∈ kept ∧ station_of "swob" feat = k ∧
                  observed "swob" feat = Some t ∧
                  per_station (substate (w_state w') "swob") !! k = Some (isoformat t).
Proof.
  destruct (process_features default_config steady_env "swob"
              [VDict at_noon; VDict xyz_early; VDict low_quality_feature; VDict xyz_late]
              (init_loop (noon - timedelta_minutes 15)) (world_of swob_at_noon []))
    as [[ls'|e] w'] eqn:Hrun; [|vm_compute in Hrun; discriminate Hrun].
  exists ls', w'. split; [reflexivity|].
  exact (watermarks_move_only_on_acceptance default_config steady_env "swob" _ _ _ _ _ Hrun).
Defined.

(** The loop settles at most one feature per feature of the batch, and
    its running maximum never goes down. *)
Lemma process_features_tally `{DatetimeLib} `{PyRuntime} cfg env name features ls w ls' w' :
  process_features cfg env name features ls w = (Ok ls', w') →
  (tally ls ≤ tally ls' ≤ tally ls + length features)%nat ∧
  max_seen_dt ls ≤ max_seen_dt ls'.
Proof.
  revert ls w. induction features as [|f rest IH]; intros ls w Hloop.
  { injection Hloop as <- _. cbn. lia. }
  cbn [process_features] in Hloop. unfold bind in Hloop.
  destruct (process_feature cfg env name f ls w) as [[ls1|e] w1] eqn:Hstep; [|done].
  apply IH in Hloop. apply process_feature_progress in Hstep as (_ & Hstep & ?).
  cbn [length]. lia.
Qed.

(** X4.  Every feature a finished loop has accepted is a JSON object whose
    observation instant the parser read inside the validation window at
    some reading of the clock, whose properties pass the quality filter,
    and whose instant is at or below the final [max_seen_dt]; and
    [max_seen_dt] never goes below the value the loop started with. *)
Theorem accepted_features_are_sound `{DatetimeLib} `{PyRuntime} (cfg : Config) (env : Env)
    (name : string) (features : list value) (ls : Loop) (w : World)
    (ls' : Loop) (w' : World) :
  process_features cfg env name features ls w = (Ok ls', w') →
  max_seen_dt ls ≤ max_seen_dt ls' ∧
  ∃ kept, new_features ls' = new_features ls ++ kept ∧
    Forall (λ feat, ∃ fd t, feat = VDict fd ∧ observed name feat = Some t ∧
                            t ≤ max_seen_dt ls' ∧
                            (∃ i, in_window cfg (clock env i) t = true) ∧
                            is_high_quality_data cfg name (feature_props fd) = Ok true)
           kept.
Proof.
  revert ls w. induction features as [|f rest IH]; intros ls w Hloop.
  { injection Hloop as <- _. split; [lia|]. exists []. by rewrite app_nil_r. }
  cbn [process_features] in Hloop. unfold bind in Hloop.
  destruct (process_feature cfg env name f ls w) as [[ls1|e] w1] eqn:Hstep; [|done].
  destruct (IH _ _ Hloop) as (Hmax & kept & -> & Hall).
  pose proof (process_feature_progress _ _ _ _ _ _ _ _ Hstep) as (_ & _ & Hmax1).
  split; [lia|].
  destruct (process_feature_accepts _ _ _ _ _ _ _ _ Hstep)
    as [->|[-> (fd & t & -> & Hobs & Hwin & Hle & Hq)]].
  - by exists kept.
  - exists (VDict fd :: kept). rewrite <- app_assoc. split; [done|].
    apply Forall_cons. split; [|done]. exists fd, t.
    split; [done|]. split; [done|]. split; [lia|]. split; [by eexists|done].
Qed.

Lemma accepted_features_are_sound_witness :
  ∃ ls' w',
    process_features default_config steady_env "swob"
      [VDict at_noon; VDict xyz_early; VDict low_quality_feature; VDict after_noon]
      (init_loop (noon - timedelta_minutes 15)) (world_of swob_at_noon []) = (Ok ls', w') ∧
    noon - timedelta_minutes 15 ≤ max_seen_dt ls' ∧
    ∃ kept,
      new_features ls' = kept ∧
      Forall (λ feat, ∃ fd t, feat = VDict fd ∧ observed "swob" feat = Some t ∧
                              t ≤ max_seen_dt ls' ∧
                              (∃ i, in_window default_config (clock steady_env i) t = true) ∧
                              is_high_quality_data default_config "swob" (feature_props fd)
                                = Ok true)
             kept.
Proof.
  destruct (process_features default_config steady_env "swob"
              [VDict at_noon; VDict xyz_early; VDict low_quality_feature; VDict after_noon]
              (init_loop (noon - timedelta_minutes 15)) (world_of swob_at_noon []))
    as [[ls'|e] w'] eqn:Hrun; [|vm_compute in Hrun; discriminate Hrun].
  exists ls', w'. split; [reflexivity|].
  exact (accepted_features_are_sound default_config steady_env "swob" _ _ _ _ _ Hrun).
Defined.

(** X5.  A feature whose properties fail the quality filter is never
    accepted: the state is left as it was (no watermark moves), and if
    the iteration finishes, [new_features] and [max_seen_dt] are
    unchanged and the quality-rejection counter has not gone down. *)
Theorem low_quality_is_never_accepted `{DatetimeLib} `{PyRuntime} (cfg : Config) (env : Env)
    (name : string) (fd : dict) (ls : Loop) (w : World) (r : outcome Loop) (w' : World) :
  is_high_quality_data cfg name (feature_props fd) = Ok false →
  process_feature cfg env name (VDict fd) ls w = (r, w') →
  w_state w' = w_state w ∧
  ∀ ls', r = Ok ls' →
    new_features ls' = new_features ls ∧ max_seen_dt ls' = max_seen_dt ls ∧
    (rejected_quality_count ls ≤ rejected_quality_count ls')%nat.
Proof.
  intros Hq Hstep. apply process_feature_cases in Hstep.
  destruct Hstep as [(-> & -> & _)|[(fd' & [= <-] & _ & Hcase)|[[e ->] ?]]].
  - split; [done|]. by intros ls' [= <-].
  - destruct Hcase as [[-> ?]|(t & _ & _ & [[-> ?]|[(-> & ? & _)|(_ & Hq' & _)]])];
      [..|congruence]; (split; [done|]); intros ls' [= <-]; cbn; repeat split; lia.
  - split; [done|]. by intros ls'.
Qed.

Lemma low_quality_is_never_accepted_witness :
  let w := world_of swob_at_noon [] in
  let ls := init_loop (noon - timedelta_minutes 15) in
  let run := process_feature default_config steady_env "swob" (VDict low_quality_feature) ls w in
  w_state (snd run) = w_state w ∧
  ∀ ls', fst run = Ok ls' →
    new_features ls' = new_features ls ∧ max_seen_dt ls' = max_seen_dt ls ∧
    (rejected_quality_count ls ≤ rejected_quality_count ls')%nat.
Proof.
  intros w ls run.
  apply (low_quality_is_never_accepted default_config steady_env "swob" low_quality_feature
           ls w (fst run) (snd run)).
  - vm_compute. reflexivity.
  - apply surjective_pairing.
Defined.

(** X6.  The first observation of a station.  A well-formed feature with a
    new identifier, of a station without a stored watermark, with a valid
    observation instant [t] and passing quality, is accepted; the
    station's watermark becomes [isoformat t]; and the iteration reads the
    clock exactly once (the parser's validation of [t]). *)
Theorem first_observation_sets_watermark `{DatetimeLib} `{PyRuntime} (cfg : Config)
    (env : Env) (name : string) (fd : dict) (ls : Loop) (w : World) (t : datetime) :
  well_formed (VDict fd) = true →
  existsb (py_key_eqb (feature_id fd)) (seen_ids ls) = false →
  per_station (substate (w_state w) name) !! station_of name (VDict fd) = None →
  observed name (VDict fd) = Some t →
  in_window cfg (now_of env w) t = true →
  is_high_quality_data cfg name (feature_props fd) = Ok true →
  ∃ w',
    process_feature cfg env name (VDict fd) ls w =
      (Ok (accept_feature (VDict fd) t (add_seen (feature_id fd) ls)), w') ∧
    per_station (substate (w_state w') name) !! station_of name (VDict fd)
      = Some (isoformat t) ∧
    w_ticks w' = S (w_ticks w).
Proof.
  intros Hwf Hnew Hnone Hobs Hwin Hq.
  rewrite (process_feature_eq _ _ _ _ _ _ Hwf), Hnew.
  rewrite (get_observation_timestamp_eq _ _ _ _ _ Hwf), Hobs, Hwin.
  assert (Hk : station_of name (VDict fd) ≠ "").
  { pose proof Hwf as [_ Hp]%andb_prop. cbn [station_of].
    destruct (feature_props fd) as [| | | | |d]; try done.
    destruct (get_station_id_dict name d (feature_id fd)) as [k Hk]. rewrite Hk.
    by eapply get_station_id_nonempty. }
  unfold decide_feature. cbn zeta. unfold bind at 1, get_per_station.
  cbn [w_state tick]. rewrite Hnone. cbn [str_truthy].
  unfold bind at 1, ret. unfold bind at 1, lift. rewrite Hq. cbn [andb negb].
  destruct (String.eqb_spec (station_of name (VDict fd)) ""); [done|]. cbn [negb].
  unfold bind at 1. unfold bind at 1, get_per_station. cbn [w_state tick].
  rewrite Hnone. cbn [str_truthy negb]. unfold set_station, modify_state.
  eexists. split; [reflexivity|]. cbn [w_state set_state tick w_ticks].
  split; [|done]. rewrite substate_insert. cbn [per_station with_per_station].
  apply lookup_insert_eq.
Qed.

Lemma first_observation_sets_watermark_witness :
  let w := world_of swob_at_noon [] in
  let ls := init_loop (noon - timedelta_minutes 15) in
  ∃ w',
    process_feature default_config steady_env "swob" (VDict xyz_early) ls w =
      (Ok (accept_feature (VDict xyz_early) (noon + timedelta_minutes 1)
             (add_seen (feature_id xyz_early) ls)), w') ∧
    per_station (substate (w_state w') "swob") !! station_of "swob" (VDict xyz_early)
      = Some (isoformat (noon + timedelta_minutes 1)) ∧
    w_ticks w' = S (w_ticks w).
Proof.
  intros w ls.
  apply (first_observation_sets_watermark default_config steady_env "swob" xyz_early ls w
           (noon + timedelta_minutes 1)); vm_compute; reflexivity.
Defined.

(** ** Repeated identifiers *)

Lemma process_feature_repeated `{DatetimeLib} `{PyRuntime} cfg env name fd ls w :
  hashable (feature_id fd) = true →
  existsb (py_key_eqb (feature_id fd)) (seen_ids ls) = true →
  process_feature cfg env name (VDict fd) ls w = (Ok ls, w).
Proof.
  intros Hh Hdup. unfold process_feature. cbn [py_get].
  rewrite (bind_lift_ok _ _ _ _ eq_refl), (bind_lift_ok _ _ _ _ eq_refl).
  fold (feature_id fd). unfold set_mem. rewrite Hh, Hdup.
  by rewrite (bind_lift_ok _ _ _ _ eq_refl).
Qed.

Lemma process_feature_marks_seen `{DatetimeLib} `{PyRuntime} cfg env name fd ls w ls' w' :
  existsb (py_key_eqb (feature_id fd)) (seen_ids ls) = false →
  process_feature cfg env name (VDict fd) ls w = (Ok ls', w') →
  seen_ids ls' = feature_id fd :: seen_ids ls.
Proof.
  intros Hnew Hstep. apply process_feature_cases in Hstep.
  destruct Hstep as [(_ & _ & fd' & [= <-] & Hdup)|[(fd' & [= <-] & _ & Hcase)|[[e [=]] _]]];
    [congruence|].
  by destruct Hcase
    as [[[= ->] _]|(t & _ & _ & [[[= ->] _]|[([= ->] & _)|([= ->] & _)]])].
Qed.

(** X7.  Deduplication by identifier.  The loop behaves on a batch exactly
    as on the batch from which every feature is removed whose identifier
    equals, as a set key, one already in [seen_ids] or that of an earlier
    feature of the batch: same outcome, same state, same clock. *)
Theorem repeated_identifiers_are_dropped `{DatetimeLib} `{PyRuntime} (cfg : Config)
    (env : Env) (name : string) (features : list value) (ls : Loop) (w : World) :
  process_features cfg env name features ls w =
  process_features cfg env name (drop_repeated (seen_ids ls) features) ls w.
Proof.
  revert ls w. induction features as [|f rest IH]; intros ls w; [reflexivity|].
  cbn [drop_repeated]. destruct f as [| | | | |fd]; try reflexivity.
  destruct (hashable (feature_id fd)) eqn:Hh; [|reflexivity].
  destruct (existsb (py_key_eqb (feature_id fd)) (seen_ids ls)) eqn:Hdup.
  - cbn [process_features]. unfold bind at 1.
    rewrite (process_feature_repeated _ _ _ _ _ _ Hh Hdup). apply IH.
  - cbn [process_features]. unfold bind.
    destruct (process_feature cfg env name (VDict fd) ls w) as [[ls1|e] w1] eqn:Hstep;
      [|reflexivity].
    rewrite <- (process_feature_marks_seen _ _ _ _ _ _ _ _ Hdup Hstep). apply IH.
Qed.

(** ** Watermarks the parser turns down *)

(** X8.  A station watermark the parser turns down.  If the stored
    watermark of the feature's station is a non-empty string that the
    parser cannot read or places outside the validation window, an
    otherwise acceptable feature (valid instant, passing quality) makes
    the loop raise [TypeError], at the comparison of [None] with the
    observation instant (line 323); the state is left as it was. *)
Theorem unreadable_station_watermark_raises `{DatetimeLib} `{PyRuntime} (cfg : Config)
    (env : Env) (name : string) (fd : dict) (ls : Loop) (w : World)
    (s : string) (t : datetime) :
  well_formed (VDict fd) = true →
  existsb (py_key_eqb (feature_id fd)) (seen_ids ls) = false →
  per_station (substate (w_state w) name) !! station_of name (VDict fd) = Some s →
  s ≠ "" →
  (∀ T i, parse_raw (VStr s) = Some T → in_window cfg (clock env i) T = false) →
  observed name (VDict fd) = Some t →
  in_window cfg (now_of env w) t = true →
  is_high_quality_data cfg name (feature_props fd) = Ok true →
  ∃ w', process_feature cfg env name (VDict fd) ls w = (Raise TypeError, w') ∧
        w_state w' = w_state w.
Proof.
  intros Hwf Hnew Hs Hne Hbad Hobs Hwin Hq.
  rewrite (process_feature_eq _ _ _ _ _ _ Hwf), Hnew.
  rewrite (get_observation_timestamp_eq _ _ _ _ _ Hwf), Hobs, Hwin.
  assert (Hk : station_of name (VDict fd) ≠ "").
  { pose proof Hwf as [_ Hp]%andb_prop. cbn [station_of].
    destruct (feature_props fd) as [| | | | |d]; try done.
    destruct (get_station_id_dict name d (feature_id fd)) as [k Hk]. rewrite Hk.
    by eapply get_station_id_nonempty. }
  assert (Hparse : ∀ w0, ∃ w1, parse_iso_to_utc cfg env (VStr s) w0 = (Ok None, w1) ∧
                               w_state w1 = w_state w0).
  { intros w0. rewrite parse_iso_to_utc_eq. cbn [truthy].
    destruct (String.eqb_spec s ""); [done|]. cbn [negb].
    destruct (parse_raw (VStr s)) as [T|] eqn:HT; [|by eexists].
    unfold now_of. rewrite (Hbad T _ eq_refl). by eexists. }
  unfold decide_feature. cbn zeta. unfold bind at 1, get_per_station.
  cbn [w_state tick]. rewrite Hs. cbn [str_truthy].
  destruct (String.eqb_spec s ""); [done|]. cbn [negb].
  change (default "" (Some s)) with s.
  destruct (Hparse (tick w)) as (w1 & Hp1 & Hw1).
  unfold bind at 1. rewrite Hp1.
  unfold bind at 1, lift. rewrite Hq. cbn [andb negb].
  destruct (String.eqb_spec (station_of name (VDict fd)) ""); [done|]. cbn [negb].
  unfold bind at 1. unfold bind at 1, get_per_station. rewrite Hw1. cbn [w_state tick].
  rewrite Hs. cbn [str_truthy]. destruct (String.eqb_spec s ""); [done|]. cbn [negb].
  change (default "" (Some s)) with s.
  destruct (Hparse w1) as (w2 & Hp2 & Hw2).
  unfold bind at 1. rewrite Hp2. unfold raise.
  eexists. split; [reflexivity|]. by rewrite Hw2, Hw1.
Qed.

Lemma unreadable_station_watermark_raises_witness :
  ∃ w', process_feature default_config steady_env "hydrometric" (VDict gauge_reading)
          (init_loop (noon - timedelta_minutes 60)) (world_of stale_checkpoint [])
        = (Raise TypeError, w') ∧
        w_state w' = stale_checkpoint.
Proof.
  apply (unreadable_station_watermark_raises default_config steady_env "hydrometric"
           gauge_reading (init_loop (noon - timedelta_minutes 60))
           (world_of stale_checkpoint []) "2020-01-01T00:00:00+00:00"
           (noon + timedelta_minutes 5)).
  - vm_compute. reflexivity.
  - vm_compute. reflexivity.
  - vm_compute. reflexivity.
  - discriminate.
  - intros T i HT. vm_compute in HT. injection HT as <-.
    unfold in_window. apply andb_false_iff. right. apply negb_false_iff, Z.ltb_lt.
    unfold steady_env, timedelta_days, timedelta_minutes, noon. cbn [clock]. lia.
  - vm_compute. reflexivity.
  - vm_compute. reflexivity.
  - vm_compute. reflexivity.
Defined.

(** ** Time parser: what is accepted *)

(** X9.  [parse_iso_to_utc] returns an instant exactly when its argument is
    truthy, one of the accepted formats reads it, and the instant lies in
    the closed interval from 365 days before the clock reading to
    [MAX_FUTURE_DAYS] days after it; both bounds are accepted. *)
Theorem parser_accepts_exactly_the_window `{DatetimeLib} (cfg : Config) (env : Env)
    (s : value) (w : World) (t : datetime) :
  fst (parse_iso_to_utc cfg env s w) = Ok (Some t) ↔
  truthy s = true ∧ parse_raw s = Some t ∧
  now_of env w - timedelta_days 365 ≤ t ≤ now_of env w + timedelta_days (MAX_FUTURE_DAYS cfg).
Proof.
  rewrite parse_iso_to_utc_eq. unfold in_window.
  destruct (truthy s); cbn [negb fst]; [|split; [done|by intros [? _]]].
  destruct (parse_raw s) as [dt|]; cbn [fst]; [|split; [done|by intros (_ & ? & _)]].
  destruct (Z.ltb_spec (now_of env w + timedelta_days (MAX_FUTURE_DAYS cfg)) dt);
    destruct (Z.ltb_spec dt (now_of env w - timedelta_days 365)); cbn [negb andb];
    split; try done; try (intros [= <-]; repeat split; lia);
    try (intros (_ & [= <-] & ?); lia).
  intros (_ & [= <-] & ?). done.
Qed.

Lemma list_ascii_of_string_app (a b : string) :
  list_ascii_of_string (a +:+ b) = list_ascii_of_string a ++ list_ascii_of_string b.
Proof.
  induction a as [|c a IH]; [reflexivity|].
  change (list_ascii_of_string (String c a +:+ b))
    with (c :: list_ascii_of_string (a +:+ b)).
  by rewrite IH.
Qed.

Lemma ends_with_Z_app a b :
  b ≠ "" → ends_with_Z (a +:+ b) = ends_with_Z b.
Proof.
  intros Hb. unfold ends_with_Z. rewrite list_ascii_of_string_app, rev_app_distr.
  destruct b as [|c b]; [done|]. cbn [list_ascii_of_string rev].
  destruct (rev (list_ascii_of_string b)); reflexivity.
Qed.

Lemma drop_last_Z a : drop_last (a +:+ "Z") = a.
Proof.
  unfold drop_last. rewrite list_ascii_of_string_app. cbn [list_ascii_of_string].
  rewrite removelast_last. apply string_of_list_ascii_of_string.
Qed.

(** X10.  A trailing [Z] is read as the offset [+00:00]: whenever
    [fromisoformat] reads [s+00:00], the parser reads [sZ] and [s+00:00]
    as the same instant. *)
Theorem trailing_Z_means_utc `{DatetimeLib} (s : string) (t : datetime) :
  fromisoformat_utc (s +:+ "+00:00") = Some t →
  parse_raw (VStr (s +:+ "Z")) = Some t ∧ parse_raw (VStr (s +:+ "+00:00")) = Some t.
Proof.
  intros Hiso. unfold parse_raw.
  rewrite !ends_with_Z_app by done. cbn [ends_with_Z list_ascii_of_string rev app].
  rewrite drop_last_Z, Hiso.
  change (Ascii.eqb "Z" "Z") with true. change (Ascii.eqb "0" "Z") with false. done.
Qed.

Lemma trailing_Z_means_utc_witness :
  parse_raw (VStr ("2025-06-01T12:00:00" +:+ "Z")) = Some noon ∧
  parse_raw (VStr ("2025-06-01T12:00:00" +:+ "+00:00")) = Some noon.
Proof.
  apply (trailing_Z_means_utc "2025-06-01T12:00:00" noon). vm_compute. reflexivity.
Defined.

(** ** Station keys *)

(** X11.  For properties that are a JSON object, [get_station_id] returns
    and its result is never the empty string, whatever the source name,
    the properties and the identifier: so the guard [if st_key:] of line
    321 never skips the station update. *)
Theorem station_key_is_never_empty `{PyRuntime} (name : string) (props : dict)
    (feat_id : value) :
  ∃ k, get_station_id name (VDict props) feat_id = Ok k ∧ k ≠ "".
Proof.
  destruct (get_station_id_dict name props feat_id) as [k Hk].
  exists k. split; [done|]. by eapply get_station_id_nonempty.
Qed.

(** ** Quality filter: what it looks at *)

(** X12.  The quality filter looks at nothing but the quality codes of the
    three critical fields: two property objects that agree on
    [air_temp-qa], [rel_hum-qa] and [stn_pres-qa] get the same verdict,
    the raised error included. *)
Theorem quality_depends_on_critical_codes (cfg : Config) (name : string) (props props' : dict) :
  (∀ f, f ∈ critical_fields → qa_code props f = qa_code props' f) →
  is_high_quality_data cfg name (VDict props) = is_high_quality_data cfg name (VDict props').
Proof.
  intros Hsame. unfold is_high_quality_data. destruct (negb _); [reflexivity|].
  induction critical_fields as [|f fields IH]; [reflexivity|].
  rewrite !quality_step, <- (Hsame f) by left.
  rewrite IH by (intros g Hg; apply Hsame; by right). done.
Qed.

Lemma quality_depends_on_critical_codes_witness :
  is_high_quality_data default_config "swob" (VDict props_code_at_threshold) =
  is_high_quality_data default_config "swob" (VDict props_with_wind_code).
Proof.
  apply (quality_depends_on_critical_codes default_config "swob" props_code_at_threshold
           props_with_wind_code).
  intros f Hf. unfold critical_fields in Hf.
  repeat (apply elem_of_cons in Hf as [->|Hf]; [vm_compute; reflexivity|]).
  by apply elem_of_nil in Hf.
Defined.

(** X13.  A quality code that is present but not a number.  If the codes of
    the critical fields before [field] pass and the code of [field] is
    neither [None] nor a number, the filter raises [TypeError] for a
    surface-weather feature instead of returning a verdict. *)
Theorem non_numeric_code_raises (cfg : Config) (props : dict)
    (before : list string) (field : string) (after : list string) :
  critical_fields = before ++ field :: after →
  forallb (λ f, qa_passes cfg (qa_code props f)) before = true →
  qa_code props field ≠ VNone →
  as_int (qa_code props field) = None →
  is_high_quality_data cfg "swob" (VDict props) = Raise TypeError.
Proof.
  intros Hsplit Hbefore Hpresent Hnan. unfold is_high_quality_data. cbn [String.eqb negb].
  change (negb (String.eqb "swob" "swob")) with false. cbv iota. rewrite Hsplit. clear Hsplit.
  induction before as [|f before IH].
  - cbn [app]. rewrite quality_step.
    by destruct (qa_code props field) as [|b|n|s|l|d]; cbn [as_int] in Hnan |- *.
  - apply andb_prop in Hbefore as [Hf Hrest]. cbn [app]. rewrite quality_step.
    unfold qa_passes in Hf.
    destruct (qa_code props f) as [|b|n|s|l|d]; cbn [as_int] in Hf |- *; try done;
      try (by apply IH);
      apply Z.leb_le in Hf;
      (destruct (_ <? MIN_QA_THRESHOLD cfg) eqn:E; [apply Z.ltb_lt in E; lia|by apply IH]).
Qed.

Lemma non_numeric_code_raises_witness :
  is_high_quality_data default_config "swob" (VDict props_textual_code) = Raise TypeError.
Proof.
  apply (non_numeric_code_raises default_config props_textual_code ["air_temp"] "rel_hum"
           ["stn_pres"]).
  - reflexivity.
  - vm_compute. reflexivity.
  - vm_compute. discriminate.
  - vm_compute. reflexivity.
Defined.

(** ** The run of one source, step by step *)

Lemma same_io_refl w : same_io w w.
Proof. done. Qed.

Lemma same_io_trans w1 w2 w3 : same_io w1 w2 → same_io w2 w3 → same_io w1 w3.
Proof. intros (?&?&?) (?&?&?). unfold same_io. by repeat split; etrans. Qed.

Lemma process_features_same_io `{DatetimeLib} `{PyRuntime} cfg env name features ls w r w' :
  process_features cfg env name features ls w = (r, w') → same_io w w'.
Proof.
  apply (preserves_process_features same_io name); try done.
  apply same_io_trans.
Qed.

Lemma compute_fetch_start_same_io `{DatetimeLib} cfg env name w r w' :
  compute_fetch_start cfg env name w = (r, w') → same_io w w'.
Proof.
  apply (preserves_compute_fetch_start same_io name); try done.
  apply same_io_trans.
Qed.

Lemma fetch_puts start params limit w r w' :
  fetch_features_with_paging start params limit w = (r, w') → w_puts w' = w_puts w.
Proof.
  unfold fetch_features_with_paging. destruct (String.eqb start ""); [by intros [= _ <-]|].
  destruct (paging_loop _ _ _ _ _ _) as [[r' s'] q']. by intros [= _ <-].
Qed.

Lemma upload_delta_eq `{DatetimeLib} env name prefix new w :
  upload_delta env name prefix new w =
  match new with
  | [] => (Ok tt, w)
  | _ => (if put_ok env (length (w_puts w)) then Ok tt else Raise ClientError,
          add_put (PutDelta (delta_key name prefix (now_of env w) (now_of env (tick w))) new)
            (tick (tick w)))
  end.
Proof.
  destruct new as [|f new]; [reflexivity|].
  unfold upload_delta, bind, now_utc, put_object, delta_key, add_put, now_of, tick.
  cbn [w_ticks w_puts w_state w_responses w_requests].
  by destruct (put_ok env _).
Qed.

(** The tail of a run with a non-empty batch, once the loop and the
    upload have gone through: what it writes to the sub-state. *)
Lemma record_run_commits `{DatetimeLib} `{PyRuntime} cfg env name prefix rs start
    features w ls w3 w4 :
  process_features cfg env name features (init_loop start) (snd (setdefault_source name w))
    = (Ok ls, w3) →
  upload_delta env name prefix (new_features ls) w3 = (Ok tt, w4) →
  ∃ w' m,
    record_run cfg env name prefix rs start features w = (Ok tt, w') ∧
    global_last_processed_dt (substate (w_state w') name) = Some (isoformat (max_seen_dt ls)) ∧
    per_station (substate (w_state w') name) = per_station (substate (w_state w3) name) ∧
    stations_tracked (substate (w_state w') name)
      = Some (size (per_station (substate (w_state w3) name))) ∧
    run_metadata (substate (w_state w') name) = Some m ∧
    features_fetched m = length features ∧
    features_new m = length (new_features ls) ∧
    features_rejected_quality m = Some (rejected_quality_count ls) ∧
    features_rejected_timestamp m = Some (rejected_timestamp_count ls) ∧
    w_puts w' = w_puts w4.
Proof.
  intros Hloop Hup. unfold record_run. unfold bind at 1.
  replace (setdefault_source name w) with (Ok tt, snd (setdefault_source name w))
    by reflexivity.
  unfold bind at 1. rewrite Hloop. unfold bind at 1. rewrite Hup.
  eexists _, _. split; [reflexivity|].
  pose proof (upload_delta_eq env name prefix (new_features ls) w3) as Heq.
  rewrite Hup in Heq.
  assert (Hst : w_state w4 = w_state w3).
  { destruct (new_features ls); apply (f_equal snd) in Heq; cbn [snd] in Heq;
      by rewrite Heq. }
  cbn [w_state set_state tick w_puts]. rewrite !substate_insert.
  cbn [global_last_processed_dt per_station stations_tracked run_metadata
         set_run_metadata set_stations_tracked set_last_run set_global
         features_fetched features_new features_rejected_quality
         features_rejected_timestamp].
  rewrite Hst. done.
Qed.

Lemma process_endpoint_fetched `{DatetimeLib} `{PyRuntime} cfg env name url prefix w
    start features w2 :
  fetched cfg env name url w start features w2 →
  process_endpoint cfg env name url prefix w =
    match features with
    | [] => record_empty_run env name (now_of env w) w2
    | _ => record_run cfg env name prefix (now_of env w) start features w2
    end ∧
  w_state w2 = w_state w ∧ w_puts w2 = w_puts w.
Proof.
  intros (w1 & Hstart & Hfetch). rewrite process_endpoint_eq, Hstart, Hfetch.
  split; [by destruct features|].
  pose proof (compute_fetch_start_state _ _ _ _ _ _ Hstart) as Hs1.
  pose proof (compute_fetch_start_same_io _ _ _ _ _ _ Hstart) as (Hp1 & _ & _).
  rewrite (fetch_state _ _ _ _ _ _ Hfetch), (fetch_puts _ _ _ _ _ _ Hfetch).
  by rewrite Hs1, Hp1.
Qed.

(** What the record of a run that fetched nothing changes. *)
Lemma record_empty_run_effect `{DatetimeLib} env name rs w :
  ∃ w' m,
    record_empty_run env name rs w = (Ok tt, w') ∧
    global_last_processed_dt (substate (w_state w') name)
      = global_last_processed_dt (substate (w_state w) name) ∧
    per_station (substate (w_state w') name) = per_station (substate (w_state w) name) ∧
    stations_tracked (substate (w_state w') name)
      = stations_tracked (substate (w_state w) name) ∧
    last_run_timestamp (substate (w_state w') name) = Some (isoformat (now_of env w)) ∧
    run_metadata (substate (w_state w') name) = Some m ∧
    features_fetched m = 0%nat ∧ features_new m = 0%nat ∧
    w_puts w' = w_puts w ∧
    (∀ other, other ≠ name → w_state w' !! other = w_state w !! other).
Proof.
  eexists _, _. split; [reflexivity|].
  cbn [w_state set_state tick w_puts]. rewrite !substate_insert.
  cbn [global_last_processed_dt per_station stations_tracked run_metadata
         last_run_timestamp set_run_metadata set_last_run features_fetched features_new].
  assert (Hsub : substate (match w_state w !! name with
                           | Some _ => w_state w
                           | None => <[name:=empty_source]> (w_state w)
                           end) name = substate (w_state w) name).
  { unfold substate. destruct (w_state w !! name) eqn:E; [by rewrite E|].
    by rewrite lookup_insert_eq. }
  rewrite Hsub. repeat split; try done.
  intros other Hne. rewrite !lookup_insert_ne by done.
  destruct (w_state w !! name); [done|]. by rewrite lookup_insert_ne.
Qed.

(** X14.  A run whose fetch returns no feature returns normally, leaves the
    global watermark, the station watermarks and [stations_tracked] of
    the source as they were, stamps [last_run_timestamp], records a run
    of zero features fetched and zero new, and writes nothing to the
    store. *)
Theorem empty_run_keeps_watermarks `{DatetimeLib} `{PyRuntime} (cfg : Config) (env : Env)
    (name url prefix : string) (w : World) (start : datetime) (w2 : World) :
  fetched cfg env name url w start [] w2 →
  ∃ w' m,
    process_endpoint cfg env name url prefix w = (Ok tt, w') ∧
    global_last_processed_dt (substate (w_state w') name)
      = global_last_processed_dt (substate (w_state w) name) ∧
    per_station (substate (w_state w') name) = per_station (substate (w_state w) name) ∧
    stations_tracked (substate (w_state w') name)
      = stations_tracked (substate (w_state w) name) ∧
    is_Some (last_run_timestamp (substate (w_state w') name)) ∧
    run_metadata (substate (w_state w') name) = Some m ∧
    features_fetched m = 0%nat ∧ features_new m = 0%nat ∧
    w_puts w' = w_puts w.
Proof.
  intros Hfetched.
  destruct (process_endpoint_fetched cfg env name url prefix _ _ _ _ Hfetched)
    as (-> & Hs2 & Hp2).
  destruct (record_empty_run_effect env name (now_of env w) w2)
    as (w' & m & -> & Hg & Hps & Htr & Hlast & Hm & Hf & Hn & Hp & _).
  exists w', m. rewrite Hg, Hps, Htr, Hlast, Hp, Hs2, Hp2. by repeat split.
Qed.

Lemma empty_run_keeps_watermarks_witness :
  ∃ w' m,
    process_endpoint default_config steady_env "swob" items_url "swob_raw" quiet_world
      = (Ok tt, w') ∧
    global_last_processed_dt (substate (w_state w') "swob")
      = global_last_processed_dt (substate (w_state quiet_world) "swob") ∧
    per_station (substate (w_state w') "swob")
      = per_station (substate (w_state quiet_world) "swob") ∧
    stations_tracked (substate (w_state w') "swob")
      = stations_tracked (substate (w_state quiet_world) "swob") ∧
    is_Some (last_run_timestamp (substate (w_state w') "swob")) ∧
    run_metadata (substate (w_state w') "swob") = Some m ∧
    features_fetched m = 0%nat ∧ features_new m = 0%nat ∧
    w_puts w' = w_puts quiet_world.
Proof.
  apply (empty_run_keeps_watermarks default_config steady_env "swob" items_url "swob_raw"
           quiet_world (noon - timedelta_minutes 15)
           (snd (fetch_features_with_paging items_url
                   (window_params (noon - timedelta_minutes 15)) 500
                   (tick (tick quiet_world))))).
  exists (tick (tick quiet_world)). split; vm_compute; reflexivity.
Defined.

(** X15.  An HTTP-status error on any page turns the run into an empty run:
    [process_endpoint] returns normally, the watermarks of the source are
    unchanged and nothing is written to the store, although the pages
    before the failing one were read and their features dropped; the
    responses after the failing one are not requested. *)
Theorem http_error_is_an_empty_run `{DatetimeLib} `{PyRuntime} (cfg : Config) (env : Env)
    (name url prefix : string) (w : World) (start : datetime) (w1 : World)
    (pages : list value) (hrefs : list string) (status : Z) (rest : list http_outcome) :
  url ≠ "" →
  compute_fetch_start cfg env name (tick w) = (Ok start, w1) →
  follows pages hrefs →
  w_responses w = (HttpOk <$> pages) ++ HttpStatusError status :: rest →
  ∃ w',
    process_endpoint cfg env name url prefix w = (Ok tt, w') ∧
    global_last_processed_dt (substate (w_state w') name)
      = global_last_processed_dt (substate (w_state w) name) ∧
    per_station (substate (w_state w') name) = per_station (substate (w_state w) name) ∧
    w_puts w' = w_puts w ∧
    w_responses w' = rest.
Proof.
  intros Hurl Hstart Hfol Hresp.
  pose proof (compute_fetch_start_same_io _ _ _ _ _ _ Hstart) as (_ & _ & Hr1).
  cbn [w_responses tick] in Hr1. rewrite <- Hr1 in Hresp.
  pose proof (fetch_status_error url (window_params start) (FETCH_LIMIT cfg)
                _ _ _ _ _ Hurl Hfol Hresp) as Hfetch.
  assert (Hfetched : fetched cfg env name url w start [] _) by (eexists; eauto).
  destruct (process_endpoint_fetched cfg env name url prefix _ _ _ _ Hfetched)
    as (-> & Hs2 & Hp2).
  destruct (record_empty_run_effect env name (now_of env w)
              (after_fetch w1 rest
                 (w_requests w1 ++
                  (request_for url (with_limit (FETCH_LIMIT cfg) (window_params start))
                     <$> url :: hrefs))))
    as (w' & m & Hrun & Hg & Hps & _ & _ & _ & _ & _ & Hp & _).
  exists w'. split; [exact Hrun|]. rewrite Hg, Hps, Hp, Hs2, Hp2.
  repeat split. apply (f_equal (λ p, w_responses (snd p))) in Hrun. cbn in Hrun.
  by rewrite <- Hrun.
Qed.

Lemma http_error_is_an_empty_run_witness :
  ∃ w',
    process_endpoint default_config steady_env "swob" items_url "swob_raw" world_refused_page
      = (Ok tt, w') ∧
    global_last_processed_dt (substate (w_state w') "swob")
      = global_last_processed_dt (substate (w_state world_refused_page) "swob") ∧
    per_station (substate (w_state w') "swob")
      = per_station (substate (w_state world_refused_page) "swob") ∧
    w_puts w' = w_puts world_refused_page ∧
    w_responses w' = [].
Proof.
  apply (http_error_is_an_empty_run default_config steady_env "swob" items_url "swob_raw"
           world_refused_page (noon - timedelta_minutes 15) (tick (tick world_refused_page))
           [page_a] ["https://api/items?offset=2"] 503 []).
  - discriminate.
  - vm_compute. reflexivity.
  - vm_compute. repeat split.
  - reflexivity.
Defined.

Lemma record_empty_run_puts `{DatetimeLib} env name rs w r w' :
  record_empty_run env name rs w = (r, w') → w_puts w' = w_puts w.
Proof.
  apply (preserves_record_empty_run (λ a b, w_puts b = w_puts a) name); try done.
  intros a b c Hab Hbc. by rewrite Hbc.
Qed.

Lemma record_run_puts `{DatetimeLib} `{PyRuntime} cfg env name prefix rs start features
    w r w' :
  record_run cfg env name prefix rs start features w = (r, w') →
  at_most_one_delta w w'.
Proof.
  unfold record_run. unfold bind at 1.
  replace (setdefault_source name w) with (Ok tt, snd (setdefault_source name w))
    by reflexivity.
  unfold bind at 1.
  destruct (process_features _ _ _ _ _ _) as [[ls|e] w3] eqn:Hloop;
    apply process_features_same_io in Hloop as (Hp3 & _ & _);
    cbn [setdefault_source modify_state snd w_puts set_state] in Hp3;
    [|intros [= _ <-]; by left].
  unfold bind at 1. rewrite upload_delta_eq.
  destruct (new_features ls) as [|f new] eqn:Hnew.
  - intros [= _ <-]. left. cbn [w_puts set_state tick]. done.
  - destruct (put_ok env _).
    + intros [= _ <-]. right. eexists _, (f :: new). split; [done|].
      cbn [w_puts set_state tick add_put]. by rewrite Hp3.
    + intros [= _ <-]. right. eexists _, (f :: new). split; [done|].
      cbn [w_puts set_state tick add_put]. by rewrite Hp3.
Qed.

(** X16.  Whatever the outcome, a run of one source makes at most one
    [put_object] call, and if it makes one it is a delta artifact with at
    least one feature: [process_endpoint] never writes the state object
    and never uploads an empty delta. *)
Theorem source_run_writes_at_most_one_delta `{DatetimeLib} `{PyRuntime} (cfg : Config)
    (env : Env) (name url prefix : string) (w : World) (r : outcome unit) (w' : World) :
  process_endpoint cfg env name url prefix w = (r, w') →
  w_puts w' = w_puts w ∨
  ∃ key feats, feats ≠ [] ∧ w_puts w' = w_puts w ++ [PutDelta key feats].
Proof.
  rewrite process_endpoint_eq.
  destruct (compute_fetch_start cfg env name (tick w)) as [[start|e] w1] eqn:Hstart;
    apply compute_fetch_start_same_io in Hstart as (Hp1 & _ & _);
    cbn [w_puts tick] in Hp1; [|intros [= _ <-]; by left].
  destruct (fetch_features_with_paging _ _ _ _) as [[features|e] w2] eqn:Hfetch;
    apply fetch_puts in Hfetch; [|intros [= _ <-]; left; congruence].
  destruct features as [|f rest].
  - intros Hrun. apply record_empty_run_puts in Hrun. left. congruence.
  - intros Hrun. apply record_run_puts in Hrun. unfold at_most_one_delta in Hrun.
    by rewrite Hfetch, Hp1 in Hrun.
Qed.

Lemma source_run_writes_at_most_one_delta_witness :
  let w' := snd (process_endpoint default_config steady_env "swob" items_url "swob_raw"
                   fresh_world) in
  w_puts w' = w_puts fresh_world ∨
  ∃ key feats, feats ≠ [] ∧ w_puts w' = w_puts fresh_world ++ [PutDelta key feats].
Proof.
  intros w'.
  apply (source_run_writes_at_most_one_delta default_config steady_env "swob" items_url
           "swob_raw" fresh_world
           (fst (process_endpoint default_config steady_env "swob" items_url "swob_raw"
                   fresh_world)) w').
  apply surjective_pairing.
Defined.

(** X17.  What a run with a non-empty batch commits when it returns.  The
    loop over the batch has finished; the global watermark is the
    [isoformat] of its [max_seen_dt], which is at or after the start of
    the fetch window; the station watermarks are those the loop left;
    [stations_tracked] is their number; the run metadata carries the
    length of the batch, the number of accepted features and the two
    rejection counters, which together do not exceed the length of the
    batch; and the store received one delta holding exactly the accepted
    features, or nothing if none was accepted. *)
Theorem successful_run_commits_the_loop `{DatetimeLib} `{PyRuntime} (cfg : Config)
    (env : Env) (name url prefix : string) (w : World) (start : datetime)
    (features : list value) (w2 w' : World) :
  fetched cfg env name url w start features w2 →
  features ≠ [] →
  process_endpoint cfg env name url prefix w = (Ok tt, w') →
  ∃ ls w3 m,
    process_features cfg env name features (init_loop start)
      (snd (setdefault_source name w2)) = (Ok ls, w3) ∧
    global_last_processed_dt (substate (w_state w') name)
      = Some (isoformat (max_seen_dt ls)) ∧
    start ≤ max_seen_dt ls ∧
    per_station (substate (w_state w') name) = per_station (substate (w_state w3) name) ∧
    stations_tracked (substate (w_state w') name)
      = Some (size (per_station (substate (w_state w') name))) ∧
    run_metadata (substate (w_state w') name) = Some m ∧
    features_fetched m = length features ∧
    features_new m = length (new_features ls) ∧
    features_rejected_quality m = Some (rejected_quality_count ls) ∧
    features_rejected_timestamp m = Some (rejected_timestamp_count ls) ∧
    (features_new m + rejected_quality_count ls + rejected_timestamp_count ls
       ≤ features_fetched m)%nat ∧
    match new_features ls with
    | [] => w_puts w' = w_puts w
    | new => ∃ t1 t2, w_puts w' = w_puts w ++ [PutDelta (delta_key name prefix t1 t2) new]
    end.
Proof.
  intros Hfetched Hne Hrun.
  destruct (process_endpoint_fetched cfg env name url prefix _ _ _ _ Hfetched)
    as (Heq & Hs2 & Hp2).
  rewrite Heq in Hrun. destruct features as [|f rest]; [done|]. clear Heq Hne.
  pose proof Hrun as Hrun'. unfold record_run in Hrun'. unfold bind at 1 in Hrun'.
  replace (setdefault_source name w2) with (Ok tt, snd (setdefault_source name w2))
    in Hrun' by reflexivity.
  unfold bind at 1 in Hrun'.
  destruct (process_features _ _ _ _ _ _) as [[ls|e] w3] eqn:Hloop; [|done].
  unfold bind at 1 in Hrun'.
  destruct (upload_delta env name prefix (new_features ls) w3) as [[[]|e] w4] eqn:Hup;
    [|done].
  clear Hrun'.
  destruct (record_run_commits cfg env name prefix (now_of env w) start (f :: rest)
              w2 ls w3 w4 Hloop Hup)
    as (w'' & m & Hrun2 & Hg & Hps & Htr & Hm & Hff & Hfn & Hrq & Hrt & Hp).
  rewrite Hrun in Hrun2. injection Hrun2 as <-.
  exists ls, w3, m. split; [done|]. split; [done|].
  pose proof (process_features_same_io _ _ _ _ _ _ _ _ Hloop) as (Hp3 & _ & _).
  cbn [setdefault_source modify_state snd w_puts set_state] in Hp3.
  split.
  { by apply process_features_tally in Hloop as [_ ?]. }
  split; [done|]. split; [by rewrite Htr, Hps|]. split; [done|].
  split; [done|]. split; [done|]. split; [done|]. split; [done|]. split.
  { rewrite Hff, Hfn. apply process_features_tally in Hloop as [Htally _].
    unfold tally in Htally.
    cbn [init_loop new_features rejected_quality_count rejected_timestamp_count length]
      in Htally |- *.
    lia. }
  rewrite upload_delta_eq in Hup. rewrite Hp.
  destruct (new_features ls) as [|g new].
  - injection Hup as <-. congruence.
  - exists (now_of env w3), (now_of env (tick w3)).
    apply (f_equal (λ p, w_puts (snd p))) in Hup. cbn [snd w_puts add_put tick] in Hup.
    rewrite <- Hup. congruence.
Qed.

Lemma successful_run_commits_the_loop_witness :
  let start := noon - timedelta_minutes 15 in
  let features := [VDict after_noon] in
  let w2 := snd (fetch_features_with_paging items_url (window_params start) 500
                   (tick (tick fresh_world))) in
  let w' := snd (process_endpoint default_config steady_env "swob" items_url "swob_raw"
                   fresh_world) in
  ∃ ls w3 m,
    process_features default_config steady_env "swob" features (init_loop start)
      (snd (setdefault_source "swob" w2)) = (Ok ls, w3) ∧
    global_last_processed_dt (substate (w_state w') "swob")
      = Some (isoformat (max_seen_dt ls)) ∧
    start ≤ max_seen_dt ls ∧
    per_station (substate (w_state w') "swob") = per_station (substate (w_state w3) "swob") ∧
    stations_tracked (substate (w_state w') "swob")
      = Some (size (per_station (substate (w_state w') "swob"))) ∧
    run_metadata (substate (w_state w') "swob") = Some m ∧
    features_fetched m = length features ∧
    features_new m = length (new_features ls) ∧
    features_rejected_quality m = Some (rejected_quality_count ls) ∧
    features_rejected_timestamp m = Some (rejected_timestamp_count ls) ∧
    (features_new m + rejected_quality_count ls + rejected_timestamp_count ls
       ≤ features_fetched m)%nat ∧
    match new_features ls with
    | [] => w_puts w' = w_puts fresh_world
    | new => ∃ t1 t2,
        w_puts w' = w_puts fresh_world ++ [PutDelta (delta_key "swob" "swob_raw" t1 t2) new]
    end.
Proof.
  intros start features w2 w'.
  apply (successful_run_commits_the_loop default_config steady_env "swob" items_url "swob_raw"
           fresh_world start features w2 w').
  - exists (tick (tick fresh_world)). split; vm_compute; reflexivity.
  - discriminate.
  - vm_compute. reflexivity.
Defined.

(** X18.  A refused upload.  If the loop has accepted at least one feature
    and the store refuses the delta, [process_endpoint] raises the
    store's error after the one [put_object] attempt; the global
    watermark has not been written, while the station watermarks are
    already those the loop advanced; the orchestrator's handler then puts
    the source back to its pre-run snapshot. *)
Theorem refused_upload_raises `{DatetimeLib} `{PyRuntime} (cfg : Config) (env : Env)
    (name url prefix : string) (w : World) (start : datetime) (features : list value)
    (w2 : World) (ls : Loop) (w3 : World) :
  fetched cfg env name url w start features w2 →
  features ≠ [] →
  process_features cfg env name features (init_loop start)
    (snd (setdefault_source name w2)) = (Ok ls, w3) →
  new_features ls ≠ [] →
  put_ok env (length (w_puts w)) = false →
  ∃ w' key,
    process_endpoint cfg env name url prefix w = (Raise ClientError, w') ∧
    w_puts w' = w_puts w ++ [PutDelta key (new_features ls)] ∧
    global_last_processed_dt (substate (w_state w') name)
      = global_last_processed_dt (substate (w_state w) name) ∧
    per_station (substate (w_state w') name) = per_station (substate (w_state w3) name) ∧
    ∀ original,
      substate (w_state (snd (process_source cfg env original name url prefix w))) name
        = substate original name.
Proof.
  intros Hfetched Hne Hloop Hnew Hput.
  destruct (process_endpoint_fetched cfg env name url prefix _ _ _ _ Hfetched)
    as (Heq & Hs2 & Hp2).
  destruct features as [|f rest]; [done|]. clear Hne.
  pose proof (process_features_same_io _ _ _ _ _ _ _ _ Hloop) as (Hp3 & _ & _).
  cbn [setdefault_source modify_state snd w_puts set_state] in Hp3.
  assert (Hrun : record_run cfg env name prefix (now_of env w) start (f :: rest) w2 =
            (Raise ClientError,
             add_put (PutDelta (delta_key name prefix (now_of env w3) (now_of env (tick w3)))
                        (new_features ls)) (tick (tick w3)))).
  { unfold record_run. unfold bind at 1.
    replace (setdefault_source name w2) with (Ok tt, snd (setdefault_source name w2))
      by reflexivity.
    unfold bind at 1. rewrite Hloop. unfold bind at 1. rewrite upload_delta_eq.
    destruct (new_features ls) as [|g new]; [done|].
    by rewrite Hp3, Hp2, Hput. }
  rewrite Hrun in Heq. eexists _, _. split; [exact Heq|].
  cbn [w_puts w_state add_put tick]. split; [by rewrite Hp3, Hp2|].
  assert (Hglobal : global_last_processed_dt (substate (w_state w3) name)
                    = global_last_processed_dt (substate (w_state w) name)).
  { assert (Hkeep : ∀ fs ls0 w0 r0 w0',
              process_features cfg env name fs ls0 w0 = (r0, w0') →
              global_last_processed_dt (substate (w_state w0') name)
              = global_last_processed_dt (substate (w_state w0) name)).
    { induction fs as [|g fs IH]; intros ls0 w0 r0 w0' Hl.
      - by injection Hl as _ <-.
      - cbn [process_features] in Hl. unfold bind in Hl.
        destruct (process_feature cfg env name g ls0 w0) as [[ls1|e] w1] eqn:Hstep.
        + rewrite (IH _ _ _ _ Hl).
          destruct (process_feature_state _ _ _ _ _ _ _ _ Hstep) as [->|(t & _ & ->)];
            [done|apply advance_station_global].
        + injection Hl as _ <-.
          destruct (process_feature_state _ _ _ _ _ _ _ _ Hstep) as [->|(t & _ & ->)];
            [done|apply advance_station_global]. }
    rewrite (Hkeep _ _ _ _ _ Hloop). cbn [setdefault_source modify_state snd w_state set_state].
    rewrite Hs2. unfold substate.
    destruct (w_state w !! name) eqn:E; [by rewrite E|by rewrite lookup_insert_eq]. }
  split; [exact Hglobal|]. split; [done|].
  intros original. unfold process_source, try_except. rewrite Heq.
  cbn [snd modify_state set_state w_state]. apply substate_insert.
Qed.

Lemma refused_upload_raises_witness :
  ∃ ls w' key,
    process_endpoint default_config refusing_env "swob" items_url "swob_raw" fresh_world
      = (Raise ClientError, w') ∧
    w_puts w' = w_puts fresh_world ++ [PutDelta key (new_features ls)] ∧
    new_features ls = [VDict after_noon] ∧
    global_last_processed_dt (substate (w_state w') "swob")
      = global_last_processed_dt (substate (w_state fresh_world) "swob") ∧
    ∀ original,
      substate (w_state (snd (process_source default_config refusing_env original "swob"
                                items_url "swob_raw" fresh_world))) "swob"
        = substate original "swob".
Proof.
  pose (start := noon - timedelta_minutes 15).
  pose (w2 := snd (fetch_features_with_paging items_url (window_params start) 500
                     (tick (tick fresh_world)))).
  destruct (process_features default_config refusing_env "swob" [VDict after_noon]
              (init_loop start) (snd (setdefault_source "swob" w2)))
    as [[ls|e] w3] eqn:Hloop; [|vm_compute in Hloop; discriminate Hloop].
  assert (Hnew : new_features ls = [VDict after_noon]).
  { apply (f_equal fst) in Hloop. vm_compute in Hloop. by injection Hloop as <-. }
  destruct (refused_upload_raises default_config refusing_env "swob" items_url "swob_raw"
              fresh_world start [VDict after_noon] w2 ls w3)
    as (w' & key & Hrun & Hputs & Hglobal & _ & Hback).
  - exists (tick (tick fresh_world)). split; vm_compute; reflexivity.
  - discriminate.
  - exact Hloop.
  - rewrite Hnew. discriminate.
  - reflexivity.
  - exists ls, w', key. repeat split; assumption.
Defined.

(** X19.  A run of one source, whatever its outcome, leaves the entry of
    every other source in the state exactly as it was. *)
Theorem sources_do_not_interfere `{DatetimeLib} `{PyRuntime} (cfg : Config) (env : Env)
    (name url prefix : string) (w : World) (r : outcome unit) (w' : World) (other : string) :
  process_endpoint cfg env name url prefix w = (r, w') →
  other ≠ name →
  w_state w' !! other = w_state w !! other.
Proof.
  intros Hrun Hother.
  apply (preserves_process_endpoint (elsewhere name) name) in Hrun; unfold elsewhere in *;
    try done.
  - by apply Hrun.
  - intros w1 w2 w3 H12 H23 m Hm. by rewrite H23, H12.
  - intros w0 ns m Hm. cbn. by rewrite lookup_insert_ne.
Qed.

Lemma sources_do_not_interfere_witness :
  w_state (snd (process_endpoint default_config steady_env "swob" items_url "swob_raw"
                  fresh_world)) !! "hydrometric"
  = w_state fresh_world !! "hydrometric".
Proof.
  apply (sources_do_not_interfere default_config steady_env "swob" items_url "swob_raw"
           fresh_world
           (fst (process_endpoint default_config steady_env "swob" items_url "swob_raw"
                   fresh_world))).
  - apply surjective_pairing.
  - discriminate.
Defined.

(** X20.  A global watermark the parser turns down.  If the stored global
    watermark of the source is a non-empty string that the parser cannot
    read or places outside the validation window, [process_endpoint]
    raises [TypeError] (the subtraction of the overlap from [None]) before
    any request is made and before anything is written: state, request
    log and store are as they were, and the orchestrator's rollback
    leaves the source with the same sub-state. *)
Theorem unreadable_global_watermark_stops_the_source `{DatetimeLib} `{PyRuntime}
    (cfg : Config) (env : Env) (name url prefix : string) (w : World) (s : string) :
  global_last_processed_dt (substate (w_state w) name) = Some s →
  s ≠ "" →
  (∀ W, parse_raw (VStr s) = Some W → in_window cfg (now_of env (tick w)) W = false) →
  ∃ w',
    process_endpoint cfg env name url prefix w = (Raise TypeError, w') ∧
    w_state w' = w_state w ∧ w_requests w' = w_requests w ∧ w_puts w' = w_puts w ∧
    ∀ original,
      substate original name = substate (w_state w) name →
      substate (w_state (snd (process_source cfg env original name url prefix w))) name
        = substate (w_state w) name.
Proof.
  intros Hs Hne Hbad.
  pose proof (unreadable_watermark_raises cfg env name (tick w) s Hs Hne Hbad) as Hraise.
  destruct (compute_fetch_start cfg env name (tick w)) as [r1 w1] eqn:Hstart.
  cbn [fst] in Hraise. subst r1.
  assert (Hrun : process_endpoint cfg env name url prefix w = (Raise TypeError, w1))
    by by rewrite process_endpoint_eq, Hstart.
  exists w1. split; [exact Hrun|].
  pose proof (compute_fetch_start_state _ _ _ _ _ _ Hstart) as Hs1.
  pose proof (compute_fetch_start_same_io _ _ _ _ _ _ Hstart) as (Hp1 & Hq1 & _).
  split; [done|]. split; [done|]. split; [done|].
  intros original Horig. unfold process_source, try_except. rewrite Hrun.
  cbn [snd modify_state set_state w_state]. by rewrite substate_insert.
Qed.

Lemma unreadable_global_watermark_stops_the_source_witness :
  ∃ w',
    process_endpoint default_config steady_env "hydrometric" items_url "hydrometric_raw"
      fresh_world = (Raise TypeError, w') ∧
    w_state w' = w_state fresh_world ∧ w_requests w' = w_requests fresh_world ∧
    w_puts w' = w_puts fresh_world ∧
    ∀ original,
      substate original "hydrometric" = substate (w_state fresh_world) "hydrometric" →
      substate (w_state (snd (process_source default_config steady_env original "hydrometric"
                                items_url "hydrometric_raw" fresh_world))) "hydrometric"
        = substate (w_state fresh_world) "hydrometric".
Proof.
  apply (unreadable_global_watermark_stops_the_source default_config steady_env "hydrometric"
           items_url "hydrometric_raw" fresh_world "2020-01-01T00:00:00+00:00").
  - vm_compute. reflexivity.
  - discriminate.
  - intros W HW. vm_compute in HW. injection HW as <-. vm_compute. reflexivity.
Defined.

(** ** The orchestrator's own failures *)

Lemma main_reaches_the_put `{DatetimeLib} `{PyRuntime} (cfg : Config) (env : Env)
    (stored : stored_state) (w0 : World) :
  S3_BUCKET_NAME cfg ≠ "" →
  stored ≠ GetFailed →
  ∃ wc, main cfg env stored w0 = s3_put_json cfg env wc.
Proof.
  intros Hb Hst. unfold main.
  destruct (String.eqb_spec (S3_BUCKET_NAME cfg) "") as [|_]; [done|].
  destruct stored as [st| |]; [| |done]; eexists;
    unfold s3_get_json, bind at 1, ret, modify_state, get_state;
    (unfold bind at 1; unfold bind at 1; unfold bind at 1;
     rewrite process_source_returns;
     unfold bind at 1; rewrite process_source_returns;
     unfold bind at 1; rewrite process_source_returns; reflexivity).
Qed.

(** X21.  With a bucket configured, [main] fails only on the store.  A
    checkpoint that cannot be read makes it raise at once, with no
    request made and nothing written; a store that accepts every write
    makes it return normally whatever happens to the three sources; and
    whenever it raises, the error is the store's, and either the
    checkpoint could not be read or the last [put_object] call of the run
    was the state object and was refused. *)
Theorem run_fails_only_on_the_store `{DatetimeLib} `{PyRuntime} (cfg : Config) (env : Env)
    (stored : stored_state) (w0 : World) :
  S3_BUCKET_NAME cfg ≠ "" →
  (stored = GetFailed → main cfg env stored w0 = (Raise ClientError, w0)) ∧
  (stored ≠ GetFailed → (∀ n, put_ok env n = true) →
   fst (main cfg env stored w0) = Ok tt) ∧
  (∀ e, fst (main cfg env stored w0) = Raise e →
   e = ClientError ∧
   (stored = GetFailed ∨
    ∃ st, last (w_puts (snd (main cfg env stored w0))) = Some (PutState (STATE_S3_KEY cfg) st) ∧
          put_ok env (pred (length (w_puts (snd (main cfg env stored w0))))) = false)).
Proof.
  intros Hb. split; [|split].
  - intros ->. unfold main.
    by destruct (String.eqb_spec (S3_BUCKET_NAME cfg) "") as [|_].
  - intros Hst Hput. destruct (main_reaches_the_put cfg env stored w0 Hb Hst) as [wc ->].
    unfold s3_put_json, bind, get_state, put_object. by rewrite Hput.
  - intros e He.
    assert (stored = GetFailed ∨ stored ≠ GetFailed) as [->|Hst]
      by (destruct stored; auto).
    + revert He. unfold main.
      destruct (String.eqb_spec (S3_BUCKET_NAME cfg) "") as [|_]; [done|].
      cbn. intros [= <-]. split; [done|by left].
    + destruct (main_reaches_the_put cfg env stored w0 Hb Hst) as [wc Hwc].
      rewrite Hwc in He |- *. revert He.
      unfold s3_put_json, bind, get_state, put_object.
      destruct (put_ok env (length (w_puts wc))) eqn:Hput; [done|].
      cbn [fst snd w_puts]. intros [= <-]. split; [done|]. right.
      exists (w_state wc). rewrite last_snoc, length_app. cbn [length].
      by rewrite Nat.add_1_r.
Qed.

Lemma run_fails_only_on_the_store_witness :
  main default_config steady_env GetFailed stale_world = (Raise ClientError, stale_world) ∧
  fst (main default_config steady_env (Stored stale_checkpoint) stale_world) = Ok tt ∧
  fst (main default_config refusing_env (Stored stale_checkpoint) stale_world)
    = Raise ClientError.
Proof.
  split; [|split].
  - apply (proj1 (run_fails_only_on_the_store default_config steady_env GetFailed stale_world
                    ltac:(discriminate))). reflexivity.
  - apply (proj1 (proj2 (run_fails_only_on_the_store default_config steady_env
                           (Stored stale_checkpoint) stale_world ltac:(discriminate)))).
    + discriminate.
    + reflexivity.
  - destruct (fst (main default_config refusing_env (Stored stale_checkpoint) stale_world))
      as [[]|e] eqn:Hrun; [vm_compute in Hrun; discriminate Hrun|].
    pose proof (proj2 (proj2 (run_fails_only_on_the_store default_config refusing_env
                                (Stored stale_checkpoint) stale_world ltac:(discriminate)))
                  e Hrun) as [-> _].
    reflexivity.
Defined.
